(** * IndustrialScanner-Lite: classification, probing and index consolidation

    A shallow embedding of the Python sources
    - [dnp3_monitor/parsers.py], [dnp3_monitor/dnp3_analyze.py],
    - [s7_comm_analyzer/parsers.py], [s7_comm_analyzer/s7_analyze.py],
    - [modbus_scanner/utils.py], [modbus_scanner/modbus_scan.py],
    - [build_global_index.py], [build_dnp3_index.py], [build_s7_index.py],
    followed by the properties of the specification that are stated about
    them.

    Python [bytes] are [list byte], Python [str] are [string] (the strings
    whose code points are below 256), Python [int] are [Z], Python [float]
    are the kernel's binary64 [float], Python sets of strings are
    [gset string], JSON objects are [gmap string json].  A raised exception
    is an explicit [Raise] result. *)

From Stdlib Require Import ZArith List String Ascii Lia Permutation.
From Stdlib.Strings Require Import Byte.
From Stdlib Require DecimalString.
From Stdlib Require Import PrimFloat.
From Stdlib Require SpecFloat FloatOps.
From stdpp Require Import base option list gmap sets strings.

#[local] Open Scope string_scope.
#[local] Open Scope Z_scope.
#[local] Set Warnings "-clear-no-such-hyp".
#[local] Set Warnings "-inexact-float".

(* ===================================================================== *)
(** ** Python values shared by all modules *)
(* ===================================================================== *)

(** Exceptions that the modelled code can raise. *)
Inductive exn : Type :=
| IndexError
| AttributeError
| TypeError
| OSError
| JSONDecodeError
| OverflowError.

Inductive result (A : Type) : Type :=
| Ok (a : A)
| Raise (e : exn).
Arguments Ok {A} a.
Arguments Raise {A} e.

(** Sequencing: the first exception raised aborts what follows.  With
    these instances stdpp's [x ← r; k] notation reads as Python's
    statement sequence. *)
#[global] Instance result_ret : MRet result := λ A a, Ok a.
#[global] Instance result_bind : MBind result := λ A B k r,
  match r with
  | Ok a => k a
  | Raise e => Raise e
  end.

(** [try: body except: handler] for a handler that catches everything. *)
Definition try_except {A : Type} (body : result A) (handler : exn → A) : A :=
  match body with
  | Ok a => a
  | Raise e => handler e
  end.

(** [b"..."] literals. *)
Definition b (s : string) : list byte := list_byte_of_string s.

(** [bytes.decode("latin-1")]: every byte is the code point of one
    character. *)
Definition decode_latin1 (bs : list byte) : string := string_of_list_byte bs.

(** [hay.startswith(needle)] on bytes. *)
Fixpoint bytes_startswith (needle hay : list byte) : bool :=
  match needle, hay with
  | [], _ => true
  | _ :: _, [] => false
  | x :: needle', y :: hay' => Byte.eqb x y && bytes_startswith needle' hay'
  end.

(** [needle in hay] for two [bytes] objects: substring search. *)
Fixpoint bytes_in (needle hay : list byte) : bool :=
  bytes_startswith needle hay
  || match hay with
     | [] => false
     | _ :: hay' => bytes_in needle hay'
     end.

(** [x in payload] for an integer [x] and a [bytes] payload. *)
Definition byte_in (x : byte) (payload : list byte) : bool :=
  existsb (Byte.eqb x) payload.

(** [len(x)] as a Python integer. *)
Definition len {A : Type} (l : list A) : Z := Z.of_nat (length l).

(** [s in names] for a set literal of strings. *)
Definition str_in (s : string) (names : list string) : bool :=
  existsb (String.eqb s) names.

(** [x or "unknown"] on an attribute that may be [None] or empty. *)
Definition or_unknown (x : option string) : string :=
  match x with
  | None => "unknown"
  | Some s => if String.eqb s "" then "unknown" else s
  end.

(** [payload[i]] on bytes. *)
Definition index (payload : list byte) (i : nat) : result byte :=
  match payload !! i with
  | Some x => Ok x
  | None => Raise IndexError
  end.

(** [for x in xs: st = body(st, x)], stopping at the first exception. *)
Fixpoint for_each {S A : Type} (body : S → A → result S) (st : S) (xs : list A)
  : result S :=
  match xs with
  | [] => Ok st
  | x :: xs' => st' ← body st x; for_each body st' xs'
  end.

(** [list(filter(None, hosts))] keeps the non-empty strings of a set; the
    order of the resulting list is the iteration order of the Python set,
    which the language leaves open, so the result is kept as a set. *)
Definition filter_None (hosts : gset string) : gset string :=
  filter (λ h, h ≠ "") hosts.

(* ===================================================================== *)
(** ** Captured frames (the part of scapy the analyzers look at) *)
(* ===================================================================== *)

(** A frame is a stack of layers, outermost first, as scapy dissects it
    out of a capture file.  A Raw layer takes every byte that the layers
    around it leave over, so what lies beneath a Raw layer is Padding (the
    bytes of the frame beyond the length that its headers announce) and,
    in a stack put together by hand, further Raw and Padding layers; no
    protocol header lies beneath a Raw layer.  [Padding] is a class of its
    own: [Raw in pkt] and [pkt[Raw]] do not match it.  [OtherLayer] is a
    layer of any other class that has no [src] and [dst] field of its own
    (a VLAN tag, an ARP message). *)
Inductive layer : Type :=
| Ether (src dst : string)
| IP (src dst : string)
| TCP (sport dport : Z)
| UDP (sport dport : Z)
| Raw (load : list byte)
| Padding (load : list byte)
| OtherLayer.

Definition packet : Type := list layer.

(** [getattr(layer, "src", None)] and [getattr(layer, "dst", None)] for
    a layer given with the layers beneath it: scapy looks a field up in
    the layer itself and, when the layer has no field of that name, in
    the layers beneath it, one after the other. *)
Fixpoint layer_src (layers : list layer) : option string :=
  match layers with
  | [] => None
  | Ether s _ :: _ | IP s _ :: _ => Some s
  | _ :: beneath => layer_src beneath
  end.

Fixpoint layer_dst (layers : list layer) : option string :=
  match layers with
  | [] => None
  | Ether _ d :: _ | IP _ d :: _ => Some d
  | _ :: beneath => layer_dst beneath
  end.

(** [pkt[TCP]] when [TCP in pkt]: the ports of the first TCP layer. *)
Fixpoint tcp_ports (pkt : packet) : option (Z * Z) :=
  match pkt with
  | [] => None
  | TCP sp dp :: _ => Some (sp, dp)
  | _ :: rest => tcp_ports rest
  end.

Fixpoint udp_ports (pkt : packet) : option (Z * Z) :=
  match pkt with
  | [] => None
  | UDP sp dp :: _ => Some (sp, dp)
  | _ :: rest => udp_ports rest
  end.

(** [bytes(layer)] serialises a layer together with everything beneath
    it.  scapy's [build] is [do_build() + build_padding()]: [do_build]
    puts the loads of the Raw layers one after the other (a Padding layer
    builds to nothing there), and [build_padding] appends the loads of the
    Padding layers after all of them. *)
Fixpoint do_build (layers : list layer) : list byte :=
  match layers with
  | [] => []
  | Raw load :: beneath => (load ++ do_build beneath)%list
  | _ :: beneath => do_build beneath
  end.

Fixpoint build_padding (layers : list layer) : list byte :=
  match layers with
  | [] => []
  | Padding load :: beneath => (load ++ build_padding beneath)%list
  | _ :: beneath => build_padding beneath
  end.

(** [bytes(pkt[Raw])] when [Raw in pkt]: the first Raw layer, serialised
    with the layers beneath it.  A short payload in a frame that the
    sender padded to the minimum Ethernet size comes out with the padding
    bytes at its end. *)
Fixpoint raw_payload (pkt : packet) : option (list byte) :=
  match pkt with
  | [] => None
  | Raw load :: beneath =>
      Some (load ++ do_build beneath ++ build_padding beneath)%list
  | _ :: rest => raw_payload rest
  end.

(** [pkt[0][1]]: the frame from its second layer on, [IndexError] if it
    has one layer only. *)
Definition second_layer (pkt : packet) : result (list layer) :=
  match pkt with
  | _ :: l :: beneath => Ok (l :: beneath)
  | _ => Raise IndexError
  end.

(** The two analyzers admit a frame on its transport ports alone. *)
Definition port_match (ports : option (Z * Z)) (port : Z) : bool :=
  match ports with
  | Some (sp, dp) => (dp =? port) || (sp =? port)
  | None => false
  end.

(* ===================================================================== *)
(** ** dnp3_monitor *)
(* ===================================================================== *)

Module Dnp3.

(** [parsers.py] *)

Definition SUSPECT_FUNCS : list string :=
  ["Operate"; "Write"; "EnableUnsolicited";
   "ColdRestart"; "WarmRestart"; "ClearRestart"].

Definition HINTS : list (list byte) :=
  [b "UNSOL"; b "OPER"; b "RESTART"; b "SELECT"; b "READ"; b "WRITE"; b "DNP"].

Definition _classify_app_function (payload : list byte) : string :=
  if (len payload =? 0) || (len payload <? 8) then "UnknownDNP3"
  else if bytes_in (b "READ") payload then "Read"
  else if bytes_in (b "WRITE") payload then "Write"
  else if bytes_in (b "OPER") payload then "Operate"
  else if bytes_in (b "SELECT") payload then "Select"
  else if bytes_in (b "UNSOL") payload then "EnableUnsolicited"
  else if bytes_in (b "COLD") payload && bytes_in (b "RESTART") payload
       then "ColdRestart"
  else if bytes_in (b "WARM") payload && bytes_in (b "RESTART") payload
       then "WarmRestart"
  else if bytes_in (b "CLEAR") payload && bytes_in (b "RESTART") payload
       then "ClearRestart"
  else "UnknownDNP3".

(** The dict returned by [parse_dnp3_packet]. *)
Record record : Type := mk_record {
  src : string;
  dst : string;
  function : string;
  length : Z;
  hints : list string;
  suspect : bool;
}.

(** The loop [for h in HINTS: if h in payload: hints.append(...)]. *)
Definition collect_hints (payload : list byte) : list string :=
  map decode_latin1 (List.filter (λ h, bytes_in h payload) HINTS).

(** [None] result of the Python function is [Ok None]; a missing second
    layer makes [pkt[0][1]] raise. *)
Definition parse_dnp3_packet (pkt : packet) : result (option record) :=
  match raw_payload pkt with
  | None => Ok None
  | Some payload =>
      l1 ← second_layer pkt;
      let src := layer_src l1 in
      let dst := layer_dst l1 in
      let func := _classify_app_function payload in
      let hints := collect_hints payload in
      Ok (Some {| src := or_unknown src;
                  dst := or_unknown dst;
                  function := func;
                  length := len payload;
                  hints := hints;
                  suspect := str_in func SUSPECT_FUNCS |})
  end.

(** [dnp3_analyze.py] *)

Record summary : Type := mk_summary {
  total_packets : Z;
  dnp3_packets : Z;
  suspect_functions : Z;
  unique_hosts : gset string;
}.

(** The mutable locals of [analyze_pcap]: the [results] list and the
    [summary] dict. *)
Record state : Type := mk_state {
  results : list record;
  acc : summary;
}.

Definition init : state :=
  {| results := [];
     acc := {| total_packets := 0; dnp3_packets := 0;
               suspect_functions := 0; unique_hosts := ∅ |} |}.

Definition is_dnp3 (pkt : packet) : bool :=
  port_match (tcp_ports pkt) 20000 || port_match (udp_ports pkt) 20000.

(** One iteration of [for pkt in packets]. *)
Definition step (st : state) (pkt : packet) : result state :=
  let s := acc st in
  let s := {| total_packets := total_packets s + 1;
              dnp3_packets := dnp3_packets s;
              suspect_functions := suspect_functions s;
              unique_hosts := unique_hosts s |} in
  if negb (is_dnp3 pkt) then Ok {| results := results st; acc := s |}
  else
    parsed ← parse_dnp3_packet pkt;
    match parsed with
    | None => Ok {| results := results st; acc := s |}
    | Some r =>
        Ok {| results := results st ++ [r];
              acc := {| total_packets := total_packets s;
                        dnp3_packets := dnp3_packets s + 1;
                        suspect_functions :=
                          (if suspect r then suspect_functions s + 1
                           else suspect_functions s);
                        unique_hosts :=
                          {[dst r]} ∪ ({[src r]} ∪ unique_hosts s) |} |}
    end.

(** The returned report, without its [meta] timestamp and file name. *)
Definition analyze_pcap (packets : list packet) : result state :=
  st ← for_each step init packets;
  Ok {| results := results st;
        acc := {| total_packets := total_packets (acc st);
                  dnp3_packets := dnp3_packets (acc st);
                  suspect_functions := suspect_functions (acc st);
                  unique_hosts := filter_None (unique_hosts (acc st)) |} |}.

End Dnp3.

(* ===================================================================== *)
(** ** s7_comm_analyzer *)
(* ===================================================================== *)

Module S7.

(** [parsers.py] *)

Definition FUNC_MAP_get (code : byte) : option string :=
  match code with
  | x04 => Some "ReadVar"
  | x05 => Some "WriteVar"
  | x02 => Some "Start"
  | x03 => Some "Stop"
  | xf0 => Some "SetupComm"
  | _ => None
  end.

Definition SUSPECT_FUNCS : list string :=
  ["WriteVar"; "Start"; "Stop"; "DownloadBlock"; "CopyRamToRom";
   "FirmwareUpdate"].

Definition BLOCK_HINTS : list (list byte) :=
  [b "OB1"; b "OB"; b "DB"; b "FB"; b "FC"; b "System"; b "PLC";
   b "Firmware"; b "Update"].

Definition _guess_function (payload : list byte) : result string :=
  match payload with
  | [] => Ok "NonS7Payload"
  | b0 :: _ =>
      if negb (Byte.eqb b0 x32) then Ok "NonS7Payload"
      else
        let big := 200 <=? len payload in
        let huge := 800 <=? len payload in
        func_byte ← index payload 1;
        let base := FUNC_MAP_get func_byte in
        if big && existsb (λ h, bytes_in h payload) BLOCK_HINTS
        then Ok "DownloadBlock"
        else if huge && (bytes_in (b "Firmware") payload
                         || bytes_in (b "Update") payload)
        then Ok "FirmwareUpdate"
        else if big && bytes_in (b "Copy") payload
                    && bytes_in (b "Rom") payload
        then Ok "CopyRamToRom"
        else match base with
             | Some name => Ok name
             | None =>
                 if byte_in x05 payload then Ok "WriteVar"
                 else if byte_in x04 payload then Ok "ReadVar"
                 else Ok "Unknown"
             end
  end.

(** The dict returned by [parse_s7_packet]; it has no [suspect] key. *)
Record record : Type := mk_record {
  src : string;
  dst : string;
  function_code : string;
  length : Z;
  hints : list string;
}.

Definition collect_hints (payload : list byte) : list string :=
  map decode_latin1 (List.filter (λ h, bytes_in h payload) BLOCK_HINTS).

Definition starts_with_0x32 (payload : list byte) : bool :=
  match payload with
  | b0 :: _ => Byte.eqb b0 x32
  | [] => false
  end.

Definition parse_s7_packet (pkt : packet) : result (option record) :=
  match raw_payload pkt with
  | None => Ok None
  | Some payload =>
      if (len payload <? 10) || negb (starts_with_0x32 payload) then Ok None
      else
        func_name ← _guess_function payload;
        l1 ← second_layer pkt;
        let src := layer_src l1 in
        let dst := layer_dst l1 in
        let hints := collect_hints payload in
        Ok (Some {| src := or_unknown src;
                    dst := or_unknown dst;
                    function_code := func_name;
                    length := len payload;
                    hints := hints |})
  end.

(** [s7_analyze.py] *)

Record summary : Type := mk_summary {
  total_packets : Z;
  s7_packets : Z;
  suspect_functions : Z;
  unique_hosts : gset string;
}.

Record state : Type := mk_state {
  results : list record;
  acc : summary;
}.

Definition init : state :=
  {| results := [];
     acc := {| total_packets := 0; s7_packets := 0;
               suspect_functions := 0; unique_hosts := ∅ |} |}.

(** The test of the innermost [if] of the loop, on the inline set
    literal of [analyze_pcap]. *)
Definition is_suspect (r : record) : bool :=
  str_in (function_code r)
    ["WriteVar"; "Start"; "Stop"; "DownloadBlock"; "CopyRamToRom";
     "FirmwareUpdate"].

Definition step (st : state) (pkt : packet) : result state :=
  let s := acc st in
  let s := {| total_packets := total_packets s + 1;
              s7_packets := s7_packets s;
              suspect_functions := suspect_functions s;
              unique_hosts := unique_hosts s |} in
  if port_match (tcp_ports pkt) 102 then
    parsed ← parse_s7_packet pkt;
    match parsed with
    | None => Ok {| results := results st; acc := s |}
    | Some r =>
        Ok {| results := results st ++ [r];
              acc := {| total_packets := total_packets s;
                        s7_packets := s7_packets s + 1;
                        suspect_functions :=
                          (if is_suspect r then suspect_functions s + 1
                           else suspect_functions s);
                        unique_hosts :=
                          {[dst r]} ∪ ({[src r]} ∪ unique_hosts s) |} |}
    end
  else Ok {| results := results st; acc := s |}.

Definition analyze_pcap (packets : list packet) : result state :=
  st ← for_each step init packets;
  Ok {| results := results st;
        acc := {| total_packets := total_packets (acc st);
                  s7_packets := s7_packets (acc st);
                  suspect_functions := suspect_functions (acc st);
                  unique_hosts := filter_None (unique_hosts (acc st)) |} |}.

End S7.

(* ===================================================================== *)
(** ** Python string methods used by the scanner *)
(* ===================================================================== *)

Module Str.

(** [str.isspace] on one character: the white space of Unicode below
    code point 256 is 9 to 13, 28 to 32, 133 (next line) and 160
    (no-break space). *)
Definition is_space (c : ascii) : bool :=
  let n := nat_of_ascii c in
  ((9 <=? n) && (n <=? 13) || (28 <=? n) && (n <=? 32)
   || (n =? 133) || (n =? 160))%nat.

Fixpoint lstrip (s : string) : string :=
  match s with
  | String c s' => if is_space c then lstrip s' else s
  | EmptyString => EmptyString
  end.

Fixpoint rstrip (s : string) : string :=
  match s with
  | String c s' =>
      let r := rstrip s' in
      if is_space c && String.eqb r "" then "" else String c r
  | EmptyString => EmptyString
  end.

Definition strip (s : string) : string := rstrip (lstrip s).

(** [s.startswith("@")] and [s[1:]]. *)
Definition startswith_char (c : ascii) (s : string) : bool :=
  match s with
  | String c' _ => Ascii.eqb c c'
  | EmptyString => false
  end.

Definition tail (s : string) : string :=
  match s with
  | String _ s' => s'
  | EmptyString => EmptyString
  end.

(** ["," in s]. *)
Fixpoint contains_char (c : ascii) (s : string) : bool :=
  match s with
  | String c' s' => Ascii.eqb c c' || contains_char c s'
  | EmptyString => false
  end.

(** [s.split(sep)] for a one-character separator; [cur] is the piece
    being read. *)
Fixpoint split_go (sep : ascii) (cur s : string) : list string :=
  match s with
  | String c s' =>
      if Ascii.eqb c sep then cur :: split_go sep "" s'
      else split_go sep (cur ++ String c "") s'
  | EmptyString => [cur]
  end.

Definition split (sep : ascii) (s : string) : list string :=
  split_go sep "" s.

(** Line boundaries of [str.splitlines] below code point 256. *)
Definition is_linebreak (c : ascii) : bool :=
  let n := nat_of_ascii c in
  ((10 <=? n) && (n <=? 13) || (28 <=? n) && (n <=? 30) || (n =? 133))%nat.

Definition CR : ascii := ascii_of_nat 13.
Definition LF : ascii := ascii_of_nat 10.

(** [after_cr] remembers that the previous character was a carriage
    return, so that a line feed right after it ends no second line. *)
Fixpoint splitlines_go (cur : string) (after_cr : bool) (s : string)
  : list string :=
  match s with
  | String c s' =>
      if after_cr && Ascii.eqb c LF then splitlines_go "" false s'
      else if is_linebreak c
           then cur :: splitlines_go "" (Ascii.eqb c CR) s'
           else splitlines_go (cur ++ String c "") false s'
  | EmptyString => if String.eqb cur "" then [] else [cur]
  end.

Definition splitlines (s : string) : list string :=
  splitlines_go "" false s.

(** [s.endswith(suffix)]. *)
Definition endswith (s suffix : string) : bool :=
  let n := String.length s in
  let k := String.length suffix in
  (k <=? n)%nat && String.eqb (substring (n - k) k s) suffix.

(** [s.replace(old, new)] for a non-empty [old]: occurrences are taken
    left to right without overlap; [skip] counts the characters of a
    replaced occurrence still to be dropped. *)
Fixpoint replace_go (old new : string) (skip : nat) (s : string) : string :=
  match s with
  | String c s' =>
      match skip with
      | S k => replace_go old new k s'
      | O =>
          if String.prefix old s
          then new ++ replace_go old new (String.length old - 1) s'
          else String c (replace_go old new 0 s')
      end
  | EmptyString => EmptyString
  end.

Definition replace (old new s : string) : string := replace_go old new 0 s.

End Str.

(* ===================================================================== *)
(** ** The IPv4 part of Python's [ipaddress] that the scanner relies on *)
(* ===================================================================== *)

(** [ipaddress] belongs to the Python standard library, not to the
    scanner.  [expand_targets] below is stated over any behaviour of the
    library; this module gives the library's behaviour on the dotted-quad
    syntax ["a.b.c.d"] and ["a.b.c.d/n"] so that concrete target strings
    can be evaluated.  IPv6 literals and dotted netmasks are not covered:
    the model rejects them. *)
Module Ipaddress.

Definition digit_val (c : ascii) : option N :=
  let n := N_of_ascii c in
  if ((48 <=? n) && (n <=? 57))%N then Some (n - 48)%N else None.

Fixpoint int_go (acc : N) (s : string) : option N :=
  match s with
  | String c s' =>
      match digit_val c with
      | Some d => int_go (10 * acc + d)%N s'
      | None => None
      end
  | EmptyString => Some acc
  end.

(** [int(s)] for a string already checked by [s.isascii() and
    s.isdigit()]; the empty string is not a digit string. *)
Definition int_of_digits (s : string) : option N :=
  match s with
  | EmptyString => None
  | _ => int_go 0 s
  end.

(** [_parse_octet]: one to three digits, no leading zero, at most 255. *)
Definition _parse_octet (s : string) : option N :=
  match int_of_digits s with
  | None => None
  | Some v =>
      if (3 <? String.length s)%nat then None
      else if negb (String.eqb s "0") && Str.startswith_char "0" s then None
      else if (255 <? v)%N then None
      else Some v
  end.

(** [_ip_int_from_string]. *)
Definition _ip_int_from_string (s : string) : option N :=
  match Str.split "." s with
  | [o1; o2; o3; o4] =>
      a ← _parse_octet o1; b ← _parse_octet o2;
      c ← _parse_octet o3; d ← _parse_octet o4;
      Some (((a * 256 + b) * 256 + c) * 256 + d)%N
  | _ => None
  end.

(** [_prefix_from_prefix_string]. *)
Definition _prefix_from_prefix_string (s : string) : option N :=
  match int_of_digits s with
  | Some p => if (p <=? 32)%N then Some p else None
  | None => None
  end.

Definition show_N (n : N) : string :=
  DecimalString.NilEmpty.string_of_uint (N.to_uint n).

(** [str(IPv4Address(n))]. *)
Definition str_of_ip (n : N) : string :=
  show_N (n / 16777216 mod 256) ++ "." ++ show_N (n / 65536 mod 256) ++ "."
  ++ show_N (n / 256 mod 256) ++ "." ++ show_N (n mod 256).

(** [IPv4Network((addr, prefix), strict=False).hosts()]. *)
Definition hosts (addr prefix : N) : list N :=
  let size := (2 ^ (32 - prefix))%N in
  let network := (addr / size * size)%N in
  if (prefix =? 32)%N then [addr]
  else if (prefix =? 31)%N then [network; (network + 1)%N]
  else map (λ i, (network + 1 + N.of_nat i)%N)
           (seq 0 (N.to_nat (size - 2))).

(** [[str(ip) for ip in ip_network(arg, strict=False).hosts()]];
    [None] stands for the [ValueError] of the library. *)
Definition ip_network_hosts (arg : string) : option (list string) :=
  match Str.split "/" arg with
  | [a] =>
      addr ← _ip_int_from_string a;
      Some (map str_of_ip (hosts addr 32))
  | [a; m] =>
      addr ← _ip_int_from_string a;
      prefix ← _prefix_from_prefix_string m;
      Some (map str_of_ip (hosts addr prefix))
  | _ => None
  end.

End Ipaddress.

(* ===================================================================== *)
(** ** modbus_scanner *)
(* ===================================================================== *)

Module Modbus.

(** [utils.py] *)

Section expand_targets.

(** [Path(p).read_text(encoding="utf-8")]: the content of a file, or
    the exception raised when it cannot be read. *)
Variable read_text : string → result string.

(** The hosts of [ipaddress.ip_network(arg, strict=False)], or [None]
    for its [ValueError]. *)
Variable ip_network_hosts : string → option (list string).

(** The two loops [x = x.strip(); if x: out.append(x)]. *)
Definition stripped_nonempty (items : list string) : list string :=
  List.filter (λ s, negb (String.eqb s "")) (map Str.strip items).

Definition expand_targets (arg : string) : result (list string) :=
  let arg := Str.strip arg in
  if Str.startswith_char "@" arg then
    text ← read_text (Str.tail arg);
    Ok (stripped_nonempty (Str.splitlines text))
  else if Str.contains_char "," arg then
    Ok (stripped_nonempty (Str.split "," arg))
  else
    match ip_network_hosts arg with
    | Some hosts => Ok hosts
    | None => Ok [arg]
    end.

End expand_targets.

(** [modbus_scan.py] *)

(** What [ModbusTcpClient(...)] followed by [client.connect()] does. *)
Inductive connect_outcome : Type :=
| ClientRaises (msg : string)   (* the constructor raises: no client *)
| ConnectRaises (msg : string)  (* [connect()] raises *)
| ConnectFalse                  (* [connect()] returns a false value *)
| ConnectTrue.

(** What one [client.read_*] call does, as seen by the [try] block
    around it. *)
Inductive read_outcome (V : Type) : Type :=
| ReadRaises (msg : string)        (* any exception inside the [try] *)
| ReadIOException                  (* the response is a ModbusIOException *)
| ReadIsError                      (* [rr.isError()] is not [False] *)
| ReadData (data : option (list V)). (* [rr.bits] / [rr.registers] *)
Arguments ReadRaises {V} msg.
Arguments ReadIOException {V}.
Arguments ReadIsError {V}.
Arguments ReadData {V} data.

(** The device and transport behind one probe.  [elapsed] is the
    measured [round((end - start) * 1000, 2)], in hundredths of a
    millisecond. *)
Record device : Type := mk_device {
  connect : connect_outcome;
  read_coils : read_outcome bool;
  read_discrete_inputs : read_outcome bool;
  read_holding_registers : read_outcome Z;
  read_input_registers : read_outcome Z;
  elapsed : Z;
}.

Record reads_t : Type := mk_reads {
  coils : option (list bool);
  discrete_inputs : option (list bool);
  holding_registers : option (list Z);
  input_registers : option (list Z);
}.

Record exposure_t : Type := mk_exposure {
  unauthenticated_read : bool;
  broad_register_access : bool;
}.

Record probe_result : Type := mk_result {
  ip : string;
  port : Z;
  unit_id : Z;
  reachable : bool;
  latency_ms : option Z;
  reads : reads_t;
  exposure : exposure_t;
  errors : list string;
}.

(** Assignments to the [result] dict. *)
Definition set_reachable (v : bool) (r : probe_result) : probe_result :=
  mk_result (ip r) (port r) (unit_id r) v (latency_ms r) (reads r)
            (exposure r) (errors r).

Definition set_latency_ms (v : option Z) (r : probe_result) : probe_result :=
  mk_result (ip r) (port r) (unit_id r) (reachable r) v (reads r)
            (exposure r) (errors r).

Definition set_reads (v : reads_t) (r : probe_result) : probe_result :=
  mk_result (ip r) (port r) (unit_id r) (reachable r) (latency_ms r) v
            (exposure r) (errors r).

Definition set_unauthenticated_read (v : bool) (r : probe_result)
  : probe_result :=
  mk_result (ip r) (port r) (unit_id r) (reachable r) (latency_ms r)
            (reads r)
            (mk_exposure v (broad_register_access (exposure r))) (errors r).

Definition set_broad_register_access (v : bool) (r : probe_result)
  : probe_result :=
  mk_result (ip r) (port r) (unit_id r) (reachable r) (latency_ms r)
            (reads r)
            (mk_exposure (unauthenticated_read (exposure r)) v) (errors r).

Definition errors_append (e : string) (r : probe_result) : probe_result :=
  mk_result (ip r) (port r) (unit_id r) (reachable r) (latency_ms r)
            (reads r) (exposure r) (errors r ++ [e]).

Definition set_coils v (rd : reads_t) : reads_t :=
  mk_reads v (discrete_inputs rd) (holding_registers rd) (input_registers rd).
Definition set_discrete_inputs v (rd : reads_t) : reads_t :=
  mk_reads (coils rd) v (holding_registers rd) (input_registers rd).
Definition set_holding_registers v (rd : reads_t) : reads_t :=
  mk_reads (coils rd) (discrete_inputs rd) v (input_registers rd).
Definition set_input_registers v (rd : reads_t) : reads_t :=
  mk_reads (coils rd) (discrete_inputs rd) (holding_registers rd) v.

(** One of the four [try: rr = client.read_...] blocks. *)
Definition read_window {V : Type} (name : string) (o : read_outcome V)
    (store : option (list V) → reads_t → reads_t) (r : probe_result)
  : probe_result :=
  match o with
  | ReadRaises msg => errors_append (name ++ "_read_error: " ++ msg) r
  | ReadIOException | ReadIsError => r
  | ReadData data =>
      let window := match data with Some l => l | None => [] end in
      set_unauthenticated_read true
        (set_reads (store (Some window) (reads r)) r)
  end.

(** [isinstance(v, list) and len(v) > 0]. *)
Definition has_data {V : Type} (v : option (list V)) : bool :=
  match v with
  | Some (_ :: _) => true
  | _ => false
  end.

Definition windows_with_data (rd : reads_t) : Z :=
  Z.b2z (has_data (coils rd)) + Z.b2z (has_data (discrete_inputs rd))
  + Z.b2z (has_data (holding_registers rd))
  + Z.b2z (has_data (input_registers rd)).

Definition initial_result (ip : string) (port unit_id : Z) : probe_result :=
  {| ip := ip; port := port; unit_id := unit_id;
     reachable := false; latency_ms := None;
     reads := mk_reads None None None None;
     exposure := mk_exposure false false;
     errors := [] |}.

(** The body of the outer [try], after a successful [connect()]. *)
Definition read_all (dev : device) (r : probe_result) : probe_result :=
  let r := set_reachable true r in
  let r := read_window "coils" (read_coils dev) set_coils r in
  let r := read_window "discrete_inputs" (read_discrete_inputs dev)
                       set_discrete_inputs r in
  let r := read_window "holding_registers" (read_holding_registers dev)
                       set_holding_registers r in
  let r := read_window "input_registers" (read_input_registers dev)
                       set_input_registers r in
  if 2 <=? windows_with_data (reads r)
  then set_broad_register_access true r
  else r.

(** The [finally] clause runs on every path, also on the early return;
    whatever [client.close()] raises is swallowed. *)
Definition probe_host (dev : device) (ip : string) (port unit_id : Z)
  : probe_result :=
  let result := initial_result ip port unit_id in
  let result :=
    match connect dev with
    | ClientRaises msg | ConnectRaises msg =>
        errors_append ("probe_error: " ++ msg) result
    | ConnectFalse => errors_append "Connection failed" result
    | ConnectTrue => read_all dev result
    end in
  set_latency_ms (Some (elapsed dev)) result.

(** The [summary] counters of [scan_targets]. *)
Record scan_summary : Type := mk_scan_summary {
  n_reachable : Z;
  n_unauthenticated_read : Z;
  n_broad_register_access : Z;
}.

(** The [aggregate] dict of [scan_targets], without its [meta]. *)
Record aggregate : Type := mk_aggregate {
  scan_results : list probe_result;
  scan_counts : scan_summary;
}.

(** One iteration of [for ip in targets]: the probe of [ip] meets the
    device that answers at that moment. *)
Definition scan_step (port unit_id : Z) (agg : aggregate)
    (probe : string * device) : aggregate :=
  let '(ip, dev) := probe in
  let res := probe_host dev ip port unit_id in
  let c := scan_counts agg in
  let reach := if reachable res then n_reachable c + 1 else n_reachable c in
  let unauth := if unauthenticated_read (exposure res)
                then n_unauthenticated_read c + 1
                else n_unauthenticated_read c in
  let broad := if broad_register_access (exposure res)
               then n_broad_register_access c + 1
               else n_broad_register_access c in
  mk_aggregate (scan_results agg ++ [res])
               (mk_scan_summary reach unauth broad).

(** [scan_targets]: the targets come with the devices they reach. *)
Definition scan_targets (probes : list (string * device)) (port unit_id : Z)
  : aggregate :=
  fold_left (scan_step port unit_id) probes
            (mk_aggregate [] (mk_scan_summary 0 0 0)).

End Modbus.

(* ===================================================================== *)
(** ** Persisted run summaries and the index builders *)
(* ===================================================================== *)

(** A parsed JSON document, as [json.load] returns it: a number written
    without fraction and exponent is an [int], any other number (and each
    of [NaN], [Infinity], [-Infinity]) is a [float]. *)
#[local] Unset Elimination Schemes.
Inductive json : Type :=
| JNull
| JBool (v : bool)
| JInt (n : Z)
| JFloat (x : float)
| JStr (s : string)
| JList (items : list json)
| JDict (d : gmap string json).
#[local] Set Elimination Schemes.

(** [d.get(key, default)]: only a dict has a [get] method. *)
Definition dict_get (d : json) (key : string) (default : json) : result json :=
  match d with
  | JDict m => Ok (match m !! key with Some v => v | None => default end)
  | _ => Raise AttributeError
  end.

(** The value of a counter that starts as the integer 0 and grows by
    [+=]: an [int], or a [float] once a float has been added. *)
Inductive num : Type :=
| NInt (n : Z)
| NFloat (x : float).

(** [float(n)] for an integer, as [+] applies it to the integer operand
    of a mixed sum: the nearest binary64 value, ties to even, and
    [OverflowError] when that is beyond the largest finite one. *)
Definition float_of_int (n : Z) : result float :=
  let x := FloatOps.SF2Prim (SpecFloat.binary_normalize 53 1024 n 0 false) in
  if is_infinity x then Raise OverflowError else Ok x.

(** [total += v] for a counter and a JSON value [v].  Two integers add
    exactly ([bool] is a subclass of [int]); as soon as one operand is a
    float the other is converted and the sum is the binary64 sum; any
    other value is a [TypeError]. *)
Definition iadd (total : num) (v : json) : result num :=
  match total, v with
  | NInt n, JInt k => Ok (NInt (n + k))
  | NInt n, JBool t => Ok (NInt (n + Z.b2z t))
  | NInt n, JFloat y => x ← float_of_int n; Ok (NFloat (x + y)%float)
  | NFloat x, JInt k => y ← float_of_int k; Ok (NFloat (x + y)%float)
  | NFloat x, JBool t => Ok (NFloat (x + (if t then 1 else 0))%float)
  | NFloat x, JFloat y => Ok (NFloat (x + y)%float)
  | _, _ => Raise TypeError
  end.

(** One entry of [os.listdir(folder)] with what [open] and [json.load]
    give for it: the parsed document, or the exception raised. *)
Definition dir_entry : Type := string * result json.

Module GlobalIndex.

(** [build_global_index.py] *)

(** The three local counters of [collect_summary]. *)
Record totals : Type := mk_totals {
  total_pcaps : Z;
  total_packets : num;
  suspect : num;
}.

(** The body of [for fname in os.listdir(folder)].  An exception leaves
    the [try] block at the statement that raised it, so the counters
    updated before that statement keep their new values; the bare
    [except: pass] prints and records nothing. *)
Definition visit (st : totals) (entry : dir_entry) : totals :=
  let '(fname, content) := entry in
  if Str.endswith fname ".json" then
    let st := mk_totals (total_pcaps st + 1) (total_packets st) (suspect st) in
    match (data ← content; dict_get data "summary" (JDict ∅)) with
    | Raise _ => st
    | Ok summ =>
        match (v ← dict_get summ "total_packets" (JInt 0);
               iadd (total_packets st) v) with
        | Raise _ => st
        | Ok packets =>
            let st := mk_totals (total_pcaps st) packets (suspect st) in
            match (v ← dict_get summ "suspect_functions" (JInt 0);
                   iadd (suspect st) v) with
            | Raise _ => st
            | Ok suspects => mk_totals (total_pcaps st) (total_packets st) suspects
            end
        end
    end
  else st.

(** [folder] is [None] when [os.path.exists(folder)] is false. *)
Definition collect_summary (folder : option (list dir_entry))
  : Z * num * num :=
  match folder with
  | None => (0, NInt 0, NInt 0)
  | Some entries =>
      let st := fold_left visit entries (mk_totals 0 (NInt 0) (NInt 0)) in
      (total_pcaps st, total_packets st, suspect st)
  end.

End GlobalIndex.

Module ProtocolIndex.

(** [build_dnp3_index.py] and [build_s7_index.py]: the two
    [load_reports] functions differ only in the wording of the warning
    they print. *)

Record report : Type := mk_report {
  json_name : string;     (* key ["json"] *)
  html : string;
  meta : json;
  summary : json;
}.

(** A line printed by [print(f"[WARN] ... {fname}: {e}")]. *)
Record warning : Type := mk_warning {
  warned_file : string;
  warned_exn : exn;
}.

(** The body of [for fname in os.listdir(REPORT_DIR)]; the state of the
    loop is the [reports] list and what has been printed so far.  The
    [try] block changes nothing before its last statement, the append. *)
Definition visit (st : list report * list warning) (entry : dir_entry)
  : list report * list warning :=
  let '(reports, printed) := st in
  let '(fname, content) := entry in
  if Str.endswith fname ".json" then
    try_except
      (data ← content;
       let html_name := Str.replace ".json" ".html" fname in
       meta ← dict_get data "meta" (JDict ∅);
       summary ← dict_get data "summary" (JDict ∅);
       Ok ((reports ++ [mk_report fname html_name meta summary])%list,
           printed))
      (λ e, (reports, (printed ++ [mk_warning fname e])%list))
  else st.

(** [folder] is [None] when [REPORT_DIR] does not exist: [os.listdir]
    is called without a check and raises. *)
Definition load_reports (folder : option (list dir_entry))
  : result (list report * list warning) :=
  match folder with
  | None => Raise OSError
  | Some entries => Ok (fold_left visit entries ([], []))
  end.

(** The chart data gathered by the first loop of [build_index]; the
    values are passed on as they are found in the summary. *)
Record chart_data : Type := mk_chart_data {
  labels : list string;
  total_packets : list json;
  protocol_packets : list json;
  suspects : list json;
}.

(** One iteration of the loop [for r in reports] that fills the four
    lists; [key] is ["dnp3_packets"] in [build_dnp3_index.py] and
    ["s7_packets"] in [build_s7_index.py].  Nothing catches what
    [summ.get] raises. *)
Definition chart_step (key : string) (st : chart_data) (r : report)
  : result chart_data :=
  let labels := (labels st ++ [html r])%list in
  let summ := summary r in
  v ← dict_get summ "total_packets" (JInt 0);
  let total_packets := (total_packets st ++ [v])%list in
  v ← dict_get summ key (JInt 0);
  let protocol_packets := (protocol_packets st ++ [v])%list in
  v ← dict_get summ "suspect_functions" (JInt 0);
  let suspects := (suspects st ++ [v])%list in
  Ok (mk_chart_data labels total_packets protocol_packets suspects).

(** The head of [build_index], up to the end of its first loop; the HTML
    text assembled after it is not part of the model. *)
Definition build_index_chart_data (key : string) (reports : list report)
  : result chart_data :=
  for_each (chart_step key) (mk_chart_data [] [] [] []) reports.

End ProtocolIndex.

(** The dicts returned by the two [analyze_pcap] functions, as
    [json.dump] writes them and [json.load] reads them back.  The order
    of [unique_hosts] is the iteration order of a Python set; the model
    lists the elements of the set. *)
Module Persisted.

Definition meta_json (generated_at pcap_file : string) : json :=
  JDict (<["generated_at" := JStr generated_at]>
         (<["pcap_file" := JStr pcap_file]> ∅)).

Definition hosts_json (hosts : gset string) : json :=
  JList (map JStr (elements hosts)).

Definition dnp3_record_json (r : Dnp3.record) : json :=
  JDict (<["src" := JStr (Dnp3.src r)]>
         (<["dst" := JStr (Dnp3.dst r)]>
          (<["function" := JStr (Dnp3.function r)]>
           (<["length" := JInt (Dnp3.length r)]>
            (<["hints" := JList (map JStr (Dnp3.hints r))]>
             (<["suspect" := JBool (Dnp3.suspect r)]> ∅)))))).

Definition dnp3_report_json (generated_at pcap_file : string)
    (rep : Dnp3.state) : json :=
  JDict
    (<["meta" := meta_json generated_at pcap_file]>
     (<["results" := JList (map dnp3_record_json (Dnp3.results rep))]>
      (<["summary" :=
           JDict
             (<["total_packets" := JInt (Dnp3.total_packets (Dnp3.acc rep))]>
              (<["dnp3_packets" := JInt (Dnp3.dnp3_packets (Dnp3.acc rep))]>
               (<["suspect_functions" :=
                    JInt (Dnp3.suspect_functions (Dnp3.acc rep))]>
                (<["unique_hosts" :=
                     hosts_json (Dnp3.unique_hosts (Dnp3.acc rep))]> ∅))))]>
       ∅))).

Definition s7_record_json (r : S7.record) : json :=
  JDict (<["src" := JStr (S7.src r)]>
         (<["dst" := JStr (S7.dst r)]>
          (<["function_code" := JStr (S7.function_code r)]>
           (<["length" := JInt (S7.length r)]>
            (<["hints" := JList (map JStr (S7.hints r))]> ∅))))).

Definition s7_report_json (generated_at pcap_file : string)
    (rep : S7.state) : json :=
  JDict
    (<["meta" := meta_json generated_at pcap_file]>
     (<["results" := JList (map s7_record_json (S7.results rep))]>
      (<["summary" :=
           JDict
             (<["total_packets" := JInt (S7.total_packets (S7.acc rep))]>
              (<["s7_packets" := JInt (S7.s7_packets (S7.acc rep))]>
               (<["suspect_functions" :=
                    JInt (S7.suspect_functions (S7.acc rep))]>
                (<["unique_hosts" :=
                     hosts_json (S7.unique_hosts (S7.acc rep))]> ∅))))]>
       ∅))).

End Persisted.

(* ===================================================================== *)
(** ** The batch runner *)
(* ===================================================================== *)

(** The functions of [os.path] that the runner and the report writers
    call, for POSIX paths. *)
Module OsPath.

(** [s.rfind(c)] for one character; [None] stands for -1. *)
Fixpoint rfind_char (c : ascii) (s : string) : option nat :=
  match s with
  | String x s' =>
      match rfind_char c s' with
      | Some i => Some (S i)
      | None => if Ascii.eqb x c then Some 0%nat else None
      end
  | EmptyString => None
  end.

(** [s.rstrip(c)] for one character. *)
Fixpoint rstrip_char (c : ascii) (s : string) : string :=
  match s with
  | String x s' =>
      let r := rstrip_char c s' in
      if Ascii.eqb x c && String.eqb r "" then "" else String x r
  | EmptyString => EmptyString
  end.

Fixpoint all_are (c : ascii) (s : string) : bool :=
  match s with
  | String x s' => Ascii.eqb x c && all_are c s'
  | EmptyString => true
  end.

(** [os.path.join(a, b)]. *)
Definition join (a b : string) : string :=
  if Str.startswith_char "/" b then b
  else if String.eqb a "" || Str.endswith a "/" then a ++ b
  else a ++ "/" ++ b.

(** [os.path.dirname(p)]. *)
Definition dirname (p : string) : string :=
  match rfind_char "/" p with
  | None => ""
  | Some i =>
      let head := substring 0 (S i) p in
      if all_are "/" head then head else rstrip_char "/" head
  end.

(** [os.path.splitext(p)[0]] for a name without a directory part: the
    name is cut at its last dot unless only dots stand before it. *)
Definition splitext_base (p : string) : string :=
  match rfind_char "." p with
  | None => p
  | Some i =>
      if all_are "." (substring 0 i p) then p else substring 0 i p
  end.

End OsPath.

(** [run_dnp3_all.py] with [dnp3_analyze.main], [save_json] and
    [save_html]. *)
Module Batch.

(** What lies outside the program: the capture reader, the clock and the
    file system.  The three stamps are the [utc_ts()] calls made while the
    capture at a path is handled. *)
Record world : Type := mk_world {
  rdpcap : string → result (list packet);
  stamp_report : string → string;
  stamp_json_name : string → string;
  stamp_html_name : string → string;
  makedirs_error : string → option exn;
  write_error : string → option exn;
}.

(** What a written file holds; the text of an HTML report is not part of
    the model. *)
Inductive content : Type :=
| JsonText (doc : json)
| HtmlText.

(** The lines printed by the runner. *)
Inductive line : Type :=
| ErrorNoFolder
| InfoNoFiles
| InfoProcessing (n : Z)
| OkLine (fname json_out html_out : string)
| ErrorLine (fname : string) (e : exn).

(** [os.makedirs(os.path.dirname(path), exist_ok=True)] followed by
    opening [path] for writing: the exception raised, if any.
    [os.makedirs] raises on the empty directory name. *)
Definition write_failure (w : world) (path : string) : option exn :=
  let dir := OsPath.dirname path in
  if String.eqb dir "" then Some OSError
  else
    match makedirs_error w dir with
    | Some e => Some e
    | None => write_error w path
    end.

(** [dnp3_analyze.main]: the files written, in order, and the returned
    paths or the exception raised.  An empty output path stands for an
    argument that is [None] or empty. *)
Definition analyze_main (w : world) (pcap_file json_out html_out : string)
  : list (string * content) * result (string * string) :=
  match (packets ← rdpcap w pcap_file; Dnp3.analyze_pcap packets) with
  | Raise e => ([], Raise e)
  | Ok rep =>
      let data :=
        Persisted.dnp3_report_json (stamp_report w pcap_file) pcap_file rep in
      let json_out :=
        if String.eqb json_out ""
        then OsPath.join "reports"
               ("dnp3_scan_" ++ stamp_json_name w pcap_file ++ ".json")
        else json_out in
      let html_out :=
        if String.eqb html_out ""
        then OsPath.join "reports"
               ("dnp3_scan_" ++ stamp_html_name w pcap_file ++ ".html")
        else html_out in
      match write_failure w json_out with
      | Some e => ([], Raise e)
      | None =>
          match write_failure w html_out with
          | Some e => ([(json_out, JsonText data)], Raise e)
          | None =>
              ([(json_out, JsonText data); (html_out, HtmlText)],
               Ok (json_out, html_out))
          end
      end
  end.

Definition PCAP_DIR : string := OsPath.join "pcaps" "dnp3".
Definition REPORT_DIR : string := OsPath.join "reports" "dnp3_batch".

Definition is_capture (fname : string) : bool :=
  Str.endswith fname ".pcap" || Str.endswith fname ".pcapng".

(** One iteration of [for fname in pcaps]: the files written and the
    line printed. *)
Definition run_one (w : world) (fname : string)
  : list (string * content) * line :=
  let pcap_path := OsPath.join PCAP_DIR fname in
  let base := OsPath.splitext_base fname in
  let json_out := OsPath.join REPORT_DIR (base ++ ".json") in
  let html_out := OsPath.join REPORT_DIR (base ++ ".html") in
  let '(written, outcome) := analyze_main w pcap_path json_out html_out in
  match outcome with
  | Ok (j, h) => (written, OkLine fname j h)
  | Raise e => (written, ErrorLine fname e)
  end.

(** [main]: [listing] is [None] when [PCAP_DIR] does not exist.  The
    result holds the lines printed and the files written, in order;
    only [os.makedirs(REPORT_DIR)] can make [main] itself raise. *)
Definition main (w : world) (listing : option (list string))
  : result (list line * list (string * content)) :=
  match listing with
  | None => Ok ([ErrorNoFolder], [])
  | Some names =>
      match makedirs_error w REPORT_DIR with
      | Some e => Raise e
      | None =>
          let pcaps := List.filter is_capture names in
          match pcaps with
          | [] => Ok ([InfoNoFiles], [])
          | _ =>
              let runs := map (run_one w) pcaps in
              Ok (InfoProcessing (len pcaps) :: map snd runs,
                  concat (map fst runs))
          end
      end
  end.

End Batch.


(* ===================================================================== *)
(** ** Vocabulary of the properties and sample inputs *)
(* ===================================================================== *)

(** A frame as scapy dissects it: nothing but Raw and Padding layers lie
    beneath its first Raw layer. *)
Definition is_trailer (l : layer) : bool :=
  match l with
  | Raw _ | Padding _ => true
  | _ => false
  end.

Fixpoint raw_terminated (pkt : packet) : bool :=
  match pkt with
  | [] => true
  | Raw _ :: beneath => forallb is_trailer beneath
  | _ :: rest => raw_terminated rest
  end.

Definition is_raw (l : layer) : bool :=
  match l with
  | Raw _ => true
  | _ => false
  end.

(** A short DNP3 frame, padded to the smallest Ethernet size. *)
Definition C1_frame : packet :=
  [Ether "00:00:00:00:00:01" "00:00:00:00:00:02"; IP "10.0.0.1" "10.0.0.2";
   UDP 40000 20000; Raw (b "RD"); Padding [x00; x00; x00; x00]].

(** Sample inputs on which the properties are evaluated. *)
Definition C5_payload : list byte := [x32; x05] ++ b "DB" ++ repeat x00 196.

Definition C6_frame : packet :=
  [Ether "00:00:00:00:00:01" "00:00:00:00:00:02"; IP "10.0.0.1" "10.0.0.2";
   TCP 40000 20000; Raw (b "....WRITE")].

Definition C6_record : Dnp3.record :=
  {| Dnp3.src := "10.0.0.1"; Dnp3.dst := "10.0.0.2";
     Dnp3.function := "Write"; Dnp3.length := 9;
     Dnp3.hints := ["WRITE"]; Dnp3.suspect := true |}.

(** An S7Comm frame that writes a variable, and the record that the
    parser builds for it. *)
Definition C6_s7_frame : packet :=
  [Ether "00:00:00:00:00:01" "00:00:00:00:00:02"; IP "10.0.0.1" "10.0.0.2";
   TCP 40000 102; Raw ([x32; x05] ++ repeat x00 10)].

Definition C6_s7_record : S7.record :=
  {| S7.src := "10.0.0.1"; S7.dst := "10.0.0.2";
     S7.function_code := "WriteVar"; S7.length := 12; S7.hints := [] |}.

Section probe_terms.
Import Modbus.

(** The number of read windows that are non-empty lists, counted from
    the sizes of the four windows. *)
Definition window_size {V : Type} (w : option (list V)) : nat :=
  match w with
  | Some l => List.length l
  | None => 0
  end.

Definition populated_windows (rd : reads_t) : nat :=
  List.length
    (List.filter (λ n, negb (n =? 0)%nat)
       [window_size (coils rd); window_size (discrete_inputs rd);
        window_size (holding_registers rd);
        window_size (input_registers rd)]).

(** Some window holds a list.  A window that holds a list was stored by
    a successful read, and each successful read sets
    [unauthenticated_read]: this is [read_invariant]. *)
Definition any_window (rd : reads_t) : bool :=
  bool_decide (coils rd ≠ None) || bool_decide (discrete_inputs rd ≠ None)
  || bool_decide (holding_registers rd ≠ None)
  || bool_decide (input_registers rd ≠ None).

Definition read_invariant (r : probe_result) : Prop :=
  any_window (reads r) = true → unauthenticated_read (exposure r) = true.

End probe_terms.

(** A reachable device that answers the four reads as given. *)
Definition device_answering (c d : Modbus.read_outcome bool)
    (h i : Modbus.read_outcome Z)
  : Modbus.device :=
  Modbus.mk_device Modbus.ConnectTrue c d h i 1250.

Definition C10_device : Modbus.device :=
  device_answering (Modbus.ReadData (Some [true; false]))
    Modbus.ReadIOException (Modbus.ReadData (Some [7])) Modbus.ReadIsError.

Section dnp3_aggregation_terms.
Import Dnp3.

(** The record that one frame adds to the run, if any. *)
Definition contributed (pkt : packet) : option record :=
  if is_dnp3 pkt then
    match parse_dnp3_packet pkt with
    | Ok parsed => parsed
    | Raise _ => None
    end
  else None.

Definition counted (rs : list record) : Z := len rs.
Definition counted_suspect (rs : list record) : Z :=
  len (List.filter suspect rs).
Definition hosts_of (rs : list record) : gset string :=
  ⋃ (map (λ r, {[src r; dst r]}) rs).

(** The accumulator after the loop, in closed form. *)
Definition absorbed (s : summary) (pkts : list packet) : summary :=
  let rs := omap contributed pkts in
  {| total_packets := total_packets s + len pkts;
     dnp3_packets := dnp3_packets s + counted rs;
     suspect_functions := suspect_functions s + counted_suspect rs;
     unique_hosts := unique_hosts s ∪ hosts_of rs |}.

End dnp3_aggregation_terms.

Definition frame_with (payload : string) : packet :=
  [Ether "00:00:00:00:00:01" "00:00:00:00:00:02"; IP "10.0.0.1" "10.0.0.2";
   TCP 40000 20000; Raw (b payload)].

Definition frame_A : packet := frame_with "....WRITE...".
Definition frame_B : packet := frame_with "....READ....".
Definition frame_C : packet := frame_with "....OPER....".

Definition Zsum (l : list Z) : Z := foldr Z.add 0 l.

(** The integer held by a counter that no float has reached. *)
Definition int_of (x : num) : Z :=
  match x with
  | NInt n => n
  | NFloat _ => 0
  end.

(** What one directory entry adds to the three counters of
    [collect_summary] when no float is involved, read off a run from
    zero. *)
Definition delta (e : dir_entry) : Z * Z * Z :=
  let st := GlobalIndex.visit (GlobalIndex.mk_totals 0 (NInt 0) (NInt 0)) e in
  (GlobalIndex.total_pcaps st,
   int_of (GlobalIndex.total_packets st),
   int_of (GlobalIndex.suspect st)).

Definition is_float (v : option json) : bool :=
  match v with
  | Some (JFloat _) => true
  | _ => false
  end.

(** A directory entry whose summary holds no float under the two keys
    that [collect_summary] adds up. *)
Definition float_free (e : dir_entry) : bool :=
  match e.2 with
  | Ok (JDict d) =>
      match d !! "summary" with
      | Some (JDict s) =>
          negb (is_float (s !! "total_packets"))
          && negb (is_float (s !! "suspect_functions"))
      | _ => true
      end
  | _ => true
  end.

(** A summary file that [collect_summary] gives up on before it has
    added anything: it cannot be opened or parsed, or its document is not
    an object, or its [summary] is not an object, or its [total_packets]
    is not a number. *)
Definition unusable (e : dir_entry) : bool :=
  match e.2 with
  | Raise _ => true
  | Ok (JDict d) =>
      match d !! "summary" with
      | None => false
      | Some (JDict s) =>
          match s !! "total_packets" with
          | None | Some (JInt _) | Some (JBool _) | Some (JFloat _) => false
          | Some _ => true
          end
      | Some _ => true
      end
  | Ok _ => true
  end.

(** A document whose summary holds the given values under
    [total_packets] and [suspect_functions]. *)
Definition summary_doc (total suspects : json) : json :=
  JDict (<["summary" :=
            JDict (<["total_packets" := total]>
                   (<["suspect_functions" := suspects]> ∅))]> ∅).

(** A summary file that [load_reports] skips: it cannot be opened or
    parsed, or its document is not an object. *)
Definition skipped (e : dir_entry) : bool :=
  match e.2 with
  | Ok (JDict _) => false
  | _ => true
  end.

Definition is_json_file (e : dir_entry) : bool := Str.endswith e.1 ".json".

(** A well-formed persisted run summary, with the three fields of its
    [summary] object that the specification sums. *)
Inductive summarised : dir_entry → Z * Z * Z → Prop :=
| summarised_intro (fname key : string) (d s : gmap string json)
    (total matched suspects : Z) :
    Str.endswith fname ".json" = true →
    d !! "summary" = Some (JDict s) →
    s !! "total_packets" = Some (JInt total) →
    key = "dnp3_packets" ∨ key = "s7_packets" →
    s !! key = Some (JInt matched) →
    s !! "suspect_functions" = Some (JInt suspects) →
    summarised (fname, Ok (JDict d)) (total, matched, suspects).

(** The document that the DNP3 and S7Comm analyzers persist for a run. *)
Definition report_doc (key pcap_file : string) (total matched suspects : Z)
    (hosts : list string) : json :=
  JDict
    (<["meta" := JDict (<["generated_at" := JStr "2025-01-01T00-00-00Z"]>
                        (<["pcap_file" := JStr pcap_file]> ∅))]>
     (<["results" := JList []]>
      (<["summary" :=
           JDict (<["total_packets" := JInt total]>
                  (<[key := JInt matched]>
                   (<["suspect_functions" := JInt suspects]>
                    (<["unique_hosts" := JList (map JStr hosts)]> ∅))))]>
       ∅))).

Definition C2_directory : list dir_entry :=
  [("plant_a.json",
    Ok (report_doc "dnp3_packets" "plant_a.pcap" 10 4 1 ["10.0.0.1"; "10.0.0.2"]));
   ("plant_b.json", Raise JSONDecodeError)].

Definition C3_directory : list dir_entry :=
  [("plant_a.json",
    Ok (report_doc "dnp3_packets" "plant_a.pcap" 10 4 1 ["10.0.0.1"; "10.0.0.2"]));
   ("plant_c.json",
    Ok (report_doc "dnp3_packets" "plant_c.pcap" 20 8 2 ["10.0.0.9"]))].

(** What [load_reports] keeps of one directory entry, and what it
    prints for it. *)
Definition kept (e : dir_entry) : option ProtocolIndex.report :=
  if is_json_file e then
    match e.2 with
    | Ok (JDict d) =>
        Some (ProtocolIndex.mk_report e.1 (Str.replace ".json" ".html" e.1)
                (default (JDict ∅) (d !! "meta"))
                (default (JDict ∅) (d !! "summary")))
    | _ => None
    end
  else None.

Definition warned (e : dir_entry) : option ProtocolIndex.warning :=
  if is_json_file e then
    match e.2 with
    | Ok (JDict _) => None
    | Ok _ => Some (ProtocolIndex.mk_warning e.1 AttributeError)
    | Raise err => Some (ProtocolIndex.mk_warning e.1 err)
    end
  else None.

(** [sep.join(items)]. *)
Fixpoint join (sep : string) (items : list string) : string :=
  match items with
  | [] => ""
  | [x] => x
  | x :: rest => x ++ sep ++ join sep rest
  end.

Fixpoint all_chars (p : ascii → bool) (s : string) : bool :=
  match s with
  | String c s' => p c && all_chars p s'
  | EmptyString => true
  end.

(** A non-empty string without white space: what a target literal is. *)
Definition solid (s : string) : bool :=
  negb (String.eqb s "") && all_chars (λ c, negb (Str.is_space c)) s.


(** A file system without any readable file. *)
Definition no_files (path : string) : result string := Raise OSError.

Definition LFs : string := String Str.LF "".


(** A DNP3 frame whose payload holds both [WRITE] and [READ]. *)
Definition frame_write_read : packet :=
  [Ether "00:00:00:00:00:01" "00:00:00:00:00:02"; IP "10.0.0.1" "10.0.0.2";
   TCP 40000 20000; Raw (b "WRITE then READ")].

(** An S7Comm frame of 200 bytes that names a block. *)
Definition frame_s7_download : packet :=
  [Ether "00:00:00:00:00:01" "00:00:00:00:00:02"; IP "10.0.0.1" "10.0.0.2";
   TCP 40000 102; Raw ([x32; x05] ++ b "OB1" ++ repeat x00 195)].

Section s7_aggregation_terms.
Import S7.

(** The record that one frame adds to an S7Comm run, if any. *)
Definition s7_contributed (pkt : packet) : option record :=
  if port_match (tcp_ports pkt) 102 then
    match parse_s7_packet pkt with
    | Ok parsed => parsed
    | Raise _ => None
    end
  else None.

Definition s7_hosts_of (rs : list record) : gset string :=
  ⋃ (map (λ r, {[src r; dst r]}) rs).

(** The accumulator of the S7Comm loop, in closed form. *)
Definition s7_absorbed (s : summary) (pkts : list packet) : summary :=
  let rs := omap s7_contributed pkts in
  {| total_packets := total_packets s + len pkts;
     s7_packets := s7_packets s + len rs;
     suspect_functions := suspect_functions s + len (List.filter is_suspect rs);
     unique_hosts := unique_hosts s ∪ s7_hosts_of rs |}.

End s7_aggregation_terms.

(** Three S7Comm frames: a write, a read and a frame of another port. *)
Definition frame_s7_write : packet :=
  [Ether "00:00:00:00:00:01" "00:00:00:00:00:02"; IP "10.0.0.1" "10.0.0.2";
   TCP 40000 102; Raw ([x32; x05] ++ repeat x00 10)].

Definition frame_s7_read : packet :=
  [Ether "00:00:00:00:00:02" "00:00:00:00:00:01"; IP "10.0.0.2" "10.0.0.1";
   TCP 102 40000; Raw ([x32; x04] ++ repeat x00 10)].

Definition frame_other_port : packet :=
  [Ether "00:00:00:00:00:03" "00:00:00:00:00:01"; IP "10.0.0.3" "10.0.0.1";
   TCP 40000 443; Raw ([x32; x05] ++ repeat x00 10)].

(** Whether one read ended in an exception. *)
Definition read_raised {V : Type} (o : Modbus.read_outcome V) : bool :=
  match o with
  | Modbus.ReadRaises _ => true
  | _ => false
  end.

(** Whether one read came back with data. *)
Definition read_answered {V : Type} (o : Modbus.read_outcome V) : bool :=
  match o with
  | Modbus.ReadData _ => true
  | _ => false
  end.

(** The number of reads of a device that end in an exception. *)
Definition reads_raised (dev : Modbus.device) : nat :=
  List.length
    (List.filter id
       [read_raised (Modbus.read_coils dev);
        read_raised (Modbus.read_discrete_inputs dev);
        read_raised (Modbus.read_holding_registers dev);
        read_raised (Modbus.read_input_registers dev)]).

(** The number of probe results on which a flag is set. *)
Definition flagged (f : Modbus.probe_result → bool)
    (rs : list Modbus.probe_result) : Z :=
  len (List.filter f rs).

(** A device that cannot be connected to. *)
Definition device_down : Modbus.device :=
  Modbus.mk_device Modbus.ConnectFalse Modbus.ReadIsError Modbus.ReadIsError
    Modbus.ReadIsError Modbus.ReadIsError 2000.

(** Whether a JSON value is an object. *)
Definition is_dict (v : json) : bool :=
  match v with
  | JDict _ => true
  | _ => false
  end.

(** A folder listing with a stray file, and the same in another order. *)
Definition mixed_directory : list dir_entry :=
  [("notes.txt", Raise OSError);
   ("plant_a.json",
    Ok (report_doc "dnp3_packets" "plant_a.pcap" 10 4 1 ["10.0.0.1"; "10.0.0.2"]));
   ("plant_b.json", Raise JSONDecodeError)].

Definition mixed_directory_reordered : list dir_entry :=
  [("plant_b.json", Raise JSONDecodeError);
   ("notes.txt", Raise OSError);
   ("plant_a.json",
    Ok (report_doc "dnp3_packets" "plant_a.pcap" 10 4 1 ["10.0.0.1"; "10.0.0.2"]))].

(** Three summaries whose packet totals are the floats nearest to 0.1,
    0.2 and 0.3, and the same folder listed the other way round. *)
Definition float_directory : list dir_entry :=
  [("a.json", Ok (summary_doc (JFloat 0.1) (JInt 1)));
   ("b.json", Ok (summary_doc (JFloat 0.2) (JInt 1)));
   ("c.json", Ok (summary_doc (JFloat 0.3) (JInt 1)))].

(** A float total next to an integer too large for a float. *)
Definition overflow_directory : list dir_entry :=
  [("a.json", Ok (summary_doc (JFloat 1.5) (JInt 1)));
   ("b.json", Ok (summary_doc (JInt (10 ^ 400)) (JInt 1)))].

(** The value that the chart loop reads from a report for one key. *)
Definition summary_field (key : string) (r : ProtocolIndex.report) : json :=
  match ProtocolIndex.summary r with
  | JDict m => default (JInt 0) (m !! key)
  | _ => JInt 0
  end.

(** A file name stem without a dot. *)
Definition dotless (stem : string) : bool :=
  all_chars (λ c, negb (Ascii.eqb c ".")) stem.

(** One DNP3 capture run by the batch runner: the stem of the capture
    file name, the time stamp of the report, the frames of the capture
    and the report of their analysis. *)
Record dnp3_run : Type := mk_dnp3_run {
  run_stem : string;
  run_generated_at : string;
  run_frames : list packet;
  run_report : Dnp3.state;
}.

Definition run_analysed (r : dnp3_run) : Prop :=
  Dnp3.analyze_pcap (run_frames r) = Ok (run_report r).

(** The report file that the batch runner leaves in the report folder
    for the capture [stem.pcap]. *)
Definition run_entry (r : dnp3_run) : dir_entry :=
  (run_stem r ++ ".json",
   Ok (Persisted.dnp3_report_json (run_generated_at r)
         (OsPath.join Batch.PCAP_DIR (run_stem r ++ ".pcap"))
         (run_report r))).

(** The three frames of the sample run, analysed. *)
Definition sample_report : Dnp3.state :=
  match Dnp3.analyze_pcap [frame_A; frame_B; frame_C] with
  | Ok rep => rep
  | Raise _ => Dnp3.init
  end.

Definition sample_run : dnp3_run :=
  mk_dnp3_run "plant_a" "2025-01-01T00-00-00Z" [frame_A; frame_B; frame_C]
    sample_report.

(** A listed report whose summary holds the packet total only. *)
Definition sample_reports : list ProtocolIndex.report :=
  [ProtocolIndex.mk_report "a.json" "a.html" (JDict ∅)
     (JDict (<["total_packets" := JInt 3]> ∅))].

(** A summary file whose [summary] is a number. *)
Definition odd_summary_entry : dir_entry :=
  ("odd.json", Ok (JDict (<["summary" := JInt 5]> ∅))).

(** The capture that a printed line is about. *)
Definition line_file (l : Batch.line) : option string :=
  match l with
  | Batch.OkLine fname _ _ | Batch.ErrorLine fname _ => Some fname
  | _ => None
  end.

(** A name that can stand before an extension in a folder listing: not
    empty, without a dot and without a slash. *)
Definition plain_stem (stem : string) : bool :=
  negb (String.eqb stem "")
  && all_chars (λ c, negb (Ascii.eqb c ".") && negb (Ascii.eqb c "/")) stem.

(** A world in which the capture [plant_a.pcap] holds the three sample
    frames, no other capture can be read, and every write succeeds. *)
Definition sample_world : Batch.world :=
  Batch.mk_world
    (λ path, if String.eqb path "pcaps/dnp3/plant_a.pcap"
             then Ok [frame_A; frame_B; frame_C] else Raise OSError)
    (λ _, "2025-01-01T00-00-00Z") (λ _, "2025-01-01T00-00-01Z")
    (λ _, "2025-01-01T00-00-02Z") (λ _, None) (λ _, None).



(** A text: a first line, and more lines that each follow a line
    boundary character.  A carriage return and line feed in a row stand
    here for two boundaries with an empty line in between. *)
Fixpoint weave (first : string) (more : list (ascii * string)) : string :=
  match more with
  | [] => first
  | (c, line) :: more' => first ++ String c (weave line more')
  end.


(** The items that are not blank, without the white space around
    them. *)
Definition nonblank_stripped (items : list string) : list string :=
  List.filter (λ s, negb (String.eqb s "")) (map Str.strip items).



(** A file system that holds one file of targets, with padded, blank and
    differently terminated lines. *)
Definition targets_text : string :=
  weave "  10.0.0.1 "
    [(Str.CR, ""); (Str.LF, "plc-7"); (Str.LF, "   "); (Str.LF, "10.0.0.9");
     (Str.LF, "")].

Definition targets_file (path : string) : result string :=
  if String.eqb path "targets.txt" then Ok targets_text else Raise OSError.

(* ===================================================================== *)
(** ** Properties of the classifiers *)
(* ===================================================================== *)

Lemma bytes_startswith_length needle hay :
  bytes_startswith needle hay = true → (length needle ≤ length hay)%nat.
Proof.
  revert hay; induction needle as [|x needle IH]; intros [|y hay]; simpl;
    try lia; try discriminate.
  intros [_ H]%andb_true_iff. apply IH in H. lia.
Qed.

(** A token found in a payload is not longer than the payload. *)
Lemma bytes_in_length needle hay :
  bytes_in needle hay = true → (length needle ≤ length hay)%nat.
Proof.
  induction hay as [|y hay IH]; simpl.
  - rewrite orb_false_r. apply bytes_startswith_length.
  - intros [H|H]%orb_true_iff.
    + apply bytes_startswith_length in H. simpl in H. exact H.
    + apply IH in H. lia.
Qed.

Lemma str_in_In s names : str_in s names = true ↔ In s names.
Proof.
  unfold str_in. rewrite existsb_exists. split.
  - intros (x & Hx & Heq). apply String.eqb_eq in Heq. by subst.
  - intros H. exists s. split; [done|]. apply String.eqb_refl.
Qed.

Lemma FUNC_MAP_get_names code name :
  S7.FUNC_MAP_get code = Some name →
  In name ["ReadVar"; "WriteVar"; "Start"; "Stop"; "SetupComm"].
Proof. destruct code; simpl; intros [= <-]; tauto. Qed.

(** [FirmwareUpdate] can only come from the third rule: the first rule
    has then failed and the third one has fired. *)
Lemma guess_function_Ok payload name :
  S7._guess_function payload = Ok name →
  name = "FirmwareUpdate" →
  (200 <=? len payload) && existsb (λ h, bytes_in h payload) S7.BLOCK_HINTS
    = false
  ∧ (800 <=? len payload)
    && (bytes_in (b "Firmware") payload || bytes_in (b "Update") payload)
    = true.
Proof.
  unfold S7._guess_function.
  destruct payload as [|b0 rest]; [intros [= <-]; discriminate|].
  destruct (negb _); [intros [= <-]; discriminate|].
  destruct (index _ _) as [fb|e]; [|discriminate].
  cbn [mbind result_bind].
  destruct (_ && existsb _ _) eqn:Hblock; [intros [= <-]; discriminate|].
  destruct ((800 <=? _) && _) eqn:Hfw; [done|].
  destruct (_ && _ && _); [intros [= <-]; discriminate|].
  destruct (S7.FUNC_MAP_get fb) as [base|] eqn:Hbase.
  - intros [= <-] ->. apply FUNC_MAP_get_names in Hbase.
    simpl in Hbase. intuition discriminate.
  - repeat (destruct (byte_in _ _)); intros [= <-]; discriminate.
Qed.

(** C9. The S7Comm classifier returns [FirmwareUpdate] for no payload:
    a payload of 800 bytes or more that holds [Firmware] or [Update] has
    already been classified [DownloadBlock] by the earlier rule, both
    words being block-hint tokens.  No record built by [parse_s7_packet]
    carries that name either. *)
Theorem C9_FirmwareUpdate_unreachable :
  (∀ payload : list byte, S7._guess_function payload ≠ Ok "FirmwareUpdate")
  ∧ (∀ (pkt : packet) (r : S7.record),
      S7.parse_s7_packet pkt = Ok (Some r) →
      S7.function_code r ≠ "FirmwareUpdate").
Proof.
  assert (∀ payload, S7._guess_function payload ≠ Ok "FirmwareUpdate") as Hg.
  { intros payload H.
    destruct (guess_function_Ok _ _ H eq_refl) as [Hblock Hfw].
    apply andb_true_iff in Hfw as [Hhuge Htok].
    apply Z.leb_le in Hhuge.
    assert (Hbig : (200 <=? len payload) = true) by (apply Z.leb_le; lia).
    rewrite Hbig in Hblock. cbn [andb] in Hblock.
    assert (existsb (λ h, bytes_in h payload) S7.BLOCK_HINTS = true) as Hex.
    { apply existsb_exists. apply orb_true_iff in Htok as [Ht|Ht].
      - exists (b "Firmware"). split; [|done]. unfold S7.BLOCK_HINTS.
        do 7 right. by left.
      - exists (b "Update"). split; [|done]. unfold S7.BLOCK_HINTS.
        do 8 right. by left. }
    congruence. }
  split; [exact Hg|].
  intros pkt r. unfold S7.parse_s7_packet.
  destruct (raw_payload pkt) as [payload|]; [|discriminate].
  destruct (_ || _); [discriminate|].
  destruct (S7._guess_function payload) as [name|] eqn:Hname; [|discriminate].
  cbn [mbind result_bind].
  destruct (second_layer pkt); [|discriminate].
  cbn [mbind result_bind]. intros [= <-]. cbn [S7.function_code].
  intros ->. by apply (Hg payload).
Qed.

(** C5. A payload of at least 200 bytes that starts with 0x32, holds the
    token [DB] and has 0x05 as its second byte is classified
    [DownloadBlock], not the [WriteVar] that the byte table gives for
    0x05. *)
Theorem C5_DownloadBlock_precedes_byte_table (payload : list byte) :
  200 ≤ len payload →
  payload !! 0%nat = Some x32 →
  bytes_in (b "DB") payload = true →
  payload !! 1%nat = Some x05 →
  S7._guess_function payload = Ok "DownloadBlock"
  ∧ S7._guess_function payload ≠ Ok "WriteVar"
  ∧ S7.FUNC_MAP_get x05 = Some "WriteVar".
Proof.
  intros Hlen H0 Hdb H1.
  assert (S7._guess_function payload = Ok "DownloadBlock") as Hg.
  { unfold S7._guess_function.
    destruct payload as [|b0 rest]; [discriminate|].
    injection H0 as ->. cbn [Byte.eqb negb].
    change (Byte.eqb x32 x32) with true. cbn [negb].
    unfold index. rewrite H1. cbn [mbind result_bind].
    assert ((200 <=? len (x32 :: rest)) = true) as -> by (apply Z.leb_le; lia).
    assert (existsb (λ h, bytes_in h (x32 :: rest)) S7.BLOCK_HINTS = true) as ->.
    { apply existsb_exists. exists (b "DB"). split; [|done].
      unfold S7.BLOCK_HINTS. do 2 right. by left. }
    reflexivity. }
  rewrite Hg. split; [done|]. split; [discriminate|reflexivity].
Qed.

Lemma C5_witness :
  S7._guess_function C5_payload = Ok "DownloadBlock"
  ∧ S7._guess_function C5_payload ≠ Ok "WriteVar"
  ∧ S7.FUNC_MAP_get x05 = Some "WriteVar".
Proof.
  apply (C5_DownloadBlock_precedes_byte_table C5_payload).
  - vm_compute. discriminate.
  - reflexivity.
  - vm_compute. reflexivity.
  - reflexivity.
Defined.

Lemma collect_hints_dnp3_In payload h :
  In h (Dnp3.collect_hints payload) ↔
  ∃ tok, In tok Dnp3.HINTS ∧ bytes_in tok payload = true
         ∧ h = decode_latin1 tok.
Proof.
  unfold Dnp3.collect_hints. rewrite in_map_iff. split.
  - intros (tok & <- & Hin). apply filter_In in Hin as [Hin Hb]. eauto.
  - intros (tok & Hin & Hb & ->). exists tok. split; [done|].
    apply filter_In. done.
Qed.

Lemma filter_none {A : Type} (f : A → bool) (l : list A) :
  (∀ x, In x l → f x = false) → List.filter f l = [].
Proof.
  induction l as [|x l IH]; [done|]. intros H. simpl.
  rewrite (H x) by (by left). apply IH. intros y Hy. apply H. by right.
Qed.

(** Every DNP3 hint token has at least three bytes, so shorter payloads
    carry no hint. *)
Lemma collect_hints_dnp3_short payload :
  len payload < 3 → Dnp3.collect_hints payload = [].
Proof.
  intros Hlen. unfold Dnp3.collect_hints.
  rewrite filter_none; [done|]. intros h Hin.
  assert (3 ≤ length h)%nat as Hmin.
  { unfold Dnp3.HINTS in Hin. simpl in Hin.
    repeat (destruct Hin as [<-|Hin]; [vm_compute; lia|]). done. }
  destruct (bytes_in h payload) eqn:Hb; [|done].
  apply bytes_in_length in Hb. unfold len in Hlen. lia.
Qed.

Lemma classify_short payload :
  len payload < 8 → Dnp3._classify_app_function payload = "UnknownDNP3".
Proof.
  intros Hlen. unfold Dnp3._classify_app_function.
  assert ((len payload <? 8) = true) as -> by (by apply Z.ltb_lt).
  rewrite orb_true_r. done.
Qed.

Lemma guess_function_marker payload :
  payload !! 0%nat ≠ Some x32 → S7._guess_function payload = Ok "NonS7Payload".
Proof.
  intros H0. unfold S7._guess_function.
  destruct payload as [|b0 rest]; [done|].
  destruct (Byte.eqb b0 x32) eqn:Heq; [|done].
  apply Byte.byte_dec_bl in Heq. subst. done.
Qed.

Lemma starts_with_0x32_lookup payload :
  S7.starts_with_0x32 payload = true ↔ payload !! 0%nat = Some x32.
Proof.
  destruct payload as [|b0 rest]; simpl; [done|]. split.
  - intros ->%Byte.byte_dec_bl. done.
  - intros [= ->]. done.
Qed.

Lemma do_build_padding pads : do_build (map Padding pads) = [].
Proof. induction pads as [|p pads IH]; [done|]. exact IH. Qed.

Lemma build_padding_padding pads :
  build_padding (map Padding pads) = concat pads.
Proof.
  induction pads as [|p pads IH]; [done|].
  cbn [map build_padding concat]. by rewrite IH.
Qed.

(** The payload of a frame with headers, one Raw layer and padding is
    the load followed by the padding. *)
Lemma raw_payload_dissected headers load pads :
  existsb is_raw headers = false →
  raw_payload (headers ++ Raw load :: map Padding pads)%list
  = Some (load ++ concat pads)%list
  ∧ raw_terminated (headers ++ Raw load :: map Padding pads)%list = true.
Proof.
  intros Hh. induction headers as [|h headers IH].
  - cbn [app raw_payload raw_terminated].
    rewrite do_build_padding, build_padding_padding. split; [done|].
    apply forallb_forall. intros l (p & <- & _)%in_map_iff. done.
  - cbn [existsb] in Hh. apply orb_false_iff in Hh as [Hraw Hh].
    destruct h; try discriminate; cbn [app raw_payload raw_terminated];
      by apply IH.
Qed.

(** C1, as the code has it.  The payload of a frame is what
    [bytes(pkt[Raw])] returns: the load of its first Raw layer followed
    by what lies beneath that layer, which in a frame that scapy has
    dissected is the padding of a padded frame.  A DNP3 payload of fewer
    than 8 bytes is classified [UnknownDNP3] and is not suspect, but its
    hints are still collected: the record lists exactly the hint tokens
    present in the payload, which is the empty list only when none is
    present (always so below 3 bytes).  For S7Comm, [_guess_function]
    returns [NonS7Payload] for an empty payload and for one whose first
    byte is not 0x32, and [parse_s7_packet] builds no record at all for a
    payload shorter than 10 bytes or not starting with 0x32. *)
Theorem C1_short_payloads :
  (∀ payload : list byte,
      len payload < 8 → Dnp3._classify_app_function payload = "UnknownDNP3")
  ∧ (∀ (headers : list layer) (load : list byte) (pads : list (list byte)),
      existsb is_raw headers = false →
      raw_payload (headers ++ Raw load :: map Padding pads)%list
      = Some (load ++ concat pads)%list
      ∧ raw_terminated (headers ++ Raw load :: map Padding pads)%list = true)
  ∧ (∀ (l0 l1 : layer) (rest : list layer) (payload : list byte),
      raw_terminated (l0 :: l1 :: rest) = true →
      raw_payload (l0 :: l1 :: rest) = Some payload →
      len payload < 8 →
      ∃ r, Dnp3.parse_dnp3_packet (l0 :: l1 :: rest) = Ok (Some r)
           ∧ Dnp3.function r = "UnknownDNP3"
           ∧ Dnp3.suspect r = false
           ∧ Dnp3.length r = len payload
           ∧ (∀ h, In h (Dnp3.hints r) ↔
                   ∃ tok, In tok Dnp3.HINTS ∧ bytes_in tok payload = true
                          ∧ h = decode_latin1 tok)
           ∧ (len payload < 3 → Dnp3.hints r = []))
  ∧ (∀ payload : list byte,
      payload !! 0%nat ≠ Some x32 →
      S7._guess_function payload = Ok "NonS7Payload")
  ∧ (∀ (pkt : packet) (payload : list byte),
      raw_terminated pkt = true →
      raw_payload pkt = Some payload →
      len payload < 10 ∨ payload !! 0%nat ≠ Some x32 →
      S7.parse_s7_packet pkt = Ok None).
Proof.
  split; [exact classify_short|]. split; [exact raw_payload_dissected|].
  split; [|split; [exact guess_function_marker|]].
  - intros l0 l1 rest payload _ Hraw Hlen.
    unfold Dnp3.parse_dnp3_packet. rewrite Hraw.
    cbn [second_layer mbind result_bind]. eexists. split; [reflexivity|].
    cbn [Dnp3.function Dnp3.suspect Dnp3.hints Dnp3.length].
    rewrite (classify_short _ Hlen).
    split; [done|]. split; [reflexivity|]. split; [done|]. split.
    + intros h. apply collect_hints_dnp3_In.
    + apply collect_hints_dnp3_short.
  - intros pkt payload _ Hraw Hshort. unfold S7.parse_s7_packet. rewrite Hraw.
    destruct Hshort as [Hlen|Hmark].
    + assert ((len payload <? 10) = true) as -> by (by apply Z.ltb_lt). done.
    + destruct (S7.starts_with_0x32 payload) eqn:Hs.
      * apply starts_with_0x32_lookup in Hs. done.
      * rewrite orb_true_r. done.
Qed.

Lemma C1_witness :
  Dnp3._classify_app_function (b "READ") = "UnknownDNP3"
  ∧ ∃ r, Dnp3.parse_dnp3_packet C1_frame = Ok (Some r)
         ∧ Dnp3.function r = "UnknownDNP3"
         ∧ Dnp3.suspect r = false
         ∧ Dnp3.length r = len (b "RD" ++ [x00; x00; x00; x00])%list
         ∧ (∀ h, In h (Dnp3.hints r) ↔
                 ∃ tok, In tok Dnp3.HINTS
                        ∧ bytes_in tok (b "RD" ++ [x00; x00; x00; x00])%list
                          = true
                        ∧ h = decode_latin1 tok)
         ∧ (len (b "RD" ++ [x00; x00; x00; x00])%list < 3 → Dnp3.hints r = []).
Proof.
  pose proof C1_short_payloads as (Hclass & _ & Hparse & _).
  split.
  - apply (Hclass (b "READ")). vm_compute. reflexivity.
  - apply Hparse.
    + reflexivity.
    + reflexivity.
    + vm_compute. reflexivity.
Defined.

(** C1 as stated fails.  The 4-byte DNP3 payload [READ] is classified
    [UnknownDNP3] and still reports the hint [READ]; the 2-byte S7Comm
    payload [32 05] yields no record from [parse_s7_packet], and
    [_guess_function] names it [WriteVar], not [NonS7Payload]. *)
Lemma C1_counterexample :
  Dnp3.parse_dnp3_packet
    [Ether "00:00:00:00:00:01" "00:00:00:00:00:02"; IP "10.0.0.1" "10.0.0.2";
     TCP 40000 20000; Raw (b "READ")]
  = Ok (Some {| Dnp3.src := "10.0.0.1"; Dnp3.dst := "10.0.0.2";
                Dnp3.function := "UnknownDNP3"; Dnp3.length := 4;
                Dnp3.hints := ["READ"]; Dnp3.suspect := false |})
  ∧ S7.parse_s7_packet
      [Ether "00:00:00:00:00:01" "00:00:00:00:00:02"; IP "10.0.0.1" "10.0.0.2";
       TCP 40000 102; Raw [x32; x05]]
    = Ok None
  ∧ S7._guess_function [x32; x05] = Ok "WriteVar".
Proof. split; [|split]; vm_compute; reflexivity. Qed.

(** Padding counts.  A frame padded to the smallest Ethernet size carries
    its four payload bytes in the Raw layer and the fill bytes in a
    Padding layer beneath it; the parser sees all eighteen of them and
    classifies the frame. *)
Example padded_payload :
  Dnp3.parse_dnp3_packet
    [Ether "00:00:00:00:00:01" "00:00:00:00:00:02"; IP "10.0.0.1" "10.0.0.2";
     UDP 40000 20000; Raw (b "OPER"); Padding (repeat x00 14)]
  = Ok (Some {| Dnp3.src := "10.0.0.1"; Dnp3.dst := "10.0.0.2";
                Dnp3.function := "Operate"; Dnp3.length := 18;
                Dnp3.hints := ["OPER"]; Dnp3.suspect := true |})
  ∧ raw_payload [Ether "a" "b"; Raw (b "ab"); Padding (b "xy"); Raw (b "cd");
                 Padding (b "z")]
    = Some (b "abcdxyz")
  ∧ raw_payload [Ether "a" "b"; Padding (b "xy")] = None.
Proof. repeat split; vm_compute; reflexivity. Qed.

(** The hosts of a frame with a VLAN tag between its Ethernet and IP
    headers are those of the IP header: the tag has no [src] of its own,
    and the lookup goes on beneath it. *)
Example tagged_frame_hosts :
  Dnp3.parse_dnp3_packet
    [Ether "00:00:00:00:00:01" "00:00:00:00:00:02"; OtherLayer;
     IP "10.0.0.1" "10.0.0.2"; TCP 40000 20000; Raw (b "....WRITE")]
  = Ok (Some {| Dnp3.src := "10.0.0.1"; Dnp3.dst := "10.0.0.2";
                Dnp3.function := "Write"; Dnp3.length := 9;
                Dnp3.hints := ["WRITE"]; Dnp3.suspect := true |}).
Proof. vm_compute. reflexivity. Qed.

(* --------------------------------------------------------------------- *)

Lemma dnp3_parse_suspect pkt r :
  Dnp3.parse_dnp3_packet pkt = Ok (Some r) →
  Dnp3.suspect r = str_in (Dnp3.function r) Dnp3.SUSPECT_FUNCS.
Proof.
  unfold Dnp3.parse_dnp3_packet.
  destruct (raw_payload pkt); [|discriminate].
  destruct (second_layer pkt); [|discriminate].
  cbn [mbind result_bind]. intros [= <-]. reflexivity.
Qed.

(** The inline set literal of the S7Comm analyzer is the [SUSPECT_FUNCS]
    of its parser module. *)
Lemma is_suspect_SUSPECT_FUNCS (r : S7.record) :
  S7.is_suspect r = str_in (S7.function_code r) S7.SUSPECT_FUNCS.
Proof. reflexivity. Qed.

(** C6, as the code has it.  A DNP3 record carries a [suspect] flag,
    which is true exactly when its operation name belongs to the DNP3
    set, and the DNP3 analyzer counts on that flag.  An S7Comm record
    carries no such flag: its keys are [src], [dst], [function_code],
    [length] and [hints].  The S7Comm analyzer counts a record as
    suspect exactly when its operation name belongs to the S7Comm set,
    which it tests itself. *)
Theorem C6_suspect_iff_member :
  (∀ (pkt : packet) (r : Dnp3.record),
      Dnp3.parse_dnp3_packet pkt = Ok (Some r) →
      (Dnp3.suspect r = true ↔
       In (Dnp3.function r)
          ["Operate"; "Write"; "EnableUnsolicited";
           "ColdRestart"; "WarmRestart"; "ClearRestart"]))
  ∧ (∀ (st : Dnp3.state) (pkt : packet) (r : Dnp3.record),
      Dnp3.is_dnp3 pkt = true →
      Dnp3.parse_dnp3_packet pkt = Ok (Some r) →
      ∃ st', Dnp3.step st pkt = Ok st'
             ∧ (Dnp3.suspect_functions (Dnp3.acc st')
                = Dnp3.suspect_functions (Dnp3.acc st) + 1
                ↔ Dnp3.suspect r = true))
  ∧ (∀ r : Dnp3.record,
      ∃ d, Persisted.dnp3_record_json r = JDict d
           ∧ d !! "suspect" = Some (JBool (Dnp3.suspect r)))
  ∧ (∀ r : S7.record,
      ∃ d, Persisted.s7_record_json r = JDict d
           ∧ d !! "suspect" = None
           ∧ dom d
             = list_to_set ["src"; "dst"; "function_code"; "length"; "hints"])
  ∧ (∀ (st : S7.state) (pkt : packet) (r : S7.record),
      port_match (tcp_ports pkt) 102 = true →
      S7.parse_s7_packet pkt = Ok (Some r) →
      ∃ st', S7.step st pkt = Ok st'
             ∧ (S7.suspect_functions (S7.acc st')
                = S7.suspect_functions (S7.acc st) + 1
                ↔ In (S7.function_code r)
                     ["WriteVar"; "Start"; "Stop"; "DownloadBlock";
                      "CopyRamToRom"; "FirmwareUpdate"])).
Proof.
  split; [|split; [|split; [|split]]].
  - intros pkt r Hp. rewrite (dnp3_parse_suspect _ _ Hp).
    apply str_in_In.
  - intros st pkt r Hadm Hp. unfold Dnp3.step. rewrite Hadm, Hp.
    cbn [negb mbind result_bind]. eexists. split; [reflexivity|].
    cbn [Dnp3.acc Dnp3.suspect_functions].
    destruct (Dnp3.suspect r); split; intros; try done; lia.
  - intros r. eexists. split; [reflexivity|]. by simplify_map_eq.
  - intros r. eexists. split; [reflexivity|]. split; [by simplify_map_eq|].
    rewrite !dom_insert_L, dom_empty_L. cbn [list_to_set]. done.
  - intros st pkt r Hadm Hp. unfold S7.step. rewrite Hadm, Hp.
    cbn [mbind result_bind]. eexists. split; [reflexivity|].
    cbn [S7.acc S7.suspect_functions]. unfold S7.is_suspect.
    rewrite <- str_in_In.
    destruct (str_in _ _); split; intros; try done; lia.
Qed.

Lemma C6_witness :
  (Dnp3.suspect C6_record = true ↔
   In (Dnp3.function C6_record)
      ["Operate"; "Write"; "EnableUnsolicited";
       "ColdRestart"; "WarmRestart"; "ClearRestart"])
  ∧ ∃ st', S7.step S7.init C6_s7_frame = Ok st'
           ∧ (S7.suspect_functions (S7.acc st')
              = S7.suspect_functions (S7.acc S7.init) + 1
              ↔ In (S7.function_code C6_s7_record)
                   ["WriteVar"; "Start"; "Stop"; "DownloadBlock";
                    "CopyRamToRom"; "FirmwareUpdate"]).
Proof.
  pose proof C6_suspect_iff_member as (Hflag & _ & _ & _ & Hcount).
  split.
  - apply (Hflag C6_frame C6_record). vm_compute. reflexivity.
  - apply (Hcount S7.init C6_s7_frame C6_s7_record); vm_compute; reflexivity.
Defined.

(** C6 as stated fails for S7Comm: the record of a frame that writes a
    variable names an operation of the suspect set and has no [suspect]
    entry, where the record of a DNP3 write has one. *)
Lemma C6_counterexample :
  S7.parse_s7_packet C6_s7_frame = Ok (Some C6_s7_record)
  ∧ str_in (S7.function_code C6_s7_record) S7.SUSPECT_FUNCS = true
  ∧ dict_get (Persisted.s7_record_json C6_s7_record) "suspect" JNull
    = Ok JNull
  ∧ Dnp3.parse_dnp3_packet C6_frame = Ok (Some C6_record)
  ∧ dict_get (Persisted.dnp3_record_json C6_record) "suspect" JNull
    = Ok (JBool true).
Proof. repeat split; vm_compute; reflexivity. Qed.

(* ===================================================================== *)
(** ** Properties of the Modbus probe *)
(* ===================================================================== *)

Section probe.
Import Modbus.

Lemma has_data_size {V : Type} (w : option (list V)) :
  has_data w = negb (window_size w =? 0)%nat.
Proof. destruct w as [[|x l]|]; reflexivity. Qed.

Lemma windows_with_data_populated rd :
  windows_with_data rd = Z.of_nat (populated_windows rd).
Proof.
  unfold windows_with_data, populated_windows. rewrite !has_data_size.
  simpl. repeat (destruct (negb _)); reflexivity.
Qed.

(** The four reads leave [reachable], the error-free fields and the
    [broad_register_access] flag alone. *)
Lemma read_window_fields {V : Type} name (o : read_outcome V) store r :
  let r' := read_window name o store r in
  reachable r' = reachable r
  ∧ broad_register_access (exposure r') = broad_register_access (exposure r)
  ∧ (unauthenticated_read (exposure r) = true →
     unauthenticated_read (exposure r') = true)
  ∧ (reads r' = reads r
     ∨ unauthenticated_read (exposure r') = true
       ∧ ∃ w, reads r' = store (Some w) (reads r)).
Proof.
  destruct o as [msg| | |data]; cbn; try (by intuition).
  repeat split; try done. right. split; [done|]. eauto.
Qed.

Lemma read_window_invariant {V : Type} name (o : read_outcome V) store r :
  read_invariant r → read_invariant (read_window name o store r).
Proof.
  unfold read_invariant. intros Hinv.
  destruct (read_window_fields name o store r) as (_ & _ & Hmono & [Heq|[Hu _]]).
  - rewrite Heq. auto.
  - auto.
Qed.

Lemma has_data_any rd :
  1 ≤ windows_with_data rd → any_window rd = true.
Proof.
  unfold windows_with_data, any_window.
  destruct rd as [[[|? ?]|] [[|? ?]|] [[|? ?]|] [[|? ?]|]]; cbn; try done; lia.
Qed.

(** What [read_all] leaves behind. *)
Lemma read_all_spec dev r :
  read_invariant r →
  broad_register_access (exposure r) = false →
  let r' := read_all dev r in
  reachable r' = true
  ∧ read_invariant r'
  ∧ (broad_register_access (exposure r') = true ↔
     2 ≤ windows_with_data (reads r')).
Proof.
  intros Hinv Hbroad. unfold read_all.
  set (r0 := set_reachable true r).
  set (r1 := read_window "coils" _ _ r0).
  set (r2 := read_window "discrete_inputs" _ _ r1).
  set (r3 := read_window "holding_registers" _ _ r2).
  set (r4 := read_window "input_registers" _ _ r3).
  assert (read_invariant r4) as Hinv4.
  { do 4 apply read_window_invariant. exact Hinv. }
  assert (reachable r4 = true ∧ broad_register_access (exposure r4) = false)
    as [Hreach Hb4].
  { subst r4 r3 r2 r1.
    repeat match goal with
    | |- context [read_window ?n ?o ?s ?r] =>
        let H := fresh in
        destruct (read_window_fields n o s r) as (-> & -> & _ & _)
    end.
    done. }
  destruct (2 <=? windows_with_data (reads r4)) eqn:Hcount; cbn.
  - apply Z.leb_le in Hcount. split; [exact Hreach|]. split.
    + exact Hinv4.
    + split; [intros _; exact Hcount|done].
  - apply Z.leb_gt in Hcount. split; [exact Hreach|]. split.
    + exact Hinv4.
    + rewrite Hb4. split; [done|lia].
Qed.

Lemma initial_result_invariant ip port unit_id :
  read_invariant (initial_result ip port unit_id).
Proof. unfold read_invariant. cbn. done. Qed.

(** The state of the result after the outer [try], by the outcome of
    the connection. *)
Lemma probe_host_cases dev ip port unit_id :
  let r := probe_host dev ip port unit_id in
  (connect dev = ConnectTrue
   ∧ reachable r = true
   ∧ read_invariant r
   ∧ (broad_register_access (exposure r) = true ↔
      2 ≤ windows_with_data (reads r)))
  ∨ (connect dev ≠ ConnectTrue
     ∧ reachable r = false
     ∧ reads r = mk_reads None None None None
     ∧ exposure r = mk_exposure false false).
Proof.
  unfold probe_host. destruct (connect dev) eqn:Hc;
    try (right; cbn; repeat split; done).
  left. split; [done|].
  destruct (read_all_spec dev (initial_result ip port unit_id))
    as (Hreach & Hinv & Hiff).
  - apply initial_result_invariant.
  - reflexivity.
  - cbn. auto.
Qed.

End probe.

(** C7. In every result of [probe_host], [broad_register_access] is true
    exactly when at least two of the four read windows are non-empty
    lists. *)
Theorem C7_broad_register_access_iff
    (dev : Modbus.device) (ip : string) (port unit_id : Z) :
  let r := Modbus.probe_host dev ip port unit_id in
  Modbus.broad_register_access (Modbus.exposure r) = true
  ↔ (2 ≤ populated_windows (Modbus.reads r))%nat.
Proof.
  intros r. subst r.
  destruct (probe_host_cases dev ip port unit_id)
    as [(_ & _ & _ & Hiff)|(_ & _ & Hreads & Hexp)].
  - rewrite Hiff, windows_with_data_populated. lia.
  - rewrite Hreads, Hexp. cbn. split; [done|lia].
Qed.

(** The flag on devices that answer none, one, two and all four of the
    reads with data. *)
Example broad_with_0_windows :
  Modbus.broad_register_access
    (Modbus.exposure
       (Modbus.probe_host
          (device_answering Modbus.ReadIsError Modbus.ReadIOException
             (Modbus.ReadRaises "timeout") (Modbus.ReadData (Some [])))
          "10.0.0.1" 502 1)) = false.
Proof. reflexivity. Qed.

Example broad_with_1_window :
  Modbus.broad_register_access
    (Modbus.exposure
       (Modbus.probe_host
          (device_answering (Modbus.ReadData (Some [true; false]))
             Modbus.ReadIOException (Modbus.ReadRaises "timeout")
             (Modbus.ReadData None))
          "10.0.0.1" 502 1)) = false.
Proof. reflexivity. Qed.

Example broad_with_2_windows :
  Modbus.broad_register_access
    (Modbus.exposure
       (Modbus.probe_host
          (device_answering (Modbus.ReadData (Some [true; false]))
             Modbus.ReadIOException (Modbus.ReadData (Some [7]))
             Modbus.ReadIsError)
          "10.0.0.1" 502 1)) = true.
Proof. reflexivity. Qed.

Example broad_with_4_windows :
  Modbus.broad_register_access
    (Modbus.exposure
       (Modbus.probe_host
          (device_answering (Modbus.ReadData (Some [true]))
             (Modbus.ReadData (Some [false])) (Modbus.ReadData (Some [7]))
             (Modbus.ReadData (Some [8; 9])))
          "10.0.0.1" 502 1)) = true.
Proof. reflexivity. Qed.

(** C10. In every result of [probe_host]: if [broad_register_access] is
    true then so are [unauthenticated_read] and [reachable]; and if
    [reachable] is false then the four read windows are absent and both
    exposure flags are false. *)
Theorem C10_probe_result_chain
    (dev : Modbus.device) (ip : string) (port unit_id : Z) :
  let r := Modbus.probe_host dev ip port unit_id in
  (Modbus.broad_register_access (Modbus.exposure r) = true →
   Modbus.unauthenticated_read (Modbus.exposure r) = true
   ∧ Modbus.reachable r = true)
  ∧ (Modbus.reachable r = false →
     Modbus.coils (Modbus.reads r) = None
     ∧ Modbus.discrete_inputs (Modbus.reads r) = None
     ∧ Modbus.holding_registers (Modbus.reads r) = None
     ∧ Modbus.input_registers (Modbus.reads r) = None
     ∧ Modbus.unauthenticated_read (Modbus.exposure r) = false
     ∧ Modbus.broad_register_access (Modbus.exposure r) = false).
Proof.
  intros r. subst r.
  destruct (probe_host_cases dev ip port unit_id)
    as [(_ & Hreach & Hinv & Hiff)|(_ & Hreach & Hreads & Hexp)].
  - split.
    + intros Hbroad. split; [|exact Hreach].
      apply Hinv, has_data_any. apply Hiff in Hbroad. lia.
    + rewrite Hreach. discriminate.
  - rewrite Hreads, Hexp. cbn. split; [discriminate|done].
Qed.

Lemma C10_witness :
  Modbus.unauthenticated_read
    (Modbus.exposure (Modbus.probe_host C10_device "10.0.0.1" 502 1)) = true
  ∧ Modbus.reachable (Modbus.probe_host C10_device "10.0.0.1" 502 1) = true.
Proof.
  apply (proj1 (C10_probe_result_chain C10_device "10.0.0.1" 502 1)).
  reflexivity.
Defined.

(* ===================================================================== *)
(** ** Properties of the run aggregation *)
(* ===================================================================== *)

(** A frame with a transport layer and a Raw layer has two layers. *)
Lemma ports_raw_second_layer (pkt : packet) (payload : list byte) :
  is_Some (tcp_ports pkt) ∨ is_Some (udp_ports pkt) →
  raw_payload pkt = Some payload →
  ∃ l1, second_layer pkt = Ok l1.
Proof.
  destruct pkt as [|l0 [|l1 rest]]; cbn.
  - intros _ [=].
  - destruct l0; cbn; intros [[? [=]]|[? [=]]] [=].
  - eauto.
Qed.

Lemma port_match_is_Some ports port :
  port_match ports port = true → is_Some ports.
Proof. destruct ports; [eauto|discriminate]. Qed.

Lemma filter_Permutation {A : Type} (f : A → bool) (l l' : list A) :
  l ≡ₚ l' → List.filter f l ≡ₚ List.filter f l'.
Proof.
  induction 1 as [|x l l' _ IH|x y l|l l' l'' _ IH1 _ IH2]; simpl.
  - done.
  - destruct (f x); [by constructor|done].
  - destruct (f x), (f y); try done. apply perm_swap.
  - by etrans.
Qed.

Section dnp3_aggregation.
Import Dnp3.

(** An admitted frame never makes the parser raise. *)
Lemma parse_admitted pkt :
  is_dnp3 pkt = true → ∃ parsed, parse_dnp3_packet pkt = Ok parsed.
Proof.
  intros Hadm. unfold parse_dnp3_packet.
  destruct (raw_payload pkt) as [payload|] eqn:Hraw; [|eauto].
  destruct (ports_raw_second_layer pkt payload) as [l1 ->]; [|done|].
  - unfold is_dnp3 in Hadm. apply orb_true_iff in Hadm as [H|H];
      apply port_match_is_Some in H; auto.
  - cbn. eauto.
Qed.

Lemma union_list_nil_r (X : gset string) : X ∪ ⋃ [] = X.
Proof. set_solver. Qed.

Lemma summary_eq (s t : summary) :
  total_packets s = total_packets t →
  dnp3_packets s = dnp3_packets t →
  suspect_functions s = suspect_functions t →
  unique_hosts s = unique_hosts t →
  s = t.
Proof. destruct s, t; cbn; intros; subst; reflexivity. Qed.

Ltac summary_fields :=
  apply summary_eq; cbn; unfold counted, counted_suspect, hosts_of, len; cbn;
  [ lia
  | lia
  | try match goal with |- context [suspect ?r] => destruct (suspect r) end;
    cbn; lia
  | rewrite ?union_list_nil_r; try done; set_solver ].

Lemma absorbed_one s pkt :
  absorbed s [pkt]
  = match contributed pkt with
    | Some r =>
        {| total_packets := total_packets s + 1;
           dnp3_packets := dnp3_packets s + 1;
           suspect_functions :=
             (if suspect r then suspect_functions s + 1
              else suspect_functions s);
           unique_hosts := {[dst r]} ∪ ({[src r]} ∪ unique_hosts s) |}
    | None =>
        {| total_packets := total_packets s + 1;
           dnp3_packets := dnp3_packets s;
           suspect_functions := suspect_functions s;
           unique_hosts := unique_hosts s |}
    end.
Proof.
  unfold absorbed. cbn. destruct (contributed pkt) as [r|].
  - summary_fields.
  - summary_fields.
Qed.

Lemma step_absorbed st pkt :
  ∃ st', step st pkt = Ok st'
         ∧ acc st' = absorbed (acc st) [pkt]
         ∧ results st' = (results st ++ omap contributed [pkt])%list.
Proof.
  rewrite absorbed_one. cbn. unfold step, contributed.
  destruct (is_dnp3 pkt) eqn:Hadm; cbn [negb].
  - destruct (parse_admitted pkt Hadm) as [[r|] ->];
      cbn [mbind result_bind]; eexists; (split; [reflexivity|]);
      cbn [acc results]; (split; [reflexivity|]).
    + reflexivity.
    + cbn. by rewrite app_nil_r.
  - eexists. split; [reflexivity|]. cbn [acc results].
    split; [reflexivity|]. cbn. by rewrite app_nil_r.
Qed.

Lemma absorbed_cons s pkt pkts :
  absorbed (absorbed s [pkt]) pkts = absorbed s (pkt :: pkts).
Proof.
  unfold absorbed. cbn.
  destruct (contributed pkt) as [r|]; summary_fields.
Qed.

(** The loop never raises and leaves the closed form behind. *)
Lemma for_each_absorbed pkts st :
  ∃ st', for_each step st pkts = Ok st'
         ∧ acc st' = absorbed (acc st) pkts
         ∧ results st' = (results st ++ omap contributed pkts)%list.
Proof.
  revert st. induction pkts as [|pkt pkts IH]; intros st.
  - exists st. split; [done|]. split; [|by rewrite app_nil_r].
    unfold absorbed. summary_fields.
  - destruct (step_absorbed st pkt) as (st1 & Hstep & Hacc & Hres).
    destruct (IH st1) as (st' & Hloop & Hacc' & Hres').
    exists st'. cbn [for_each]. rewrite Hstep. cbn [mbind result_bind].
    split; [done|]. split.
    + rewrite Hacc', Hacc. apply absorbed_cons.
    + rewrite Hres', Hres. cbn.
      destruct (contributed pkt); cbn; rewrite <- ?app_assoc; cbn;
        by rewrite ?app_nil_r.
Qed.

Lemma hosts_of_elem rs h :
  h ∈ hosts_of rs ↔ ∃ r, r ∈ rs ∧ (h = src r ∨ h = dst r).
Proof.
  unfold hosts_of. rewrite elem_of_union_list. split.
  - intros (X & HX & Hh). apply list_elem_of_fmap in HX as (r & -> & Hr).
    exists r. split; [done|]. set_solver.
  - intros (r & Hr & Hh). exists {[src r; dst r]}. split; [|set_solver].
    apply list_elem_of_fmap. eauto.
Qed.

(** The closed form depends on the frames up to their order only. *)
Lemma absorbed_Permutation s pkts pkts' :
  pkts ≡ₚ pkts' → absorbed s pkts = absorbed s pkts'.
Proof.
  intros Hperm.
  assert (omap contributed pkts ≡ₚ omap contributed pkts') as Hrs
    by (by rewrite Hperm).
  apply summary_eq; cbn; unfold counted, counted_suspect, len.
  - by rewrite Hperm.
  - by rewrite Hrs.
  - f_equal. f_equal. apply Permutation_length.
    by apply filter_Permutation.
  - f_equal. apply set_eq. intros h. rewrite !hosts_of_elem.
    by setoid_rewrite Hrs.
Qed.

Lemma analyze_pcap_absorbed pkts :
  ∃ rep, analyze_pcap pkts = Ok rep
         ∧ total_packets (acc rep) = len pkts
         ∧ dnp3_packets (acc rep) = counted (omap contributed pkts)
         ∧ suspect_functions (acc rep)
           = counted_suspect (omap contributed pkts)
         ∧ unique_hosts (acc rep)
           = filter_None (hosts_of (omap contributed pkts))
         ∧ results rep = omap contributed pkts.
Proof.
  unfold analyze_pcap.
  destruct (for_each_absorbed pkts init) as (st & -> & Hacc & Hres).
  cbn [mbind result_bind]. eexists. split; [reflexivity|].
  cbn [acc results total_packets dnp3_packets suspect_functions unique_hosts].
  rewrite Hacc, Hres. cbn.
  repeat split; try lia. f_equal. set_solver.
Qed.

End dnp3_aggregation.

(** The host set of a run never holds the empty string. *)
Lemma unique_hosts_no_empty (pkts : list packet) (rep : Dnp3.state) :
  Dnp3.analyze_pcap pkts = Ok rep → "" ∉ Dnp3.unique_hosts (Dnp3.acc rep).
Proof.
  destruct (analyze_pcap_absorbed pkts) as (rep' & -> & _ & _ & _ & Hh & _).
  intros [= <-]. rewrite Hh. unfold filter_None.
  intros [Hne _]%elem_of_filter. done.
Qed.

(** C8. Folding a finite sequence of frames into a run summary does not
    depend on their order: for any two orderings of the same frames the
    analysis succeeds on both and yields the same packet total, the same
    protocol-matched count, the same suspect count and the same set of
    unique hosts. *)
Theorem C8_fold_order_insensitive (pkts pkts' : list packet) :
  pkts ≡ₚ pkts' →
  ∃ rep rep',
    Dnp3.analyze_pcap pkts = Ok rep
    ∧ Dnp3.analyze_pcap pkts' = Ok rep'
    ∧ Dnp3.total_packets (Dnp3.acc rep) = Dnp3.total_packets (Dnp3.acc rep')
    ∧ Dnp3.dnp3_packets (Dnp3.acc rep) = Dnp3.dnp3_packets (Dnp3.acc rep')
    ∧ Dnp3.suspect_functions (Dnp3.acc rep)
      = Dnp3.suspect_functions (Dnp3.acc rep')
    ∧ Dnp3.unique_hosts (Dnp3.acc rep) = Dnp3.unique_hosts (Dnp3.acc rep').
Proof.
  intros Hperm.
  destruct (analyze_pcap_absorbed pkts) as (rep & Hrep & Ht & Hd & Hs & Hh & _).
  destruct (analyze_pcap_absorbed pkts') as (rep' & Hrep' & Ht' & Hd' & Hs' & Hh' & _).
  exists rep, rep'. split; [done|]. split; [done|].
  pose proof (absorbed_Permutation (Dnp3.acc Dnp3.init) _ _ Hperm) as Heq.
  unfold absorbed in Heq. injection Heq as H1 H2 H3 H4.
  cbn in H1, H2, H3, H4.
  rewrite Ht, Ht', Hd, Hd', Hs, Hs', Hh, Hh'.
  repeat split; try lia.
  f_equal. set_solver.
Qed.

Lemma C8_witness :
  ∃ rep rep',
    Dnp3.analyze_pcap [frame_A; frame_B; frame_C] = Ok rep
    ∧ Dnp3.analyze_pcap [frame_C; frame_A; frame_B] = Ok rep'
    ∧ Dnp3.total_packets (Dnp3.acc rep) = Dnp3.total_packets (Dnp3.acc rep')
    ∧ Dnp3.dnp3_packets (Dnp3.acc rep) = Dnp3.dnp3_packets (Dnp3.acc rep')
    ∧ Dnp3.suspect_functions (Dnp3.acc rep)
      = Dnp3.suspect_functions (Dnp3.acc rep')
    ∧ Dnp3.unique_hosts (Dnp3.acc rep) = Dnp3.unique_hosts (Dnp3.acc rep').
Proof.
  apply (C8_fold_order_insensitive
           [frame_A; frame_B; frame_C] [frame_C; frame_A; frame_B]).
  exact (Permutation_app_comm [frame_A; frame_B] [frame_C]).
Defined.

(** The run of the three records Write, Read, Operate between two hosts:
    three frames, three matched, two suspect, two hosts. *)
Example three_frames_summary :
  ∃ rep, Dnp3.analyze_pcap [frame_A; frame_B; frame_C] = Ok rep
         ∧ map Dnp3.function (Dnp3.results rep) = ["Write"; "Read"; "Operate"]
         ∧ Dnp3.total_packets (Dnp3.acc rep) = 3
         ∧ Dnp3.dnp3_packets (Dnp3.acc rep) = 3
         ∧ Dnp3.suspect_functions (Dnp3.acc rep) = 2
         ∧ Dnp3.unique_hosts (Dnp3.acc rep) = {["10.0.0.1"; "10.0.0.2"]}.
Proof.
  eexists. split; [vm_compute; reflexivity|].
  repeat split; vm_compute; reflexivity.
Qed.

(* ===================================================================== *)
(** ** Properties of the index builders *)
(* ===================================================================== *)

(* --------------------------------------------------------------------- *)

(** An entry whose name does not end in [.json] changes nothing. *)
Lemma visit_other st e :
  is_json_file e = false → GlobalIndex.visit st e = st.
Proof.
  unfold is_json_file, GlobalIndex.visit. destruct e as [fname content].
  cbn [fst]. by intros ->.
Qed.

(** Every [.json] name counts as a processed file, whatever the file
    holds. *)
Lemma visit_total_pcaps st e :
  GlobalIndex.total_pcaps (GlobalIndex.visit st e)
  = GlobalIndex.total_pcaps st + Z.b2z (is_json_file e).
Proof.
  unfold is_json_file, GlobalIndex.visit. destruct e as [fname content].
  cbn [fst]. destruct (Str.endswith fname ".json"); cbn [Z.b2z]; [|lia].
  destruct content as [data|err]; cbn; [|done].
  destruct (dict_get data _ _) as [summ|]; cbn; [|done].
  destruct (dict_get summ "total_packets" _) as [v|]; cbn; [|done].
  destruct (iadd _ v); cbn; [|done].
  destruct (dict_get summ "suspect_functions" _) as [w|]; cbn; [|done].
  destruct (iadd _ w); done.
Qed.

(** What an entry does to the packet and suspect totals does not depend
    on the number of files seen so far. *)
Lemma visit_amounts st st' e :
  GlobalIndex.total_packets st = GlobalIndex.total_packets st' →
  GlobalIndex.suspect st = GlobalIndex.suspect st' →
  GlobalIndex.total_packets (GlobalIndex.visit st e)
  = GlobalIndex.total_packets (GlobalIndex.visit st' e)
  ∧ GlobalIndex.suspect (GlobalIndex.visit st e)
    = GlobalIndex.suspect (GlobalIndex.visit st' e).
Proof.
  destruct st as [n p s], st' as [n' p' s']. cbn. intros <- <-.
  unfold GlobalIndex.visit. destruct e as [fname content].
  destruct (Str.endswith fname ".json"); cbn; [|done].
  destruct content as [data|err]; cbn; [|done].
  destruct (dict_get data _ _) as [summ|]; cbn; [|done].
  destruct (dict_get summ "total_packets" _) as [v|]; cbn; [|done].
  destruct (iadd p v); cbn; [|done].
  destruct (dict_get summ "suspect_functions" _) as [w|]; cbn; [|done].
  destruct (iadd s w); done.
Qed.

Lemma visit_unusable st e :
  unusable e = true →
  GlobalIndex.total_packets (GlobalIndex.visit st e)
  = GlobalIndex.total_packets st
  ∧ GlobalIndex.suspect (GlobalIndex.visit st e) = GlobalIndex.suspect st.
Proof.
  unfold unusable, GlobalIndex.visit. destruct e as [fname content].
  cbn [snd]. destruct (Str.endswith fname ".json"); [|done].
  destruct content as [data|err]; [|done].
  destruct data as [| | | | | |d]; try done. cbn.
  destruct (d !! "summary") as [summ|]; [|done].
  destruct summ as [| | | | | |s]; try done. cbn.
  destruct (s !! "total_packets") as [v|]; [|done].
  destruct st as [n p q]. cbn. destruct v; try done; destruct p; done.
Qed.

Lemma fold_total_pcaps entries st :
  GlobalIndex.total_pcaps (fold_left GlobalIndex.visit entries st)
  = GlobalIndex.total_pcaps st + len (List.filter is_json_file entries).
Proof.
  revert st. induction entries as [|e entries IH]; intros st.
  - unfold len. cbn. lia.
  - cbn [fold_left List.filter]. rewrite IH, visit_total_pcaps.
    destruct (is_json_file e); unfold len; cbn [Z.b2z List.length]; lia.
Qed.

Lemma collect_summary_total_pcaps entries :
  (GlobalIndex.collect_summary (Some entries)).1.1
  = len (List.filter is_json_file entries).
Proof.
  unfold GlobalIndex.collect_summary. cbn [fst].
  rewrite fold_total_pcaps. cbn. lia.
Qed.

Lemma fold_filter_unusable entries st st' :
  GlobalIndex.total_packets st = GlobalIndex.total_packets st' →
  GlobalIndex.suspect st = GlobalIndex.suspect st' →
  GlobalIndex.total_packets (fold_left GlobalIndex.visit entries st)
  = GlobalIndex.total_packets
      (fold_left GlobalIndex.visit
         (List.filter (λ e, negb (unusable e)) entries) st')
  ∧ GlobalIndex.suspect (fold_left GlobalIndex.visit entries st)
    = GlobalIndex.suspect
        (fold_left GlobalIndex.visit
           (List.filter (λ e, negb (unusable e)) entries) st').
Proof.
  revert st st'. induction entries as [|e entries IH]; intros st st' Hp Hs.
  - done.
  - cbn [fold_left List.filter]. destruct (unusable e) eqn:Hun; cbn [negb].
    + destruct (visit_unusable st e Hun) as [Hp' Hs'].
      apply IH; congruence.
    + cbn [fold_left]. destruct (visit_amounts st st' e Hp Hs). by apply IH.
Qed.

Lemma collect_summary_filter_unusable entries :
  (GlobalIndex.collect_summary (Some entries)).1.2
  = (GlobalIndex.collect_summary
       (Some (List.filter (λ e, negb (unusable e)) entries))).1.2
  ∧ (GlobalIndex.collect_summary (Some entries)).2
    = (GlobalIndex.collect_summary
         (Some (List.filter (λ e, negb (unusable e)) entries))).2.
Proof. unfold GlobalIndex.collect_summary. cbn. by apply fold_filter_unusable. Qed.

(** Without floats every entry adds to the counters what it adds to zero
    counters: whether a statement of the [try] block raises does not
    depend on the totals so far. *)
Lemma iadd_int n v :
  is_float (Some v) = false →
  iadd (NInt n) v = match iadd (NInt 0) v with
                    | Ok k => Ok (NInt (n + int_of k))
                    | Raise e => Raise e
                    end.
Proof. destruct v; cbn; try done; intros _; do 2 f_equal; lia. Qed.

Lemma is_float_get (m : gmap string json) key :
  is_float (m !! key) = false →
  is_float (Some (match m !! key with Some v => v | None => JInt 0 end))
  = false.
Proof. by destruct (m !! key). Qed.

Lemma visit_delta n p s e :
  float_free e = true →
  GlobalIndex.visit (GlobalIndex.mk_totals n (NInt p) (NInt s)) e
  = GlobalIndex.mk_totals (n + (delta e).1.1)
      (NInt (p + (delta e).1.2)) (NInt (s + (delta e).2)).
Proof.
  unfold delta, float_free, GlobalIndex.visit. destruct e as [fname content].
  cbn [snd].
  destruct (Str.endswith fname ".json"); cbn -[iadd]; [|intros _; repeat f_equal; lia].
  destruct content as [data|err]; cbn -[iadd]; [|intros _; repeat f_equal; lia].
  destruct data as [| | | | | |d]; cbn -[iadd]; try (intros _; repeat f_equal; lia).
  destruct (d !! "summary") as [summ|]; cbn -[iadd]; [|intros _; repeat f_equal; lia].
  destruct summ as [| | | | | |m]; cbn -[iadd];
    try (intros _; repeat f_equal; lia).
  intros [Hp%negb_true_iff%is_float_get Hs%negb_true_iff%is_float_get]%andb_true_iff.
  revert Hp Hs.
  generalize (match m !! "total_packets" with Some v => v | None => JInt 0 end).
  generalize (match m !! "suspect_functions" with Some v => v | None => JInt 0 end).
  intros w v Hp Hs.
  rewrite (iadd_int p v Hp).
  destruct (iadd (NInt 0) v) as [kp|]; cbn -[iadd]; [|repeat f_equal; lia].
  rewrite (iadd_int s w Hs).
  destruct (iadd (NInt 0) w) as [ks|]; cbn -[iadd]; repeat f_equal; lia.
Qed.

Lemma Zsum_cons x l : Zsum (x :: l) = x + Zsum l.
Proof. reflexivity. Qed.

Lemma Zsum_app l l' : Zsum (l ++ l')%list = Zsum l + Zsum l'.
Proof.
  induction l as [|x l IH]; [done|].
  cbn [app]. rewrite !Zsum_cons, IH. lia.
Qed.

Lemma Zsum_Permutation l l' : l ≡ₚ l' → Zsum l = Zsum l'.
Proof.
  induction 1 as [|x l l' _ IH|x y l|l l' l'' _ IH1 _ IH2];
    rewrite ?Zsum_cons; lia.
Qed.

Lemma fold_visit_delta entries n p s :
  Forall (λ e, float_free e = true) entries →
  fold_left GlobalIndex.visit entries (GlobalIndex.mk_totals n (NInt p) (NInt s))
  = GlobalIndex.mk_totals
      (n + Zsum (map (λ e, (delta e).1.1) entries))
      (NInt (p + Zsum (map (λ e, (delta e).1.2) entries)))
      (NInt (s + Zsum (map (λ e, (delta e).2) entries))).
Proof.
  intros Hall. revert n p s.
  induction Hall as [|e entries He _ IH]; intros n p s; cbn [fold_left map].
  - cbn. f_equal; first [lia|f_equal; lia].
  - rewrite (visit_delta _ _ _ _ He), IH, !Zsum_cons.
    f_equal; first [lia|f_equal; lia].
Qed.

(** Without floats the three totals are the sums of what the entries
    add. *)
Lemma collect_summary_sums entries :
  Forall (λ e, float_free e = true) entries →
  GlobalIndex.collect_summary (Some entries)
  = (Zsum (map (λ e, (delta e).1.1) entries),
     NInt (Zsum (map (λ e, (delta e).1.2) entries)),
     NInt (Zsum (map (λ e, (delta e).2) entries))).
Proof.
  intros Hall. unfold GlobalIndex.collect_summary.
  rewrite (fold_visit_delta _ _ _ _ Hall). cbn. done.
Qed.

Lemma summarised_float_free e f : summarised e f → float_free e = true.
Proof.
  inversion 1 as [fname key d s t m u Hext Hsumm Ht Hkey Hm Hu]; subst.
  unfold float_free. cbn [snd]. by rewrite Hsumm, Ht, Hu.
Qed.

Lemma delta_summarised e total matched suspects :
  summarised e (total, matched, suspects) →
  delta e = (1, total, suspects).
Proof.
  inversion 1 as [fname key d s t m u Hext Hsumm Ht Hkey Hm Hu]; subst.
  unfold delta, GlobalIndex.visit. rewrite Hext. cbn.
  rewrite Hsumm. cbn. rewrite Ht. cbn. rewrite Hu. cbn. reflexivity.
Qed.

Lemma load_visit st e :
  ProtocolIndex.visit st e
  = ((st.1 ++ option_list (kept e))%list, (st.2 ++ option_list (warned e))%list).
Proof.
  destruct st as [reports printed], e as [fname content].
  unfold ProtocolIndex.visit, try_except, kept, warned, is_json_file.
  cbn [fst snd].
  destruct (Str.endswith fname ".json"); cbn; [|by rewrite !app_nil_r].
  destruct content as [data|err]; cbn; [|by rewrite app_nil_r].
  destruct data; cbn; by rewrite ?app_nil_r.
Qed.

Lemma load_fold entries st :
  fold_left ProtocolIndex.visit entries st
  = ((st.1 ++ omap kept entries)%list, (st.2 ++ omap warned entries)%list).
Proof.
  revert st. induction entries as [|e entries IH]; intros st.
  - destruct st. cbn. by rewrite !app_nil_r.
  - cbn [fold_left]. rewrite IH, load_visit. cbn.
    destruct (kept e), (warned e); cbn; by rewrite <- ?app_assoc, ?app_nil_r.
Qed.

Lemma load_reports_spec entries :
  ProtocolIndex.load_reports (Some entries)
  = Ok (omap kept entries, omap warned entries).
Proof. unfold ProtocolIndex.load_reports. by rewrite load_fold. Qed.

Lemma kept_names entries :
  map ProtocolIndex.json_name (omap kept entries)
  = map fst (List.filter (λ e, is_json_file e && negb (skipped e)) entries).
Proof.
  induction entries as [|e entries IH]; [done|]. cbn.
  unfold kept at 1, skipped at 1. destruct e as [fname content].
  destruct (is_json_file (fname, content)); cbn; [|done].
  destruct content as [data|err]; cbn; [|done].
  destruct data; cbn; rewrite ?IH; done.
Qed.

Lemma warned_names entries :
  map ProtocolIndex.warned_file (omap warned entries)
  = map fst (List.filter (λ e, is_json_file e && skipped e) entries).
Proof.
  induction entries as [|e entries IH]; [done|]. cbn.
  unfold warned at 1, skipped at 1. destruct e as [fname content].
  destruct (is_json_file (fname, content)); cbn; [|done].
  destruct content as [data|err]; cbn; [|by rewrite IH].
  destruct data; cbn; rewrite ?IH; done.
Qed.

(** C2, as the code has it.  [collect_summary] and [load_reports] go
    through every listing of the folder without raising: the first
    returns its three totals whatever the files hold, the second a list
    of reports and the warnings it printed.  In the cross-protocol index
    a summary file that cannot be read or parsed, or whose document or
    [summary] is not an object, or whose [total_packets] is not a number,
    adds nothing to the packet and suspect totals, which are those of the
    remaining files; it is still counted as a file, and nothing is
    recorded for it.  In the per-protocol indices a file that cannot be
    read or parsed, or whose document is not an object, is left out of
    the reports with one warning naming it, and the other files are kept
    in directory order. *)
Theorem C2_malformed_summaries_tolerated (entries : list dir_entry) :
  (GlobalIndex.collect_summary (Some entries)).1.1
  = len (List.filter is_json_file entries)
  ∧ ((GlobalIndex.collect_summary (Some entries)).1.2
   = (GlobalIndex.collect_summary
        (Some (List.filter (λ e, negb (unusable e)) entries))).1.2
   ∧ (GlobalIndex.collect_summary (Some entries)).2
     = (GlobalIndex.collect_summary
          (Some (List.filter (λ e, negb (unusable e)) entries))).2)
  ∧ ∃ reports printed,
      ProtocolIndex.load_reports (Some entries) = Ok (reports, printed)
      ∧ map ProtocolIndex.warned_file printed
        = map fst (List.filter (λ e, is_json_file e && skipped e) entries)
      ∧ map ProtocolIndex.json_name reports
        = map fst
            (List.filter (λ e, is_json_file e && negb (skipped e)) entries).
Proof.
  split; [apply collect_summary_total_pcaps|].
  split; [apply collect_summary_filter_unusable|].
  rewrite load_reports_spec. eexists _, _. split; [reflexivity|].
  split; [apply warned_names|apply kept_names].
Qed.

(** C2 as stated fails on a directory with one well-formed and one
    corrupted summary: the cross-protocol index counts two files where the
    well-formed ones alone give one, and its result has no place for a
    warning. *)
Lemma C2_counterexample :
  GlobalIndex.collect_summary (Some C2_directory) = (2, NInt 10, NInt 1)
  ∧ List.filter (λ e, negb (unusable e)) C2_directory
    = [("plant_a.json",
        Ok (report_doc "dnp3_packets" "plant_a.pcap" 10 4 1
              ["10.0.0.1"; "10.0.0.2"]))]
  ∧ GlobalIndex.collect_summary
      (Some (List.filter (λ e, negb (unusable e)) C2_directory))
    = (1, NInt 10, NInt 1).
Proof. repeat split; vm_compute; reflexivity. Qed.

(** On the same directory the per-protocol index lists the well-formed
    report and prints one warning for the corrupted file. *)
Example load_reports_C2_directory :
  ∃ r, ProtocolIndex.load_reports (Some C2_directory)
       = Ok ([r], [ProtocolIndex.mk_warning "plant_b.json" JSONDecodeError])
       ∧ ProtocolIndex.json_name r = "plant_a.json"
       ∧ ProtocolIndex.html r = "plant_a.html".
Proof. eexists. split; [vm_compute; reflexivity|]. split; reflexivity. Qed.

(** A file whose [total_packets] is an integer and whose
    [suspect_functions] is not: the packets are added before the
    exception is swallowed. *)
Example half_read_summary :
  GlobalIndex.collect_summary
    (Some [("x.json",
            Ok (JDict (<["summary" :=
                          JDict (<["total_packets" := JInt 5]>
                                 (<["suspect_functions" := JStr "many"]> ∅))]>
                       ∅)))])
  = (1, NInt 5, NInt 0).
Proof. vm_compute. reflexivity. Qed.

(* --------------------------------------------------------------------- *)

(** C3, as the code has it.  Over a folder of well-formed run summaries
    the cross-protocol index returns the number of summary files, the sum
    of their [total_packets] and the sum of their [suspect_functions]; the
    protocol-packets field is not summed. *)
Theorem C3_totals_are_sums
    (entries : list dir_entry) (fields : list (Z * Z * Z)) :
  Forall2 summarised entries fields →
  GlobalIndex.collect_summary (Some entries)
  = (len entries,
     NInt (Zsum (map (λ f, f.1.1) fields)),
     NInt (Zsum (map (λ f, f.2) fields))).
Proof.
  intros Hall. rewrite collect_summary_sums.
  - assert (Zsum (map (λ e, (delta e).1.1) entries) = len entries
            ∧ Zsum (map (λ e, (delta e).1.2) entries)
              = Zsum (map (λ f, f.1.1) fields)
            ∧ Zsum (map (λ e, (delta e).2) entries)
              = Zsum (map (λ f, f.2) fields)) as (-> & -> & ->); [|done].
    induction Hall
      as [|e [[total matched] suspects] entries fields He _ (IHn & IHp & IHs)].
    + done.
    + cbn [map]. rewrite !Zsum_cons, IHn, IHp, IHs.
      rewrite (delta_summarised _ _ _ _ He). cbn [fst snd].
      unfold len. cbn [List.length]. lia.
  - induction Hall as [|e f entries fields He _ IH]; constructor; [|done].
    by apply (summarised_float_free e f).
Qed.

Lemma C3_directory_summarised :
  Forall2 summarised C3_directory [(10, 4, 1); (20, 8, 2)].
Proof.
  constructor; [|constructor; [|constructor]].
  - eapply (summarised_intro "plant_a.json" "dnp3_packets");
      [reflexivity|reflexivity|reflexivity|by left|reflexivity|reflexivity].
  - eapply (summarised_intro "plant_c.json" "dnp3_packets");
      [reflexivity|reflexivity|reflexivity|by left|reflexivity|reflexivity].
Defined.

Lemma C3_witness :
  GlobalIndex.collect_summary (Some C3_directory)
  = (len C3_directory,
     NInt (Zsum (map (λ f, f.1.1) [(10, 4, 1); (20, 8, 2)])),
     NInt (Zsum (map (λ f, f.2) [(10, 4, 1); (20, 8, 2)]))).
Proof.
  apply (C3_totals_are_sums C3_directory [(10, 4, 1); (20, 8, 2)]).
  exact C3_directory_summarised.
Defined.

(** C3 as stated fails: two well-formed DNP3 summaries with 4 and 8
    protocol packets consolidate to (2, 30, 3); the sum 12 of the
    protocol-packets field is no part of the result. *)
Lemma C3_counterexample :
  Forall2 summarised C3_directory [(10, 4, 1); (20, 8, 2)]
  ∧ Zsum (map (λ f : Z * Z * Z, f.1.2) [(10, 4, 1); (20, 8, 2)]) = 12
  ∧ GlobalIndex.collect_summary (Some C3_directory) = (2, NInt 30, NInt 3).
Proof.
  split; [exact C3_directory_summarised|]. split; vm_compute; reflexivity.
Qed.

(** A Modbus scan report has no [total_packets] and no
    [suspect_functions] in its summary (and no [total_probed] either):
    it counts as a file and adds zero to both sums. *)
Example modbus_report_in_global_index :
  GlobalIndex.collect_summary
    (Some [("modbus_scan_1.json",
            Ok (JDict (<["summary" :=
                          JDict (<["reachable" := JInt 2]>
                                 (<["unauthenticated_read" := JInt 1]>
                                  (<["broad_register_access" := JInt 0]> ∅)))]>
                       ∅)))])
  = (1, NInt 0, NInt 0).
Proof. vm_compute. reflexivity. Qed.

(* ===================================================================== *)
(** ** Properties of target expansion *)
(* ===================================================================== *)

(* --------------------------------------------------------------------- *)

(** The string methods on inputs with blanks, empty pieces and mixed
    line endings. *)
Example strip_blanks :
  Str.strip (String Str.LF "  10.0.0.1 " ++ String Str.CR (String Str.LF ""))
  = "10.0.0.1".
Proof. reflexivity. Qed.

Example split_empty_pieces :
  Str.split "," "a,,b," = ["a"; ""; "b"; ""] ∧ Str.split "," "" = [""].
Proof. split; reflexivity. Qed.

Example splitlines_mixed_endings :
  Str.splitlines
    ("a" ++ String Str.CR (String Str.LF "b")
     ++ String Str.LF (String Str.LF "c") ++ String Str.CR "")
  = ["a"; "b"; ""; "c"].
Proof. reflexivity. Qed.

Example endswith_replace :
  Str.endswith "run.json" ".json" = true
  ∧ Str.endswith "json" ".json" = false
  ∧ Str.replace ".json" ".html" "a.json.json" = "a.html.html".
Proof. repeat split; reflexivity. Qed.

Lemma append_cons c (s t : string) : String c s ++ t = String c (s ++ t).
Proof. reflexivity. Qed.

Lemma append_nil_l (t : string) : "" ++ t = t.
Proof. reflexivity. Qed.


Lemma all_chars_impl (p q : ascii → bool) s :
  (∀ c, p c = true → q c = true) → all_chars p s = true → all_chars q s = true.
Proof.
  intros Hpq. induction s as [|c s IH]; cbn; [done|].
  intros [Hc Hs]%andb_true_iff. rewrite (Hpq _ Hc). cbn. auto.
Qed.

Lemma append_nil_r (s : string) : s ++ "" = s.
Proof. induction s as [|c s IH]; [done|]. by rewrite append_cons, IH. Qed.

Lemma append_assoc (s t u : string) : (s ++ t) ++ u = s ++ (t ++ u).
Proof. induction s as [|c s IH]; [done|]. by rewrite !append_cons, IH. Qed.

Lemma rstrip_nospace s :
  all_chars (λ c, negb (Str.is_space c)) s = true → Str.rstrip s = s.
Proof.
  induction s as [|c s IH]; cbn; [done|].
  intros [Hc Hs]%andb_true_iff. rewrite (IH Hs).
  apply negb_true_iff in Hc. rewrite Hc. done.
Qed.

Lemma lstrip_nospace s :
  all_chars (λ c, negb (Str.is_space c)) s = true → Str.lstrip s = s.
Proof.
  destruct s as [|c s]; cbn; [done|].
  intros [Hc _]%andb_true_iff. apply negb_true_iff in Hc. by rewrite Hc.
Qed.

(** [strip] leaves a string without white space as it is. *)
Lemma strip_nospace s :
  all_chars (λ c, negb (Str.is_space c)) s = true → Str.strip s = s.
Proof.
  intros H. unfold Str.strip. rewrite (lstrip_nospace _ H).
  by apply rstrip_nospace.
Qed.

Lemma solid_nospace s :
  solid s = true → all_chars (λ c, negb (Str.is_space c)) s = true.
Proof. by intros [_ H]%andb_true_iff. Qed.

Lemma solid_nonempty s : solid s = true → String.eqb s "" = false.
Proof. intros [H _]%andb_true_iff. by apply negb_true_iff. Qed.



(** Stripping and dropping the empty entries leaves a list of solid
    strings as it is. *)
Lemma stripped_nonempty_solid items :
  Forall (λ s, solid s = true) items → Modbus.stripped_nonempty items = items.
Proof.
  unfold Modbus.stripped_nonempty.
  induction 1 as [|s items Hs _ IH]; cbn; [done|].
  rewrite (strip_nospace _ (solid_nospace _ Hs)), (solid_nonempty _ Hs).
  cbn. by rewrite IH.
Qed.

(* splitting a joined list *)








(* splitting the lines of a file *)

Lemma linebreak_is_space c : Str.is_linebreak c = true → Str.is_space c = true.
Proof. destruct c as [[] [] [] [] [] [] [] []]; done. Qed.

Lemma nospace_not_linebreak c :
  negb (Str.is_space c) = true →
  Str.is_linebreak c = false ∧ Ascii.eqb c Str.LF = false.
Proof.
  intros Hc%negb_true_iff. split.
  - destruct (Str.is_linebreak c) eqn:Hl; [|done].
    apply linebreak_is_space in Hl. congruence.
  - destruct (Ascii.eqb c Str.LF) eqn:Heq; [|done].
    apply Ascii.eqb_eq in Heq. subst. done.
Qed.

Lemma splitlines_go_piece cur f t s :
  all_chars (λ c, negb (Str.is_space c)) t = true →
  String.eqb t "" = false →
  Str.splitlines_go cur f (t ++ s) = Str.splitlines_go (cur ++ t) false s.
Proof.
  revert cur f. induction t as [|c t IH]; intros cur f; [discriminate|].
  rewrite append_cons. cbn [all_chars Str.splitlines_go].
  intros [Hc Ht]%andb_true_iff _.
  destruct (nospace_not_linebreak _ Hc) as [-> ->].
  rewrite andb_false_r.
  destruct t as [|c' t'].
  - rewrite append_nil_l. done.
  - rewrite (IH _ _ Ht eq_refl), append_assoc. done.
Qed.

Lemma append_nonempty (s t : string) :
  String.eqb t "" = false → String.eqb (s ++ t) "" = false.
Proof. destruct s; [done|]. by rewrite append_cons. Qed.

Lemma splitlines_go_join cur x rest :
  Forall (λ s, solid s = true) (x :: rest) →
  Str.splitlines_go cur false (join LFs (x :: rest)) = (cur ++ x) :: rest.
Proof.
  revert cur x. induction rest as [|y rest IH]; intros cur x Hall.
  - apply Forall_inv in Hall. cbn [join].
    rewrite <- (append_nil_r x) at 1.
    rewrite splitlines_go_piece
      by (by apply solid_nospace || by apply solid_nonempty).
    cbn. by rewrite (append_nonempty _ _ (solid_nonempty _ Hall)).
  - pose proof (Forall_inv Hall) as Hx. apply Forall_inv_tail in Hall.
    change (join LFs (x :: y :: rest))
      with (x ++ String Str.LF (join LFs (y :: rest))).
    rewrite splitlines_go_piece
      by (by apply solid_nospace || by apply solid_nonempty).
    cbn [Str.splitlines_go andb].
    change (Str.is_linebreak Str.LF) with true. cbn match.
    change (Ascii.eqb Str.LF Str.CR) with false.
    rewrite (IH "" y Hall). done.
Qed.

(** The lines of a file that holds one solid entry per line. *)
Lemma splitlines_join lines :
  Forall (λ s, solid s = true) lines →
  Str.splitlines (join LFs lines) = lines.
Proof.
  destruct lines as [|x rest]; [done|]. intros H.
  unfold Str.splitlines. by rewrite splitlines_go_join.
Qed.

Lemma rstrip_idempotent s : Str.rstrip (Str.rstrip s) = Str.rstrip s.
Proof.
  induction s as [|c s IH]; [done|]. cbn [Str.rstrip].
  destruct (Str.is_space c && String.eqb (Str.rstrip s) "") eqn:Hc; [done|].
  cbn [Str.rstrip]. rewrite IH, Hc. done.
Qed.

Lemma lstrip_head s :
  Str.lstrip s = ""
  ∨ ∃ c s', Str.lstrip s = String c s' ∧ Str.is_space c = false.
Proof.
  induction s as [|c s IH]; [by left|]. cbn.
  destruct (Str.is_space c) eqn:Hc; [exact IH|]. right. eauto.
Qed.

Lemma lstrip_rstrip_lstrip s :
  Str.lstrip (Str.rstrip (Str.lstrip s)) = Str.rstrip (Str.lstrip s).
Proof.
  destruct (lstrip_head s) as [->|(c & s' & -> & Hc)]; [done|].
  cbn [Str.rstrip]. rewrite Hc. cbn. by rewrite Hc.
Qed.

(** Stripping twice is stripping once. *)
Lemma strip_idempotent s : Str.strip (Str.strip s) = Str.strip s.
Proof.
  unfold Str.strip. by rewrite lstrip_rstrip_lstrip, rstrip_idempotent.
Qed.

Section expand_targets_facts.
Variable read_text : string → result string.
Variable ip_network_hosts : string → option (list string).

#[local] Abbreviation expand :=
  (Modbus.expand_targets read_text ip_network_hosts).



Lemma strip_at_path path :
  all_chars (λ c, negb (Str.is_space c)) path = true →
  Str.strip (String "@" path) = String "@" path.
Proof. intros H. apply strip_nospace. cbn. exact H. Qed.

Lemma expand_file path lines :
  all_chars (λ c, negb (Str.is_space c)) path = true →
  read_text path = Ok (join LFs lines) →
  Forall (λ s, solid s = true) lines →
  expand (String "@" path) = Ok lines.
Proof.
  intros Hpath Hread Hlines. unfold Modbus.expand_targets.
  rewrite (strip_at_path _ Hpath). cbn [Str.startswith_char Str.tail].
  rewrite Ascii.eqb_refl, Hread. cbn [mbind result_bind].
  by rewrite splitlines_join, stripped_nonempty_solid.
Qed.




End expand_targets_facts.

(** For a prefix of at most 30 bits the hosts of a network are the
    addresses strictly between the network address and the broadcast
    address. *)
Lemma hosts_usable (addr prefix n : N) :
  (prefix ≤ 30)%N →
  let size := (2 ^ (32 - prefix))%N in
  let network := (addr / size * size)%N in
  In n (Ipaddress.hosts addr prefix)
  ↔ (network < n < network + size - 1)%N.
Proof.
  intros Hp size network. unfold Ipaddress.hosts.
  fold size. fold network.
  assert ((prefix =? 32)%N = false) as -> by (apply N.eqb_neq; lia).
  assert ((prefix =? 31)%N = false) as -> by (apply N.eqb_neq; lia).
  assert (4 ≤ size)%N as Hsize.
  { subst size. change 4%N with (2 ^ 2)%N. apply N.pow_le_mono_r; lia. }
  rewrite in_map_iff. setoid_rewrite in_seq. split.
  - intros (i & <- & Hi). lia.
  - intros Hn. exists (N.to_nat (n - network - 1)). lia.
Qed.
















(* the lines of any text *)











Section expand_general.
Variable read_text : string → result string.
Variable ip_network_hosts : string → option (list string).

#[local] Abbreviation expand :=
  (Modbus.expand_targets read_text ip_network_hosts).



End expand_general.



(** The ragged list and the sample file give two and three targets. *)
Example expand_targets_samples :
  nonblank_stripped [" 10.0.0.1 "; " "; "10.0.0.2"; ""]
  = ["10.0.0.1"; "10.0.0.2"]
  ∧ nonblank_stripped ["  10.0.0.1 "; ""; "plc-7"; "   "; "10.0.0.9"; ""]
    = ["10.0.0.1"; "plc-7"; "10.0.0.9"]
  ∧ Modbus.expand_targets targets_file Ipaddress.ip_network_hosts
      " @targets.txt "
    = Ok ["10.0.0.1"; "plc-7"; "10.0.0.9"].
Proof. repeat split; vm_compute; reflexivity. Qed.


(* ===================================================================== *)
(** ** Further properties of the classifiers *)
(* ===================================================================== *)

Lemma in_map_filter {A B : Type} (g : A → B) (f : A → bool) (l : list A) y :
  In y (map g (List.filter f l)) ↔ ∃ x, In x l ∧ f x = true ∧ g x = y.
Proof.
  rewrite in_map_iff. split.
  - intros (x & <- & Hx). apply filter_In in Hx as [? ?]. eauto.
  - intros (x & Hin & Hf & <-). exists x. split; [done|].
    by apply filter_In.
Qed.

Lemma filter_nonempty_existsb {A : Type} (f : A → bool) (l : list A) :
  List.filter f l ≠ [] ↔ existsb f l = true.
Proof.
  induction l as [|x l IH]; cbn; [split; [done|discriminate]|].
  destruct (f x); cbn; [split; [done|discriminate]|exact IH].
Qed.

Lemma bytes_startswith_app_l n m hay :
  bytes_startswith (n ++ m) hay = true → bytes_startswith n hay = true.
Proof.
  revert hay. induction n as [|x n IH]; intros hay; [done|].
  destruct hay as [|y hay]; cbn; [done|].
  intros [Hxy Hrest]%andb_true_iff. rewrite Hxy. cbn. by apply IH.
Qed.

(** A payload that holds a token holds every prefix of the token. *)
Lemma bytes_in_app_l n m hay :
  bytes_in (n ++ m) hay = true → bytes_in n hay = true.
Proof.
  induction hay as [|y hay IH]; cbn.
  - rewrite !orb_false_r. apply bytes_startswith_app_l.
  - intros [H|H]%orb_true_iff.
    + by rewrite (bytes_startswith_app_l _ _ _ H).
    + rewrite (IH H). apply orb_true_r.
Qed.

(** The hint names of a DNP3 record, token by token. *)
Lemma dnp3_hint_present payload tok :
  In tok Dnp3.HINTS →
  (In (decode_latin1 tok) (Dnp3.collect_hints payload)
   ↔ bytes_in tok payload = true).
Proof.
  intros Htok. unfold Dnp3.collect_hints. rewrite in_map_filter. split.
  - intros (t & Hin & Hf & Hdec).
    assert (t = tok) as ->; [|done].
    unfold Dnp3.HINTS in Htok, Hin. cbn in Htok, Hin.
    repeat (destruct Htok as [<-|Htok]; [|]);
      try done;
      repeat (destruct Hin as [<-|Hin]; [first [done|discriminate]|]);
      done.
  - intros Hf. eauto.
Qed.

Lemma s7_hint_present payload tok :
  In tok S7.BLOCK_HINTS →
  (In (decode_latin1 tok) (S7.collect_hints payload)
   ↔ bytes_in tok payload = true).
Proof.
  intros Htok. unfold S7.collect_hints. rewrite in_map_filter. split.
  - intros (t & Hin & Hf & Hdec).
    assert (t = tok) as ->; [|done].
    unfold S7.BLOCK_HINTS in Htok, Hin. cbn in Htok, Hin.
    repeat (destruct Htok as [<-|Htok]; [|]);
      try done;
      repeat (destruct Hin as [<-|Hin]; [first [done|discriminate]|]);
      done.
  - intros Hf. eauto.
Qed.

(** The DNP3 classifier answers with one of nine names, and a name other
    than [UnknownDNP3] only for a payload of at least 8 bytes that holds
    one of the hint tokens. *)
Lemma classify_recognised payload :
  Dnp3._classify_app_function payload ≠ "UnknownDNP3" →
  8 ≤ len payload
  ∧ ∃ tok, In tok Dnp3.HINTS ∧ bytes_in tok payload = true.
Proof.
  unfold Dnp3._classify_app_function.
  destruct (_ || _) eqn:Hshort; [done|].
  apply orb_false_iff in Hshort as [_ Hlen%Z.ltb_ge]. intros Hne.
  split; [exact Hlen|]. revert Hne. unfold Dnp3.HINTS.
  destruct (bytes_in (b "READ") payload) eqn:?; [intros _; eexists; split; [do 4 right; by left|done]|].
  destruct (bytes_in (b "WRITE") payload) eqn:?; [intros _; eexists; split; [do 5 right; by left|done]|].
  destruct (bytes_in (b "OPER") payload) eqn:?; [intros _; eexists; split; [do 1 right; by left|done]|].
  destruct (bytes_in (b "SELECT") payload) eqn:?; [intros _; eexists; split; [do 3 right; by left|done]|].
  destruct (bytes_in (b "UNSOL") payload) eqn:?; [intros _; eexists; split; [by left|done]|].
  destruct (bytes_in (b "RESTART") payload) eqn:?.
  - intros _. eexists. split; [do 2 right; by left|done].
  - rewrite !andb_false_r. done.
Qed.

Theorem dnp3_classify_range (payload : list byte) :
  In (Dnp3._classify_app_function payload)
     ["Read"; "Write"; "Operate"; "Select"; "EnableUnsolicited";
      "ColdRestart"; "WarmRestart"; "ClearRestart"; "UnknownDNP3"]
  ∧ (len payload < 8 → Dnp3._classify_app_function payload = "UnknownDNP3").
Proof.
  split; [|apply classify_short].
  unfold Dnp3._classify_app_function.
  repeat match goal with
         | |- context [if ?c then _ else _] => destruct c
         end; cbn; tauto.
Qed.

Lemma dnp3_parse_fields pkt r :
  Dnp3.parse_dnp3_packet pkt = Ok (Some r) →
  ∃ payload l1,
    raw_payload pkt = Some payload ∧ second_layer pkt = Ok l1
    ∧ r = {| Dnp3.src := or_unknown (layer_src l1);
             Dnp3.dst := or_unknown (layer_dst l1);
             Dnp3.function := Dnp3._classify_app_function payload;
             Dnp3.length := len payload;
             Dnp3.hints := Dnp3.collect_hints payload;
             Dnp3.suspect :=
               str_in (Dnp3._classify_app_function payload)
                      Dnp3.SUSPECT_FUNCS |}.
Proof.
  unfold Dnp3.parse_dnp3_packet.
  destruct (raw_payload pkt) as [payload|]; [|discriminate].
  destruct (second_layer pkt) as [l1|]; [|discriminate].
  cbn [mbind result_bind]. intros [= <-]. eauto.
Qed.

(** A DNP3 record that lists the hint [READ] is never suspect: its
    payload is classified [Read] when it has at least 8 bytes and
    [UnknownDNP3] otherwise, whatever else it holds. *)
Theorem dnp3_read_hint_never_suspect (pkt : packet) (r : Dnp3.record) :
  Dnp3.parse_dnp3_packet pkt = Ok (Some r) →
  In "READ" (Dnp3.hints r) →
  Dnp3.suspect r = false
  ∧ (Dnp3.function r = "Read" ∨ Dnp3.function r = "UnknownDNP3").
Proof.
  intros (payload & l1 & _ & _ & ->)%dnp3_parse_fields.
  cbn [Dnp3.hints Dnp3.suspect Dnp3.function]. intros Hread.
  apply (dnp3_hint_present payload (b "READ")) in Hread;
    [|unfold Dnp3.HINTS; do 4 right; by left].
  unfold Dnp3._classify_app_function. rewrite Hread.
  destruct (_ || _); cbn; auto.
Qed.

Lemma dnp3_read_hint_never_suspect_witness :
  ∃ r, Dnp3.parse_dnp3_packet frame_write_read = Ok (Some r)
       ∧ In "WRITE" (Dnp3.hints r)
       ∧ Dnp3.suspect r = false
       ∧ (Dnp3.function r = "Read" ∨ Dnp3.function r = "UnknownDNP3").
Proof.
  eexists. split; [vm_compute; reflexivity|]. split; [cbn; tauto|].
  eapply (dnp3_read_hint_never_suspect frame_write_read).
  - vm_compute. reflexivity.
  - cbn. tauto.
Defined.

(** A DNP3 record with a recognised operation, and so every suspect
    record, lists at least one hint. *)
Theorem dnp3_recognised_has_hint (pkt : packet) (r : Dnp3.record) :
  Dnp3.parse_dnp3_packet pkt = Ok (Some r) →
  Dnp3.function r ≠ "UnknownDNP3" ∨ Dnp3.suspect r = true →
  Dnp3.hints r ≠ [] ∧ 8 ≤ Dnp3.length r.
Proof.
  intros (payload & l1 & _ & _ & ->)%dnp3_parse_fields.
  cbn [Dnp3.hints Dnp3.suspect Dnp3.function Dnp3.length]. intros Hrec.
  assert (Dnp3._classify_app_function payload ≠ "UnknownDNP3") as Hne.
  { destruct Hrec as [H|H]; [done|]. intros Heq. rewrite Heq in H. done. }
  destruct (classify_recognised _ Hne) as (Hlen & tok & Hin & Hb).
  split; [|done]. intros Hnil.
  apply (dnp3_hint_present payload tok Hin) in Hb. rewrite Hnil in Hb. done.
Qed.

Lemma dnp3_recognised_has_hint_witness :
  Dnp3.hints C6_record ≠ [] ∧ 8 ≤ Dnp3.length C6_record.
Proof.
  apply (dnp3_recognised_has_hint C6_frame C6_record).
  - vm_compute. reflexivity.
  - right. reflexivity.
Defined.

(* --------------------------------------------------------------------- *)

(** [_guess_function] by cases: what it answers and when. *)
Lemma guess_function_cases payload :
  (S7.starts_with_0x32 payload = false
   ∧ S7._guess_function payload = Ok "NonS7Payload")
  ∨ (payload = [x32] ∧ S7._guess_function payload = Raise IndexError)
  ∨ (S7.starts_with_0x32 payload = true ∧ 2 ≤ len payload
     ∧ ((200 <=? len payload)
        && existsb (λ h, bytes_in h payload) S7.BLOCK_HINTS = true
        ∧ S7._guess_function payload = Ok "DownloadBlock"
        ∨ (200 <=? len payload)
          && existsb (λ h, bytes_in h payload) S7.BLOCK_HINTS = false
          ∧ ∃ name, S7._guess_function payload = Ok name
                    ∧ In name ["CopyRamToRom"; "ReadVar"; "WriteVar"; "Start";
                               "Stop"; "SetupComm"; "Unknown"])).
Proof.
  unfold S7._guess_function, S7.starts_with_0x32.
  destruct payload as [|b0 rest]; [by left|].
  destruct (Byte.eqb b0 x32) eqn:Hb0; cbn [negb]; [|by left].
  apply Byte.byte_dec_bl in Hb0. subst b0. right.
  destruct rest as [|b1 rest]; [by left|]. right.
  split; [done|]. split; [unfold len; cbn; lia|].
  unfold index. cbn [lookup list_lookup mbind result_bind].
  set (p := x32 :: b1 :: rest).
  destruct ((200 <=? len p) && existsb _ S7.BLOCK_HINTS) eqn:Hblock;
    [by left|right]. split; [done|].
  destruct ((800 <=? len p) && _) eqn:Hfw.
  { exfalso. apply andb_true_iff in Hfw as [Hhuge%Z.leb_le Htok].
    assert ((200 <=? len p) = true) as Hbig by (apply Z.leb_le; lia).
    rewrite Hbig in Hblock. cbn [andb] in Hblock.
    assert (existsb (λ h, bytes_in h p) S7.BLOCK_HINTS = true); [|congruence].
    apply existsb_exists. apply orb_true_iff in Htok as [Ht|Ht].
    - exists (b "Firmware"). split; [|done]. unfold S7.BLOCK_HINTS.
      do 7 right. by left.
    - exists (b "Update"). split; [|done]. unfold S7.BLOCK_HINTS.
      do 8 right. by left. }
  destruct (_ && _ && _); [eexists; split; [done|cbn; tauto]|].
  destruct (S7.FUNC_MAP_get b1) as [base|] eqn:Hbase.
  - exists base. split; [done|]. apply FUNC_MAP_get_names in Hbase.
    cbn in *. tauto.
  - repeat (destruct (byte_in _ _)); eexists; (split; [done|cbn; tauto]).
Qed.

(** [_guess_function] raises for exactly one payload, the single byte
    0x32, whose second byte it reads; for every other payload it answers
    with one of nine names. *)
Theorem s7_guess_function_raises_iff (payload : list byte) :
  ((∃ e, S7._guess_function payload = Raise e) ↔ payload = [x32])
  ∧ (payload ≠ [x32] →
     ∃ name, S7._guess_function payload = Ok name
             ∧ In name ["NonS7Payload"; "DownloadBlock"; "CopyRamToRom";
                        "ReadVar"; "WriteVar"; "Start"; "Stop"; "SetupComm";
                        "Unknown"]).
Proof.
  destruct (guess_function_cases payload)
    as [[_ Hg]|[[-> Hg]|(Hs & Hlen & [[_ Hg]|[_ (name & Hg & Hin)]])]].
  - rewrite Hg. split; [split|].
    + intros [e [=]].
    + intros ->. done.
    + intros _. eexists. split; [done|]. cbn. tauto.
  - split; [split; [done|eauto]|done].
  - rewrite Hg. split; [split|].
    + intros [e [=]].
    + intros ->. unfold len in Hlen. cbn in Hlen. lia.
    + intros _. eexists. split; [done|]. cbn. tauto.
  - rewrite Hg. split; [split|].
    + intros [e [=]].
    + intros ->. unfold len in Hlen. cbn in Hlen. lia.
    + intros _. exists name. split; [done|]. cbn in *. tauto.
Qed.

Lemma s7_parse_fields pkt r :
  S7.parse_s7_packet pkt = Ok (Some r) →
  ∃ payload l1,
    raw_payload pkt = Some payload ∧ second_layer pkt = Ok l1
    ∧ 10 ≤ len payload ∧ S7.starts_with_0x32 payload = true
    ∧ S7._guess_function payload = Ok (S7.function_code r)
    ∧ S7.length r = len payload
    ∧ S7.hints r = S7.collect_hints payload
    ∧ S7.src r = or_unknown (layer_src l1)
    ∧ S7.dst r = or_unknown (layer_dst l1).
Proof.
  unfold S7.parse_s7_packet.
  destruct (raw_payload pkt) as [payload|]; [|discriminate].
  destruct (_ || _) eqn:Hguard; [discriminate|].
  apply orb_false_iff in Hguard as [Hlen%Z.ltb_ge Hs%negb_false_iff].
  destruct (S7._guess_function payload) as [name|] eqn:Hg; [|discriminate].
  cbn [mbind result_bind].
  destruct (second_layer pkt) as [l1|]; [|discriminate].
  cbn [mbind result_bind]. intros [= <-]. exists payload, l1. done.
Qed.

(** Every record built by [parse_s7_packet] has a payload of at least 10
    bytes and one of eight operation names; the sentinel [NonS7Payload]
    never reaches a record.  The record is named [DownloadBlock] exactly
    when its payload has at least 200 bytes and it lists a hint. *)
Theorem s7_record_invariants (pkt : packet) (r : S7.record) :
  S7.parse_s7_packet pkt = Ok (Some r) →
  10 ≤ S7.length r
  ∧ In (S7.function_code r)
       ["DownloadBlock"; "CopyRamToRom"; "ReadVar"; "WriteVar"; "Start";
        "Stop"; "SetupComm"; "Unknown"]
  ∧ (S7.function_code r = "DownloadBlock"
     ↔ 200 ≤ S7.length r ∧ S7.hints r ≠ []).
Proof.
  intros (payload & l1 & _ & _ & Hlen & Hs & Hg & -> & -> & _)%s7_parse_fields.
  split; [done|].
  assert (S7.collect_hints payload ≠ []
          ↔ existsb (λ h, bytes_in h payload) S7.BLOCK_HINTS = true) as Hhints.
  { unfold S7.collect_hints. rewrite <- filter_nonempty_existsb.
    destruct (List.filter _ _); cbn; split; done. }
  destruct (guess_function_cases payload)
    as [[Hs' _]|[[-> _]|(_ & _ & [[Hb Hg']|[Hb (name & Hg' & Hin)]])]].
  - congruence.
  - unfold len in Hlen. cbn in Hlen. lia.
  - rewrite Hg' in Hg. injection Hg as <-.
    apply andb_true_iff in Hb as [Hbig%Z.leb_le Hex].
    split; [cbn; tauto|]. split; [|done]. intros _. split; [done|].
    by apply Hhints.
  - rewrite Hg' in Hg. injection Hg as <-.
    split; [cbn in *; tauto|]. split.
    + intros ->. cbn in Hin. intuition discriminate.
    + intros [Hbig%Z.leb_le Hne]. apply Hhints in Hne.
      rewrite Hbig, Hne in Hb. done.
Qed.

Lemma s7_record_invariants_witness :
  ∃ r, S7.parse_s7_packet frame_s7_download = Ok (Some r)
       ∧ 10 ≤ S7.length r
       ∧ In (S7.function_code r)
            ["DownloadBlock"; "CopyRamToRom"; "ReadVar"; "WriteVar"; "Start";
             "Stop"; "SetupComm"; "Unknown"]
       ∧ (S7.function_code r = "DownloadBlock"
          ↔ 200 ≤ S7.length r ∧ S7.hints r ≠ []).
Proof.
  eexists. split; [vm_compute; reflexivity|].
  apply (s7_record_invariants frame_s7_download). vm_compute. reflexivity.
Defined.

(** A record that lists the hint [OB1] lists the hint [OB] as well: the
    second token is a prefix of the first. *)
Theorem s7_hint_OB1_implies_OB (pkt : packet) (r : S7.record) :
  S7.parse_s7_packet pkt = Ok (Some r) →
  In "OB1" (S7.hints r) → In "OB" (S7.hints r).
Proof.
  intros (payload & l1 & _ & _ & _ & _ & _ & _ & -> & _)%s7_parse_fields.
  intros H1.
  apply (s7_hint_present payload (b "OB1")) in H1;
    [|unfold S7.BLOCK_HINTS; by left].
  apply (s7_hint_present payload (b "OB"));
    [unfold S7.BLOCK_HINTS; right; by left|].
  apply (bytes_in_app_l (b "OB") (b "1")). exact H1.
Qed.

Lemma s7_hint_OB1_implies_OB_witness :
  ∃ r, S7.parse_s7_packet frame_s7_download = Ok (Some r)
       ∧ In "OB" (S7.hints r).
Proof.
  eexists. split; [vm_compute; reflexivity|].
  apply (s7_hint_OB1_implies_OB frame_s7_download).
  - vm_compute. reflexivity.
  - cbn. tauto.
Defined.

(* ===================================================================== *)
(** ** Further properties of the run aggregation *)
(* ===================================================================== *)

Lemma or_unknown_nonempty x : or_unknown x ≠ "".
Proof.
  destruct x as [s|]; cbn; [|done].
  destruct (String.eqb s "") eqn:Heq; [done|].
  by apply String.eqb_neq in Heq.
Qed.

Lemma len_app {A : Type} (l k : list A) : len (l ++ k) = len l + len k.
Proof. unfold len. rewrite length_app. lia. Qed.

Lemma len_nonneg {A : Type} (l : list A) : 0 ≤ len l.
Proof. unfold len. lia. Qed.

Lemma len_omap_le {A B : Type} (f : A → option B) (l : list A) :
  len (omap f l) ≤ len l.
Proof.
  unfold len. induction l as [|x l IH]; cbn; [lia|].
  destruct (f x); cbn; lia.
Qed.

Lemma len_filter_le {A : Type} (f : A → bool) (l : list A) :
  len (List.filter f l) ≤ len l.
Proof.
  unfold len. induction l as [|x l IH]; cbn; [lia|].
  destruct (f x); cbn; lia.
Qed.

Lemma filter_None_union (X Y : gset string) :
  filter_None (X ∪ Y) = filter_None X ∪ filter_None Y.
Proof. unfold filter_None. apply set_eq. intros h. set_solver. Qed.

Lemma filter_None_id (X : gset string) : "" ∉ X → filter_None X = X.
Proof. unfold filter_None. intros H. apply set_eq. intros h. set_solver. Qed.

Section dnp3_aggregation_more.
Import Dnp3.

Lemma contributed_endpoints pkt r :
  contributed pkt = Some r → src r ≠ "" ∧ dst r ≠ "".
Proof.
  unfold contributed. destruct (is_dnp3 pkt); [|discriminate].
  destruct (parse_dnp3_packet pkt) as [parsed|] eqn:Hp; [|discriminate].
  intros ->. apply dnp3_parse_fields in Hp as (payload & l1 & _ & _ & ->).
  cbn. split; apply or_unknown_nonempty.
Qed.

Lemma hosts_of_no_empty pkts : "" ∉ hosts_of (omap contributed pkts).
Proof.
  rewrite hosts_of_elem. intros (r & Hr & Hh).
  apply list_elem_of_omap in Hr as (pkt & _ & Hc).
  apply contributed_endpoints in Hc as [Hs Hd]. destruct Hh; congruence.
Qed.

Lemma hosts_of_app rs rs' : hosts_of (rs ++ rs') = hosts_of rs ∪ hosts_of rs'.
Proof. unfold hosts_of. rewrite map_app. apply union_list_app_L. Qed.

End dnp3_aggregation_more.

(** The DNP3 analysis of any capture succeeds.  Its packet total is the
    number of frames, its protocol count is the number of records, its
    suspect count is the number of records flagged suspect, and
    0 <= suspect <= protocol <= total. *)
Theorem dnp3_counters_chain (pkts : list packet) :
  ∃ rep,
    Dnp3.analyze_pcap pkts = Ok rep
    ∧ Dnp3.total_packets (Dnp3.acc rep) = len pkts
    ∧ Dnp3.dnp3_packets (Dnp3.acc rep) = len (Dnp3.results rep)
    ∧ Dnp3.suspect_functions (Dnp3.acc rep)
      = len (List.filter Dnp3.suspect (Dnp3.results rep))
    ∧ (0 ≤ Dnp3.suspect_functions (Dnp3.acc rep)
         ≤ Dnp3.dnp3_packets (Dnp3.acc rep))
    ∧ Dnp3.dnp3_packets (Dnp3.acc rep) ≤ Dnp3.total_packets (Dnp3.acc rep).
Proof.
  destruct (analyze_pcap_absorbed pkts)
    as (rep & Hrep & Ht & Hd & Hs & _ & Hres).
  exists rep. split; [done|]. rewrite Ht, Hd, Hs, Hres.
  unfold counted, counted_suspect.
  repeat split; try done.
  - apply len_nonneg.
  - apply len_filter_le.
  - apply len_omap_le.
Qed.

(** The unique hosts of a DNP3 run are exactly the source and
    destination names of its records; the empty string is never among
    them, and the set is empty only when no record was built. *)
Theorem dnp3_hosts_are_record_endpoints (pkts : list packet) :
  ∃ rep,
    Dnp3.analyze_pcap pkts = Ok rep
    ∧ (∀ h, h ∈ Dnp3.unique_hosts (Dnp3.acc rep)
            ↔ ∃ r, r ∈ Dnp3.results rep ∧ (h = Dnp3.src r ∨ h = Dnp3.dst r))
    ∧ ("" ∉ Dnp3.unique_hosts (Dnp3.acc rep))
    ∧ (Dnp3.unique_hosts (Dnp3.acc rep) = ∅ ↔ Dnp3.results rep = []).
Proof.
  destruct (analyze_pcap_absorbed pkts)
    as (rep & Hrep & _ & _ & _ & Hh & Hres).
  exists rep. split; [done|].
  rewrite Hh, Hres, (filter_None_id _ (hosts_of_no_empty pkts)).
  split; [apply hosts_of_elem|]. split; [apply hosts_of_no_empty|].
  split.
  - intros Hempty. destruct (omap contributed pkts) as [|r rs]; [done|].
    assert (Dnp3.src r ∈ hosts_of (r :: rs)) as Hin.
    { apply hosts_of_elem. exists r. split; [left|by left]. }
    rewrite Hempty in Hin. set_solver.
  - intros ->. reflexivity.
Qed.

(** Analysing two captures one after the other is analysing their
    concatenation: the records are appended, the three counters add up
    and the host sets are united. *)
Theorem dnp3_analyze_app (pkts pkts' : list packet) :
  ∃ rep rep' both,
    Dnp3.analyze_pcap pkts = Ok rep
    ∧ Dnp3.analyze_pcap pkts' = Ok rep'
    ∧ Dnp3.analyze_pcap (pkts ++ pkts') = Ok both
    ∧ Dnp3.results both = (Dnp3.results rep ++ Dnp3.results rep')%list
    ∧ Dnp3.total_packets (Dnp3.acc both)
      = Dnp3.total_packets (Dnp3.acc rep) + Dnp3.total_packets (Dnp3.acc rep')
    ∧ Dnp3.dnp3_packets (Dnp3.acc both)
      = Dnp3.dnp3_packets (Dnp3.acc rep) + Dnp3.dnp3_packets (Dnp3.acc rep')
    ∧ Dnp3.suspect_functions (Dnp3.acc both)
      = Dnp3.suspect_functions (Dnp3.acc rep)
        + Dnp3.suspect_functions (Dnp3.acc rep')
    ∧ Dnp3.unique_hosts (Dnp3.acc both)
      = Dnp3.unique_hosts (Dnp3.acc rep) ∪ Dnp3.unique_hosts (Dnp3.acc rep').
Proof.
  destruct (analyze_pcap_absorbed pkts)
    as (rep & Hrep & Ht & Hd & Hs & Hh & Hres).
  destruct (analyze_pcap_absorbed pkts')
    as (rep' & Hrep' & Ht' & Hd' & Hs' & Hh' & Hres').
  destruct (analyze_pcap_absorbed (pkts ++ pkts'))
    as (both & Hboth & Htb & Hdb & Hsb & Hhb & Hresb).
  exists rep, rep', both. do 3 (split; [done|]).
  rewrite Ht, Ht', Hd, Hd', Hs, Hs', Hh, Hh', Hres, Hres'.
  rewrite Htb, Hdb, Hsb, Hhb, Hresb.
  unfold counted, counted_suspect.
  rewrite omap_app, List.filter_app, !len_app, hosts_of_app,
    filter_None_union.
  done.
Qed.

(* --------------------------------------------------------------------- *)

Section s7_aggregation.
Import S7.

(** A frame admitted by the S7Comm analyzer never makes the parser
    raise: the length guard keeps [_guess_function] away from the
    one-byte payload, and a TCP layer with a Raw layer gives a second
    layer. *)
Lemma s7_parse_admitted pkt :
  port_match (tcp_ports pkt) 102 = true →
  ∃ parsed, parse_s7_packet pkt = Ok parsed.
Proof.
  intros Hadm. unfold parse_s7_packet.
  destruct (raw_payload pkt) as [payload|] eqn:Hraw; [|eauto].
  destruct (_ || _) eqn:Hguard; [eauto|].
  apply orb_false_iff in Hguard as [Hlen%Z.ltb_ge _].
  destruct (guess_function_cases payload)
    as [[_ ->]|[[-> _]|(_ & _ & [[_ ->]|[_ (name & -> & _)]])]];
    try (unfold len in Hlen; cbn in Hlen; lia);
    cbn [mbind result_bind];
    (destruct (ports_raw_second_layer pkt payload) as [l1 ->];
     [left; by apply (port_match_is_Some _ 102)|done|cbn; eauto]).
Qed.

Lemma s7_summary_eq (s t : summary) :
  total_packets s = total_packets t →
  s7_packets s = s7_packets t →
  suspect_functions s = suspect_functions t →
  unique_hosts s = unique_hosts t →
  s = t.
Proof. destruct s, t; cbn; intros; subst; reflexivity. Qed.

Ltac s7_summary_fields :=
  apply s7_summary_eq; cbn -[is_suspect]; unfold s7_hosts_of, len;
  cbn -[is_suspect];
  [ lia
  | lia
  | try match goal with |- context [is_suspect ?r] => destruct (is_suspect r) end;
    cbn; lia
  | rewrite ?union_list_nil_r; try done; set_solver ].

Lemma s7_absorbed_one s pkt :
  s7_absorbed s [pkt]
  = match s7_contributed pkt with
    | Some r =>
        {| total_packets := total_packets s + 1;
           s7_packets := s7_packets s + 1;
           suspect_functions :=
             (if is_suspect r then suspect_functions s + 1
              else suspect_functions s);
           unique_hosts := {[dst r]} ∪ ({[src r]} ∪ unique_hosts s) |}
    | None =>
        {| total_packets := total_packets s + 1;
           s7_packets := s7_packets s;
           suspect_functions := suspect_functions s;
           unique_hosts := unique_hosts s |}
    end.
Proof.
  unfold s7_absorbed. cbn -[is_suspect].
  destruct (s7_contributed pkt) as [r|]; s7_summary_fields.
Qed.

Lemma s7_step_absorbed st pkt :
  ∃ st', step st pkt = Ok st'
         ∧ acc st' = s7_absorbed (acc st) [pkt]
         ∧ results st' = (results st ++ omap s7_contributed [pkt])%list.
Proof.
  rewrite s7_absorbed_one. cbn -[is_suspect]. unfold step, s7_contributed.
  destruct (port_match (tcp_ports pkt) 102) eqn:Hadm.
  - destruct (s7_parse_admitted pkt Hadm) as [[r|] ->];
      cbn [mbind result_bind]; eexists; (split; [reflexivity|]);
      cbn [acc results]; (split; [reflexivity|]).
    + reflexivity.
    + cbn. by rewrite app_nil_r.
  - eexists. split; [reflexivity|]. cbn [acc results].
    split; [reflexivity|]. cbn. by rewrite app_nil_r.
Qed.

Lemma s7_absorbed_cons s pkt pkts :
  s7_absorbed (s7_absorbed s [pkt]) pkts = s7_absorbed s (pkt :: pkts).
Proof.
  unfold s7_absorbed. cbn -[is_suspect].
  destruct (s7_contributed pkt) as [r|]; s7_summary_fields.
Qed.

Lemma s7_for_each_absorbed pkts st :
  ∃ st', for_each step st pkts = Ok st'
         ∧ acc st' = s7_absorbed (acc st) pkts
         ∧ results st' = (results st ++ omap s7_contributed pkts)%list.
Proof.
  revert st. induction pkts as [|pkt pkts IH]; intros st.
  - exists st. split; [done|]. split; [|by rewrite app_nil_r].
    unfold s7_absorbed. s7_summary_fields.
  - destruct (s7_step_absorbed st pkt) as (st1 & Hstep & Hacc & Hres).
    destruct (IH st1) as (st' & Hloop & Hacc' & Hres').
    exists st'. cbn [for_each]. rewrite Hstep. cbn [mbind result_bind].
    split; [done|]. split.
    + rewrite Hacc', Hacc. apply s7_absorbed_cons.
    + rewrite Hres', Hres. cbn.
      destruct (s7_contributed pkt); cbn; rewrite <- ?app_assoc; cbn;
        by rewrite ?app_nil_r.
Qed.

Lemma s7_hosts_of_elem rs h :
  h ∈ s7_hosts_of rs ↔ ∃ r, r ∈ rs ∧ (h = src r ∨ h = dst r).
Proof.
  unfold s7_hosts_of. rewrite elem_of_union_list. split.
  - intros (X & HX & Hh). apply list_elem_of_fmap in HX as (r & -> & Hr).
    exists r. split; [done|]. set_solver.
  - intros (r & Hr & Hh). exists {[src r; dst r]}. split; [|set_solver].
    apply list_elem_of_fmap. eauto.
Qed.

Lemma s7_contributed_endpoints pkt r :
  s7_contributed pkt = Some r → src r ≠ "" ∧ dst r ≠ "".
Proof.
  unfold s7_contributed. destruct (port_match _ _); [|discriminate].
  destruct (parse_s7_packet pkt) as [parsed|] eqn:Hp; [|discriminate].
  intros ->.
  apply s7_parse_fields
    in Hp as (payload & l1 & _ & _ & _ & _ & _ & _ & _ & -> & ->).
  split; apply or_unknown_nonempty.
Qed.

Lemma s7_hosts_of_no_empty pkts : "" ∉ s7_hosts_of (omap s7_contributed pkts).
Proof.
  rewrite s7_hosts_of_elem. intros (r & Hr & Hh).
  apply list_elem_of_omap in Hr as (pkt & _ & Hc).
  apply s7_contributed_endpoints in Hc as [Hs Hd]. destruct Hh; congruence.
Qed.

Lemma s7_analyze_pcap_absorbed pkts :
  ∃ rep, analyze_pcap pkts = Ok rep
         ∧ total_packets (acc rep) = len pkts
         ∧ s7_packets (acc rep) = len (omap s7_contributed pkts)
         ∧ suspect_functions (acc rep)
           = len (List.filter is_suspect (omap s7_contributed pkts))
         ∧ unique_hosts (acc rep) = s7_hosts_of (omap s7_contributed pkts)
         ∧ results rep = omap s7_contributed pkts.
Proof.
  unfold analyze_pcap.
  destruct (s7_for_each_absorbed pkts init) as (st & -> & Hacc & Hres).
  cbn [mbind result_bind]. eexists. split; [reflexivity|].
  cbn [acc results total_packets s7_packets suspect_functions unique_hosts].
  rewrite Hacc, Hres. cbn.
  repeat split; try lia.
  rewrite union_empty_l_L.
  apply filter_None_id, s7_hosts_of_no_empty.
Qed.

End s7_aggregation.

(** The S7Comm analysis of any capture succeeds: no frame can make it
    raise.  Its packet total is the number of frames, its protocol count
    the number of records, its suspect count the number of records whose
    operation is in the suspect set, 0 <= suspect <= protocol <= total,
    and its hosts are the endpoints of its records, never the empty
    string. *)
Theorem s7_analysis_total_and_counters (pkts : list packet) :
  ∃ rep,
    S7.analyze_pcap pkts = Ok rep
    ∧ S7.total_packets (S7.acc rep) = len pkts
    ∧ S7.s7_packets (S7.acc rep) = len (S7.results rep)
    ∧ S7.suspect_functions (S7.acc rep)
      = len (List.filter S7.is_suspect (S7.results rep))
    ∧ (0 ≤ S7.suspect_functions (S7.acc rep) ≤ S7.s7_packets (S7.acc rep))
    ∧ S7.s7_packets (S7.acc rep) ≤ S7.total_packets (S7.acc rep)
    ∧ (∀ h, h ∈ S7.unique_hosts (S7.acc rep)
            ↔ ∃ r, r ∈ S7.results rep ∧ (h = S7.src r ∨ h = S7.dst r))
    ∧ ("" ∉ S7.unique_hosts (S7.acc rep)).
Proof.
  destruct (s7_analyze_pcap_absorbed pkts)
    as (rep & Hrep & Ht & Hd & Hs & Hh & Hres).
  exists rep. split; [done|]. rewrite Ht, Hd, Hs, Hh, Hres.
  repeat split; try done.
  - apply len_nonneg.
  - apply len_filter_le.
  - apply len_omap_le.
  - apply s7_hosts_of_elem.
  - apply s7_hosts_of_elem.
  - apply s7_hosts_of_no_empty.
Qed.

(** The S7Comm run summary does not depend on the order of the frames:
    two orderings of the same frames give the same three counters and
    the same host set. *)
Theorem s7_fold_order_insensitive (pkts pkts' : list packet) :
  pkts ≡ₚ pkts' →
  ∃ rep rep',
    S7.analyze_pcap pkts = Ok rep
    ∧ S7.analyze_pcap pkts' = Ok rep'
    ∧ S7.acc rep = S7.acc rep'.
Proof.
  intros Hperm.
  destruct (s7_analyze_pcap_absorbed pkts)
    as (rep & Hrep & Ht & Hd & Hs & Hh & _).
  destruct (s7_analyze_pcap_absorbed pkts')
    as (rep' & Hrep' & Ht' & Hd' & Hs' & Hh' & _).
  exists rep, rep'. split; [done|]. split; [done|].
  assert (omap s7_contributed pkts ≡ₚ omap s7_contributed pkts') as Hrs
    by (by rewrite Hperm).
  apply s7_summary_eq.
  - rewrite Ht, Ht'. unfold len. by rewrite Hperm.
  - rewrite Hd, Hd'. unfold len. by rewrite Hrs.
  - rewrite Hs, Hs'. unfold len. f_equal. apply Permutation_length.
    by apply filter_Permutation.
  - rewrite Hh, Hh'. apply set_eq. intros h. rewrite !s7_hosts_of_elem.
    by setoid_rewrite Hrs.
Qed.

Lemma s7_fold_order_insensitive_witness :
  ∃ rep rep',
    S7.analyze_pcap [frame_s7_write; frame_s7_read; frame_other_port] = Ok rep
    ∧ S7.analyze_pcap [frame_other_port; frame_s7_write; frame_s7_read]
      = Ok rep'
    ∧ S7.acc rep = S7.acc rep'.
Proof.
  apply (s7_fold_order_insensitive
           [frame_s7_write; frame_s7_read; frame_other_port]
           [frame_other_port; frame_s7_write; frame_s7_read]).
  exact (Permutation_app_comm [frame_s7_write; frame_s7_read]
                              [frame_other_port]).
Defined.

(* ===================================================================== *)
(** ** Further properties of the Modbus probe and scan *)
(* ===================================================================== *)

Section probe_more.
Import Modbus.

Lemma broad_flag_fields (c : bool) r :
  let r' := if c then set_broad_register_access true r else r in
  errors r' = errors r ∧ reads r' = reads r ∧ reachable r' = reachable r
  ∧ latency_ms r' = latency_ms r
  ∧ unauthenticated_read (exposure r') = unauthenticated_read (exposure r).
Proof. destruct c; done. Qed.

Lemma read_window_errors {V : Type} name (o : read_outcome V) store r :
  List.length (errors (read_window name o store r))
  = (List.length (errors r) + if read_raised o then 1 else 0)%nat.
Proof.
  destruct o; cbn; rewrite ?length_app; cbn; lia.
Qed.

Lemma read_window_ip {V : Type} name (o : read_outcome V) store r :
  ip (read_window name o store r) = ip r.
Proof. by destruct o. Qed.

(** The result names the target it was asked to probe. *)
Lemma probe_host_ip dev i port unit_id : ip (probe_host dev i port unit_id) = i.
Proof.
  unfold probe_host. destruct (connect dev); cbn; try done.
  unfold read_all.
  match goal with
  | |- context [if ?c then _ else _] => destruct c
  end; cbn; by rewrite !read_window_ip.
Qed.

End probe_more.

(** A probe always returns with its latency set.  The result is
    reachable exactly when the connection succeeded; an unreachable
    result carries exactly one error, and a reachable one carries one
    error for each read that raised, so at most four. *)
Theorem probe_latency_and_errors
    (dev : Modbus.device) (ip : string) (port unit_id : Z) :
  let r := Modbus.probe_host dev ip port unit_id in
  Modbus.latency_ms r = Some (Modbus.elapsed dev)
  ∧ (Modbus.reachable r = true ↔ Modbus.connect dev = Modbus.ConnectTrue)
  ∧ (Modbus.reachable r = false → List.length (Modbus.errors r) = 1%nat)
  ∧ (Modbus.reachable r = true →
     List.length (Modbus.errors r) = reads_raised dev
     ∧ (reads_raised dev ≤ 4)%nat).
Proof.
  intros r. subst r. unfold Modbus.probe_host.
  split; [reflexivity|].
  destruct (Modbus.connect dev) eqn:Hc; cbn;
    try (split; [split; discriminate|]; split; [done|discriminate]).
  unfold Modbus.read_all.
  match goal with
  | |- context [if ?c then Modbus.set_broad_register_access true ?x else ?x] =>
      destruct (broad_flag_fields c x) as (-> & _ & -> & _)
  end.
  repeat match goal with
         | |- context [Modbus.read_window ?n ?o ?s ?x] =>
             rewrite (read_window_errors n o s x);
             destruct (read_window_fields n o s x) as (-> & _)
         end.
  cbn. split; [done|]. split; [discriminate|]. intros _.
  unfold reads_raised.
  destruct (Modbus.read_coils dev), (Modbus.read_discrete_inputs dev),
    (Modbus.read_holding_registers dev), (Modbus.read_input_registers dev);
    cbn; lia.
Qed.

Lemma probe_latency_and_errors_witness :
  List.length (Modbus.errors (Modbus.probe_host device_down "10.0.0.9" 502 1))
  = 1%nat.
Proof.
  apply (probe_latency_and_errors device_down "10.0.0.9" 502 1).
  reflexivity.
Defined.

(** [unauthenticated_read] is set exactly when some read window holds a
    list, which is exactly when the connection succeeded and some read
    came back with data. *)
Theorem probe_unauthenticated_read_iff
    (dev : Modbus.device) (ip : string) (port unit_id : Z) :
  let r := Modbus.probe_host dev ip port unit_id in
  (Modbus.unauthenticated_read (Modbus.exposure r) = true
   ↔ any_window (Modbus.reads r) = true)
  ∧ (Modbus.unauthenticated_read (Modbus.exposure r) = true
     ↔ Modbus.connect dev = Modbus.ConnectTrue
       ∧ (read_answered (Modbus.read_coils dev)
          || read_answered (Modbus.read_discrete_inputs dev)
          || read_answered (Modbus.read_holding_registers dev)
          || read_answered (Modbus.read_input_registers dev)) = true).
Proof.
  intros r. subst r. unfold Modbus.probe_host.
  destruct (Modbus.connect dev) eqn:Hc; cbn;
    try (split; split; (discriminate || intros [[=] _])).
  unfold Modbus.read_all.
  match goal with
  | |- context [if ?c then Modbus.set_broad_register_access true ?x else ?x] =>
      destruct (broad_flag_fields c x) as (_ & -> & _ & _ & ->)
  end.
  destruct (Modbus.read_coils dev), (Modbus.read_discrete_inputs dev),
    (Modbus.read_holding_registers dev), (Modbus.read_input_registers dev);
    cbn; (split; split; (done || tauto || (intros [_ [=]]))).
Qed.

(* --------------------------------------------------------------------- *)

Section scan.
Import Modbus.
Variables port unit_id : Z.

Lemma scan_step_spec agg probe :
  let agg' := scan_step port unit_id agg probe in
  let res := probe_host probe.2 probe.1 port unit_id in
  scan_results agg' = (scan_results agg ++ [res])%list
  ∧ n_reachable (scan_counts agg')
    = n_reachable (scan_counts agg) + flagged reachable [res]
  ∧ n_unauthenticated_read (scan_counts agg')
    = n_unauthenticated_read (scan_counts agg)
      + flagged (λ r, unauthenticated_read (exposure r)) [res]
  ∧ n_broad_register_access (scan_counts agg')
    = n_broad_register_access (scan_counts agg)
      + flagged (λ r, broad_register_access (exposure r)) [res].
Proof.
  destruct probe as [ip dev]. unfold scan_step, flagged, len.
  cbn -[probe_host].
  set (res := probe_host dev ip port unit_id).
  split; [done|].
  destruct (reachable res), (unauthenticated_read (exposure res)),
    (broad_register_access (exposure res)); cbn; repeat split; lia.
Qed.

Lemma flagged_app f rs rs' : flagged f (rs ++ rs') = flagged f rs + flagged f rs'.
Proof. unfold flagged. by rewrite List.filter_app, len_app. Qed.

Lemma scan_fold probes agg :
  let agg' := fold_left (scan_step port unit_id) probes agg in
  let rs := map (λ p, probe_host p.2 p.1 port unit_id) probes in
  scan_results agg' = (scan_results agg ++ rs)%list
  ∧ n_reachable (scan_counts agg')
    = n_reachable (scan_counts agg) + flagged reachable rs
  ∧ n_unauthenticated_read (scan_counts agg')
    = n_unauthenticated_read (scan_counts agg)
      + flagged (λ r, unauthenticated_read (exposure r)) rs
  ∧ n_broad_register_access (scan_counts agg')
    = n_broad_register_access (scan_counts agg)
      + flagged (λ r, broad_register_access (exposure r)) rs.
Proof.
  revert agg. induction probes as [|p probes IH]; intros agg.
  - cbn. unfold flagged, len. cbn. rewrite app_nil_r. repeat split; lia.
  - cbn [fold_left map].
    destruct (IH (scan_step port unit_id agg p)) as (Hr & H1 & H2 & H3).
    destruct (scan_step_spec agg p) as (Hr' & H1' & H2' & H3').
    cbn zeta in *. rewrite Hr, H1, H2, H3, Hr', H1', H2', H3'.
    change (?x :: map ?f probes) with ([x] ++ map f probes)%list.
    rewrite !flagged_app, <- app_assoc. repeat split; lia.
Qed.

Lemma scan_targets_spec probes :
  let agg := scan_targets probes port unit_id in
  let rs := map (λ p, probe_host p.2 p.1 port unit_id) probes in
  scan_results agg = rs
  ∧ n_reachable (scan_counts agg) = flagged reachable rs
  ∧ n_unauthenticated_read (scan_counts agg)
    = flagged (λ r, unauthenticated_read (exposure r)) rs
  ∧ n_broad_register_access (scan_counts agg)
    = flagged (λ r, broad_register_access (exposure r)) rs.
Proof.
  unfold scan_targets.
  destruct (scan_fold probes (mk_aggregate [] (mk_scan_summary 0 0 0)))
    as (Hr & H1 & H2 & H3).
  cbn zeta in *. cbn in Hr, H1, H2, H3. done.
Qed.

Lemma flagged_le (f g : probe_result → bool) rs :
  Forall (λ r, f r = true → g r = true) rs → flagged f rs ≤ flagged g rs.
Proof.
  unfold flagged, len. induction 1 as [|r rs Hr _ IH]; cbn; [lia|].
  destruct (f r); cbn.
  - rewrite Hr by done. cbn. lia.
  - destruct (g r); cbn; lia.
Qed.

(** In one probe result [broad_register_access] needs
    [unauthenticated_read], which needs [reachable]. *)
Lemma probe_flags_chain dev ip :
  let r := probe_host dev ip port unit_id in
  (broad_register_access (exposure r) = true →
   unauthenticated_read (exposure r) = true)
  ∧ (unauthenticated_read (exposure r) = true → reachable r = true).
Proof.
  intros r. subst r.
  destruct (probe_host_cases dev ip port unit_id)
    as [(_ & Hreach & Hinv & Hiff)|(_ & _ & _ & Hexp)].
  - split; [|by rewrite Hreach].
    intros Hbroad. apply Hinv, has_data_any. apply Hiff in Hbroad. lia.
  - rewrite Hexp. cbn. split; discriminate.
Qed.

End scan.

(** A scan returns one result per target, in the order of the targets;
    each of its three counters is the number of results with that flag
    set, and 0 <= broad_register_access <= unauthenticated_read <=
    reachable <= number of targets. *)
Theorem scan_targets_counts
    (probes : list (string * Modbus.device)) (port unit_id : Z) :
  let agg := Modbus.scan_targets probes port unit_id in
  let c := Modbus.scan_counts agg in
  map Modbus.ip (Modbus.scan_results agg) = map fst probes
  ∧ Modbus.n_reachable c = flagged Modbus.reachable (Modbus.scan_results agg)
  ∧ Modbus.n_unauthenticated_read c
    = flagged (λ r, Modbus.unauthenticated_read (Modbus.exposure r))
        (Modbus.scan_results agg)
  ∧ Modbus.n_broad_register_access c
    = flagged (λ r, Modbus.broad_register_access (Modbus.exposure r))
        (Modbus.scan_results agg)
  ∧ (0 ≤ Modbus.n_broad_register_access c ≤ Modbus.n_unauthenticated_read c)
  ∧ (Modbus.n_unauthenticated_read c ≤ Modbus.n_reachable c ≤ len probes).
Proof.
  intros agg c. subst agg c.
  destruct (scan_targets_spec port unit_id probes) as (Hr & H1 & H2 & H3).
  cbn zeta in *. rewrite H1, H2, H3, Hr.
  set (rs := map _ probes).
  assert (Forall (λ r, ∃ dev ip, r = Modbus.probe_host dev ip port unit_id) rs)
    as Hrs.
  { subst rs. apply Forall_forall. intros r Hin.
    apply list_elem_of_fmap in Hin as ([ip dev] & -> & _). eauto. }
  split.
  { subst rs. rewrite map_map. apply map_ext. intros [i dev].
    apply probe_host_ip. }
  do 3 (split; [done|]). split; [split|split].
  - apply len_nonneg.
  - apply flagged_le. eapply Forall_impl; [exact Hrs|].
    intros r (dev & ip & ->). apply probe_flags_chain.
  - apply flagged_le. eapply Forall_impl; [exact Hrs|].
    intros r (dev & ip & ->). apply probe_flags_chain.
  - unfold flagged. etrans; [apply len_filter_le|].
    subst rs. unfold len. by rewrite length_map.
Qed.

(** Scanning two target lists one after the other is scanning their
    concatenation: the results are appended and the counters add up. *)
Theorem scan_targets_app
    (probes probes' : list (string * Modbus.device)) (port unit_id : Z) :
  let a := Modbus.scan_targets probes port unit_id in
  let a' := Modbus.scan_targets probes' port unit_id in
  let both := Modbus.scan_targets (probes ++ probes') port unit_id in
  Modbus.scan_results both
  = (Modbus.scan_results a ++ Modbus.scan_results a')%list
  ∧ Modbus.n_reachable (Modbus.scan_counts both)
    = Modbus.n_reachable (Modbus.scan_counts a)
      + Modbus.n_reachable (Modbus.scan_counts a')
  ∧ Modbus.n_unauthenticated_read (Modbus.scan_counts both)
    = Modbus.n_unauthenticated_read (Modbus.scan_counts a)
      + Modbus.n_unauthenticated_read (Modbus.scan_counts a')
  ∧ Modbus.n_broad_register_access (Modbus.scan_counts both)
    = Modbus.n_broad_register_access (Modbus.scan_counts a)
      + Modbus.n_broad_register_access (Modbus.scan_counts a').
Proof.
  intros a a' both. subst a a' both.
  destruct (scan_targets_spec port unit_id probes) as (Hr & H1 & H2 & H3).
  destruct (scan_targets_spec port unit_id probes') as (Hr' & H1' & H2' & H3').
  destruct (scan_targets_spec port unit_id (probes ++ probes'))
    as (Hrb & H1b & H2b & H3b).
  cbn zeta in *.
  rewrite Hr, H1, H2, H3, Hr', H1', H2', H3', Hrb, H1b, H2b, H3b.
  rewrite map_app, !flagged_app. done.
Qed.

(* ===================================================================== *)
(** ** Further properties of target expansion *)
(* ===================================================================== *)

Lemma contains_char_lstrip c s :
  Str.contains_char c (Str.lstrip s) = true → Str.contains_char c s = true.
Proof.
  induction s as [|c' s IH]; [done|]. cbn.
  destruct (Str.is_space c'); [|done].
  intros H. rewrite (IH H). apply orb_true_r.
Qed.

Lemma contains_char_rstrip c s :
  Str.contains_char c (Str.rstrip s) = true → Str.contains_char c s = true.
Proof.
  induction s as [|c' s IH]; [done|]. cbn.
  destruct (Str.is_space c' && _); [done|]. cbn.
  intros [->|H]%orb_true_iff; [done|]. rewrite (IH H). apply orb_true_r.
Qed.

Lemma contains_char_strip c s :
  Str.contains_char c s = false → Str.contains_char c (Str.strip s) = false.
Proof.
  intros Hs. destruct (Str.contains_char c (Str.strip s)) eqn:H; [|done].
  unfold Str.strip in H.
  apply contains_char_rstrip, contains_char_lstrip in H. congruence.
Qed.

Lemma contains_char_snoc c cur c' :
  Str.contains_char c cur = false → Ascii.eqb c' c = false →
  Str.contains_char c (cur ++ String c' "") = false.
Proof.
  intros Hcur Hc. induction cur as [|x cur IH].
  - rewrite append_nil_l. cbn. rewrite Ascii.eqb_sym, Hc. done.
  - rewrite append_cons. cbn in *.
    apply orb_false_iff in Hcur as [-> Hcur]. cbn. by apply IH.
Qed.

(** No piece of [s.split(sep)] holds the separator. *)
Lemma split_go_pieces sep cur s :
  Str.contains_char sep cur = false →
  Forall (λ t, Str.contains_char sep t = false) (Str.split_go sep cur s).
Proof.
  revert cur. induction s as [|c s IH]; intros cur Hcur; cbn.
  - by constructor.
  - destruct (Ascii.eqb c sep) eqn:Hc.
    + constructor; [done|]. by apply IH.
    + apply IH. by apply contains_char_snoc.
Qed.

Lemma stripped_nonempty_clean sep items :
  Forall (λ t, Str.contains_char sep t = false) items →
  Forall (λ t, t ≠ "" ∧ Str.strip t = t ∧ Str.contains_char sep t = false)
         (Modbus.stripped_nonempty items).
Proof.
  unfold Modbus.stripped_nonempty.
  induction 1 as [|t items Ht _ IH]; cbn; [constructor|].
  destruct (String.eqb (Str.strip t) "") eqn:Hne; cbn; [exact IH|].
  constructor; [|exact IH]. split; [|split].
  - by apply String.eqb_neq.
  - apply strip_idempotent.
  - by apply contains_char_strip.
Qed.

(** White space around the argument does not matter: the expansion of
    an argument is the expansion of the argument stripped. *)
Theorem expand_targets_strip_invariant
    (read_text : string → result string)
    (ip_network_hosts : string → option (list string)) (arg : string) :
  Modbus.expand_targets read_text ip_network_hosts (Str.strip arg)
  = Modbus.expand_targets read_text ip_network_hosts arg.
Proof. unfold Modbus.expand_targets. by rewrite strip_idempotent. Qed.

(** For an argument with a comma and no leading [@], every entry of the
    expansion is non-empty, has no white space around it and holds no
    comma; the file and address library are not consulted. *)
Theorem expand_targets_comma_entries
    (read_text : string → result string)
    (ip_network_hosts : string → option (list string)) (arg : string) :
  Str.startswith_char "@" (Str.strip arg) = false →
  Str.contains_char "," (Str.strip arg) = true →
  ∃ entries,
    Modbus.expand_targets read_text ip_network_hosts arg = Ok entries
    ∧ Forall (λ t, t ≠ "" ∧ Str.strip t = t
                   ∧ Str.contains_char "," t = false) entries
    ∧ ∀ read_text' ip_network_hosts',
        Modbus.expand_targets read_text' ip_network_hosts' arg = Ok entries.
Proof.
  intros Hat Hcomma. unfold Modbus.expand_targets. rewrite Hat, Hcomma.
  eexists. split; [reflexivity|]. split; [|done].
  apply stripped_nonempty_clean. by apply split_go_pieces.
Qed.

Lemma expand_targets_comma_entries_witness :
  ∃ entries,
    Modbus.expand_targets no_files Ipaddress.ip_network_hosts
      " 10.0.0.1 , ,10.0.0.2,"
    = Ok entries
    ∧ Forall (λ t, t ≠ "" ∧ Str.strip t = t
                   ∧ Str.contains_char "," t = false) entries
    ∧ ∀ read_text' ip_network_hosts',
        Modbus.expand_targets read_text' ip_network_hosts'
          " 10.0.0.1 , ,10.0.0.2,"
        = Ok entries.
Proof.
  apply (expand_targets_comma_entries no_files Ipaddress.ip_network_hosts
           " 10.0.0.1 , ,10.0.0.2,"); reflexivity.
Defined.

Example expand_targets_ragged_list :
  Modbus.expand_targets no_files Ipaddress.ip_network_hosts
    " 10.0.0.1 , ,10.0.0.2,"
  = Ok ["10.0.0.1"; "10.0.0.2"].
Proof. vm_compute. reflexivity. Qed.

(* ===================================================================== *)
(** ** Further properties of the index builders *)
(* ===================================================================== *)

Lemma fold_filter_json entries st :
  fold_left GlobalIndex.visit entries st
  = fold_left GlobalIndex.visit (List.filter is_json_file entries) st.
Proof.
  revert st. induction entries as [|e entries IH]; intros st; [done|].
  cbn [fold_left List.filter]. destruct (is_json_file e) eqn:He.
  - cbn [fold_left]. apply IH.
  - rewrite (visit_other _ _ He). apply IH.
Qed.

(** As long as no summary holds a float, the totals of two listings put
    together are the sums of their totals, and all of them are
    integers. *)
Theorem collect_summary_app (entries entries' : list dir_entry) :
  Forall (λ e, float_free e = true) entries →
  Forall (λ e, float_free e = true) entries' →
  ∃ n p s n' p' s' : Z,
    GlobalIndex.collect_summary (Some entries) = (n, NInt p, NInt s)
    ∧ GlobalIndex.collect_summary (Some entries') = (n', NInt p', NInt s')
    ∧ GlobalIndex.collect_summary (Some (entries ++ entries')%list)
      = (n + n', NInt (p + p'), NInt (s + s')).
Proof.
  intros H H'. do 6 eexists.
  split; [by apply collect_summary_sums|].
  split; [by apply collect_summary_sums|].
  rewrite collect_summary_sums by (by apply Forall_app).
  by rewrite !map_app, !Zsum_app.
Qed.

Lemma collect_summary_app_witness :
  ∃ n p s n' p' s' : Z,
    GlobalIndex.collect_summary (Some C3_directory) = (n, NInt p, NInt s)
    ∧ GlobalIndex.collect_summary (Some C2_directory) = (n', NInt p', NInt s')
    ∧ GlobalIndex.collect_summary (Some (C3_directory ++ C2_directory)%list)
      = (n + n', NInt (p + p'), NInt (s + s')).
Proof.
  apply (collect_summary_app C3_directory C2_directory);
    repeat constructor.
Defined.

(** As long as no summary holds a float, the totals do not depend on the
    order in which the folder is listed. *)
Theorem collect_summary_Permutation (entries entries' : list dir_entry) :
  Forall (λ e, float_free e = true) entries →
  entries ≡ₚ entries' →
  GlobalIndex.collect_summary (Some entries)
  = GlobalIndex.collect_summary (Some entries').
Proof.
  intros Hall Hperm.
  assert (Forall (λ e, float_free e = true) entries') as Hall'.
  { rewrite Forall_forall in Hall |- *. intros e He. apply Hall.
    by rewrite Hperm. }
  rewrite !collect_summary_sums by done.
  by rewrite (Zsum_Permutation _ _ (Permutation_map (λ e, (delta e).1.1) Hperm)),
    (Zsum_Permutation _ _ (Permutation_map (λ e, (delta e).1.2) Hperm)),
    (Zsum_Permutation _ _ (Permutation_map (λ e, (delta e).2) Hperm)).
Qed.

Lemma collect_summary_Permutation_witness :
  GlobalIndex.collect_summary (Some mixed_directory)
  = GlobalIndex.collect_summary (Some mixed_directory_reordered).
Proof.
  apply (collect_summary_Permutation mixed_directory mixed_directory_reordered).
  - repeat constructor.
  - unfold mixed_directory, mixed_directory_reordered.
    match goal with
    | |- [?a; ?b; ?c] ≡ₚ [?c; ?a; ?b] => exact (Permutation_app_comm [a; b] [c])
    end.
Defined.

(** A float total is added like any other number: the counter becomes a
    float. *)
Example float_total_is_added :
  GlobalIndex.collect_summary
    (Some [("x.json", Ok (summary_doc (JFloat 1.5) (JInt 2)))])
  = (1, NFloat 1.5, NInt 2).
Proof. vm_compute. reflexivity. Qed.

(** With float totals the result does depend on the order of the
    listing, binary64 addition not being associative. *)
Example float_totals_depend_on_order :
  GlobalIndex.collect_summary (Some float_directory)
  = (3, NFloat 0.6000000000000001, NInt 3)
  ∧ GlobalIndex.collect_summary (Some (rev float_directory))
    = (3, NFloat 0.6, NInt 3).
Proof. split; vm_compute; reflexivity. Qed.

(** An integer beyond the range of a float cannot be added to a float
    total, nor a float to it: the [OverflowError] is swallowed with the
    rest, and the file adds nothing to either total. *)
Example overflow_is_swallowed :
  GlobalIndex.collect_summary (Some overflow_directory)
  = (2, NFloat 1.5, NInt 1)
  ∧ GlobalIndex.collect_summary (Some (rev overflow_directory))
    = (2, NInt (10 ^ 400), NInt 1).
Proof. split; vm_compute; reflexivity. Qed.

(** Only names ending in [.json] count: the other entries of the folder
    change nothing, and the first total is the number of [.json] names,
    whether or not the files behind them can be read. *)
Theorem collect_summary_json_names (entries : list dir_entry) :
  GlobalIndex.collect_summary (Some entries)
  = GlobalIndex.collect_summary (Some (List.filter is_json_file entries))
  ∧ (GlobalIndex.collect_summary (Some entries)).1.1
    = len (List.filter is_json_file entries).
Proof.
  split; [|apply collect_summary_total_pcaps].
  unfold GlobalIndex.collect_summary. by rewrite fold_filter_json.
Qed.

(* --------------------------------------------------------------------- *)

Lemma string_length_append (s t : string) :
  String.length (s ++ t) = (String.length s + String.length t)%nat.
Proof.
  induction s as [|c s IH]; [done|]. rewrite append_cons. cbn. by rewrite IH.
Qed.

Lemma substring_all (t : string) : substring 0 (String.length t) t = t.
Proof. induction t as [|c t IH]; [done|]. cbn. by rewrite IH. Qed.

Lemma substring_skip (s t : string) (m : nat) :
  substring (String.length s) m (s ++ t) = substring 0 m t.
Proof. induction s as [|c s IH]; [done|]. rewrite append_cons. cbn. exact IH. Qed.

(** A name made of a stem and a suffix ends with the suffix. *)
Lemma endswith_append (s t : string) : Str.endswith (s ++ t) t = true.
Proof.
  unfold Str.endswith. rewrite string_length_append.
  replace (String.length s + String.length t - String.length t)%nat
    with (String.length s) by lia.
  rewrite substring_skip, substring_all, String.eqb_refl.
  rewrite andb_true_r. apply Nat.leb_le. lia.
Qed.

(** The HTML name of a report file: the suffix is replaced when the stem
    holds no dot. *)
Lemma replace_json_html (stem : string) :
  dotless stem = true →
  Str.replace ".json" ".html" (stem ++ ".json") = stem ++ ".html".
Proof.
  unfold Str.replace, dotless.
  induction stem as [|c stem IH]; [done|].
  rewrite !append_cons. cbn [all_chars].
  intros [Hc Hstem]%andb_true_iff. apply negb_true_iff in Hc.
  cbn [Str.replace_go String.prefix].
  destruct (ascii_dec "." c) as [<-|_]; [done|].
  by rewrite (IH Hstem).
Qed.

(** A readable report file is listed under its own name with the HTML
    name next to it; a document that lacks [meta] or [summary] is listed
    with empty objects in their place, and nothing is printed. *)
Theorem load_reports_lists_report
    (stem : string) (d : gmap string json) :
  dotless stem = true →
  ProtocolIndex.load_reports (Some [(stem ++ ".json", Ok (JDict d))])
  = Ok ([ProtocolIndex.mk_report (stem ++ ".json") (stem ++ ".html")
           (default (JDict ∅) (d !! "meta"))
           (default (JDict ∅) (d !! "summary"))],
        []).
Proof.
  intros Hstem. rewrite load_reports_spec. cbn.
  unfold kept, warned, is_json_file. cbn [fst snd].
  rewrite endswith_append, (replace_json_html _ Hstem). done.
Qed.

Lemma load_reports_lists_report_witness :
  ProtocolIndex.load_reports (Some [("plant_a" ++ ".json", Ok (JDict ∅))])
  = Ok ([ProtocolIndex.mk_report ("plant_a" ++ ".json") ("plant_a" ++ ".html")
           (default (JDict ∅) ((∅ : gmap string json) !! "meta"))
           (default (JDict ∅) ((∅ : gmap string json) !! "summary"))],
        []).
Proof. apply (load_reports_lists_report "plant_a" ∅). reflexivity. Defined.

Lemma omap_filter_json {A : Type} (f : dir_entry → option A) entries :
  (∀ e, is_json_file e = false → f e = None) →
  omap f (List.filter is_json_file entries) = omap f entries.
Proof.
  intros Hf. induction entries as [|e entries IH]; [done|]. cbn.
  destruct (is_json_file e) eqn:He; cbn; rewrite IH; [done|].
  by rewrite (Hf e He).
Qed.

(** A list is a rearrangement of its items that pass a test followed by
    those that fail it. *)
Lemma filter_split_Permutation {A : Type} (p : A → bool) (l : list A) :
  (List.filter p l ++ List.filter (λ x, negb (p x)) l)%list ≡ₚ l.
Proof.
  induction l as [|x l IH]; [done|]. cbn [List.filter].
  destruct (p x); cbn [negb app].
  - by constructor.
  - rewrite <- Permutation_middle. by constructor.
Qed.

(** Every [.json] name of the folder ends up either as one listed
    report or as one printed warning, never both and never neither: the
    reports are, in listing order, the [.json] names whose document is an
    object, the warnings, in listing order, the [.json] names whose file
    cannot be read or parsed or holds no object, and the two lists
    together are a rearrangement of the [.json] names.  The other names
    are passed over. *)
Theorem load_reports_partition (entries : list dir_entry) :
  ∃ reports printed,
    ProtocolIndex.load_reports (Some entries) = Ok (reports, printed)
    ∧ map ProtocolIndex.json_name reports
      = map fst (List.filter (λ e, negb (skipped e))
                   (List.filter is_json_file entries))
    ∧ map ProtocolIndex.warned_file printed
      = map fst (List.filter skipped (List.filter is_json_file entries))
    ∧ (map ProtocolIndex.json_name reports
       ++ map ProtocolIndex.warned_file printed)%list
      ≡ₚ map fst (List.filter is_json_file entries)
    ∧ ProtocolIndex.load_reports (Some (List.filter is_json_file entries))
      = Ok (reports, printed).
Proof.
  rewrite !load_reports_spec. eexists _, _. split; [reflexivity|].
  assert (map ProtocolIndex.json_name (omap kept entries)
          = map fst (List.filter (λ e, negb (skipped e))
                       (List.filter is_json_file entries))) as Hkept.
  { rewrite kept_names. f_equal. clear.
    induction entries as [|e entries IH]; [done|]. cbn [List.filter].
    destruct (is_json_file e); cbn [andb List.filter]; [|done].
    destruct (skipped e); cbn [negb]; by rewrite IH. }
  assert (map ProtocolIndex.warned_file (omap warned entries)
          = map fst (List.filter skipped
                       (List.filter is_json_file entries))) as Hwarned.
  { rewrite warned_names. f_equal. clear.
    induction entries as [|e entries IH]; [done|]. cbn [List.filter].
    destruct (is_json_file e); cbn [andb List.filter]; [|done].
    destruct (skipped e); by rewrite IH. }
  split; [exact Hkept|]. split; [exact Hwarned|]. split.
  - rewrite Hkept, Hwarned, <- map_app.
    apply Permutation_map.
    rewrite Permutation_app_comm.
    apply (filter_split_Permutation skipped).
  - f_equal. f_equal.
    + apply omap_filter_json. intros e He. unfold kept. by rewrite He.
    + apply omap_filter_json. intros e He. unfold warned. by rewrite He.
Qed.

(* --------------------------------------------------------------------- *)

Section chart.
Import ProtocolIndex.
Variable key : string.

Lemma chart_step_spec st r :
  chart_step key st r
  = if is_dict (summary r)
    then Ok (mk_chart_data (labels st ++ [html r])
               (total_packets st ++ [summary_field "total_packets" r])
               (protocol_packets st ++ [summary_field key r])
               (suspects st ++ [summary_field "suspect_functions" r]))
    else Raise AttributeError.
Proof.
  unfold chart_step, summary_field.
  destruct (summary r); cbn; done.
Qed.

Lemma chart_loop_spec reports st :
  for_each (chart_step key) st reports
  = if forallb (λ r, is_dict (summary r)) reports
    then Ok (mk_chart_data
               (labels st ++ map html reports)
               (total_packets st ++ map (summary_field "total_packets") reports)
               (protocol_packets st ++ map (summary_field key) reports)
               (suspects st ++ map (summary_field "suspect_functions") reports))
    else Raise AttributeError.
Proof.
  revert st. induction reports as [|r reports IH]; intros st.
  - cbn. rewrite !app_nil_r. by destruct st.
  - cbn [for_each forallb map]. rewrite chart_step_spec.
    destruct (is_dict (summary r)); cbn [mbind result_bind andb]; [|done].
    rewrite IH. cbn [labels total_packets protocol_packets suspects].
    destruct (forallb _ reports); [|done].
    by rewrite <- !app_assoc.
Qed.

End chart.

(** The chart loop of [build_index] raises [AttributeError] exactly when
    some listed report has a [summary] that is not an object; otherwise
    it gathers one label and one value per list for each report, in
    order, with 0 for a missing key. *)
Theorem chart_data_raises_iff
    (key : string) (reports : list ProtocolIndex.report) :
  (ProtocolIndex.build_index_chart_data key reports = Raise AttributeError
   ↔ Exists (λ r, is_dict (ProtocolIndex.summary r) = false) reports)
  ∧ (Forall (λ r, is_dict (ProtocolIndex.summary r) = true) reports →
     ProtocolIndex.build_index_chart_data key reports
     = Ok (ProtocolIndex.mk_chart_data
             (map ProtocolIndex.html reports)
             (map (summary_field "total_packets") reports)
             (map (summary_field key) reports)
             (map (summary_field "suspect_functions") reports))).
Proof.
  unfold ProtocolIndex.build_index_chart_data. rewrite chart_loop_spec.
  cbn [ProtocolIndex.labels ProtocolIndex.total_packets
       ProtocolIndex.protocol_packets ProtocolIndex.suspects app].
  destruct (forallb _ reports) eqn:Hall.
  - rewrite forallb_forall in Hall. split; [split; [done|]|done].
    intros Hex. apply Exists_exists in Hex as (r & Hin & Hr).
    apply list_elem_of_In in Hin. rewrite (Hall r Hin) in Hr. done.
  - assert (Exists (λ r, is_dict (ProtocolIndex.summary r) = false) reports)
      as Hex.
    { clear -Hall. induction reports as [|r reports IH]; [done|].
      cbn in Hall. destruct (is_dict (ProtocolIndex.summary r)) eqn:Hr.
      - right. by apply IH.
      - by left. }
    split; [done|]. intros Hforall.
    apply Exists_exists in Hex as (r & Hin & Hr).
    rewrite Forall_forall in Hforall. rewrite (Hforall r Hin) in Hr. done.
Qed.

Lemma chart_data_raises_iff_witness :
  ProtocolIndex.build_index_chart_data "dnp3_packets" sample_reports
  = Ok (ProtocolIndex.mk_chart_data
          (map ProtocolIndex.html sample_reports)
          (map (summary_field "total_packets") sample_reports)
          (map (summary_field "dnp3_packets") sample_reports)
          (map (summary_field "suspect_functions") sample_reports)).
Proof.
  apply (proj2 (chart_data_raises_iff "dnp3_packets" sample_reports)).
  repeat constructor.
Defined.

Example chart_data_sample :
  ProtocolIndex.build_index_chart_data "dnp3_packets" sample_reports
  = Ok (ProtocolIndex.mk_chart_data ["a.html"] [JInt 3] [JInt 0] [JInt 0]).
Proof. vm_compute. reflexivity. Qed.

(** A summary file whose document is an object but whose [summary] is
    not passes [load_reports] without a warning, and the index built
    from the listing then fails: the chart loop raises, wherever the file
    stands in the folder. *)
Theorem non_object_summary_breaks_index
    (key fname : string) (d : gmap string json) (v : json)
    (before after : list dir_entry) :
  Str.endswith fname ".json" = true →
  d !! "summary" = Some v →
  is_dict v = false →
  ∃ reports printed,
    ProtocolIndex.load_reports
      (Some (before ++ (fname, Ok (JDict d)) :: after)%list)
    = Ok (reports, printed)
    ∧ map ProtocolIndex.warned_file printed
      = map fst (List.filter (λ e, is_json_file e && skipped e)
                   (before ++ after)%list)
    ∧ ProtocolIndex.build_index_chart_data key reports = Raise AttributeError.
Proof.
  intros Hext Hsumm Hv. rewrite !load_reports_spec.
  eexists _, _. split; [reflexivity|].
  rewrite <- warned_names, !omap_app. cbn [omap list_omap].
  assert (warned (fname, Ok (JDict d)) = None) as ->.
  { unfold warned, is_json_file. cbn. by rewrite Hext. }
  assert (kept (fname, Ok (JDict d))
          = Some (ProtocolIndex.mk_report fname
                    (Str.replace ".json" ".html" fname)
                    (default (JDict ∅) (d !! "meta")) v)) as ->.
  { unfold kept, is_json_file. cbn. by rewrite Hext, Hsumm. }
  split; [done|].
  apply (chart_data_raises_iff key). apply Exists_app. right. by left.
Qed.

Lemma non_object_summary_breaks_index_witness :
  ∃ reports printed,
    ProtocolIndex.load_reports
      (Some (C2_directory ++ odd_summary_entry :: [])%list)
    = Ok (reports, printed)
    ∧ map ProtocolIndex.warned_file printed
      = map fst (List.filter (λ e, is_json_file e && skipped e)
                   (C2_directory ++ [])%list)
    ∧ ProtocolIndex.build_index_chart_data "dnp3_packets" reports
      = Raise AttributeError.
Proof.
  apply (non_object_summary_breaks_index "dnp3_packets" "odd.json"
           (<["summary" := JInt 5]> ∅) (JInt 5) C2_directory []);
    reflexivity.
Defined.

(* --------------------------------------------------------------------- *)

Lemma run_entry_summarised (r : dnp3_run) :
  summarised (run_entry r)
    (Dnp3.total_packets (Dnp3.acc (run_report r)),
     Dnp3.dnp3_packets (Dnp3.acc (run_report r)),
     Dnp3.suspect_functions (Dnp3.acc (run_report r))).
Proof.
  unfold run_entry, Persisted.dnp3_report_json.
  eapply (summarised_intro _ "dnp3_packets");
    [apply endswith_append|reflexivity|reflexivity|by left
    |reflexivity|reflexivity].
Qed.

Lemma run_analysed_counters (r : dnp3_run) :
  run_analysed r →
  Dnp3.total_packets (Dnp3.acc (run_report r)) = len (run_frames r)
  ∧ Dnp3.dnp3_packets (Dnp3.acc (run_report r))
    = len (Dnp3.results (run_report r))
  ∧ Dnp3.suspect_functions (Dnp3.acc (run_report r))
    = len (List.filter Dnp3.suspect (Dnp3.results (run_report r))).
Proof.
  unfold run_analysed. intros Hrun.
  destruct (analyze_pcap_absorbed (run_frames r))
    as (rep & Hrep & Ht & Hd & Hs & _ & Hres).
  rewrite Hrun in Hrep. injection Hrep as <-.
  rewrite Ht, Hd, Hs, Hres. done.
Qed.

(** From captures to the dashboard: when the report folder holds the
    reports of a batch of analysed captures, the cross-protocol index
    shows the number of captures, the number of all frames in them and
    the number of all records flagged suspect. *)
Theorem batch_reports_global_index (runs : list dnp3_run) :
  Forall run_analysed runs →
  GlobalIndex.collect_summary (Some (map run_entry runs))
  = (len runs,
     NInt (Zsum (map (λ r, len (run_frames r)) runs)),
     NInt (Zsum (map (λ r, len (List.filter Dnp3.suspect
                                  (Dnp3.results (run_report r)))) runs))).
Proof.
  intros Hruns. rewrite collect_summary_sums.
  - assert (Zsum (map (λ e, (delta e).1.1) (map run_entry runs)) = len runs
            ∧ Zsum (map (λ e, (delta e).1.2) (map run_entry runs))
              = Zsum (map (λ r, len (run_frames r)) runs)
            ∧ Zsum (map (λ e, (delta e).2) (map run_entry runs))
              = Zsum (map (λ r, len (List.filter Dnp3.suspect
                                       (Dnp3.results (run_report r)))) runs))
      as (-> & -> & ->); [|done].
    induction Hruns as [|r runs Hr _ (IHn & IHp & IHs)]; [done|].
    cbn [map]. rewrite !Zsum_cons, IHn, IHp, IHs.
    rewrite (delta_summarised _ _ _ _ (run_entry_summarised r)).
    destruct (run_analysed_counters r Hr) as (-> & _ & ->).
    cbn [fst snd]. unfold len. cbn [List.length]. lia.
  - clear Hruns. induction runs as [|r runs IH]; constructor; [|done].
    exact (summarised_float_free _ _ (run_entry_summarised r)).
Qed.

Lemma sample_run_analysed : run_analysed sample_run.
Proof. vm_compute. reflexivity. Defined.

Lemma batch_reports_global_index_witness :
  GlobalIndex.collect_summary (Some (map run_entry [sample_run]))
  = (len [sample_run],
     NInt (Zsum (map (λ r, len (run_frames r)) [sample_run])),
     NInt (Zsum (map (λ r, len (List.filter Dnp3.suspect
                                  (Dnp3.results (run_report r))))
                   [sample_run]))).
Proof.
  apply (batch_reports_global_index [sample_run]).
  constructor; [exact sample_run_analysed|constructor].
Defined.

(** The same folder in the per-protocol index: every report is listed,
    nothing is printed, and the chart loop gathers, per capture, the HTML
    name of its report, its frame count, its record count and its suspect
    count. *)
Theorem batch_reports_protocol_index (runs : list dnp3_run) :
  Forall run_analysed runs →
  Forall (λ r, dotless (run_stem r) = true) runs →
  ∃ reports,
    ProtocolIndex.load_reports (Some (map run_entry runs)) = Ok (reports, [])
    ∧ ProtocolIndex.build_index_chart_data "dnp3_packets" reports
      = Ok (ProtocolIndex.mk_chart_data
              (map (λ r, run_stem r ++ ".html") runs)
              (map (λ r, JInt (len (run_frames r))) runs)
              (map (λ r, JInt (len (Dnp3.results (run_report r)))) runs)
              (map (λ r, JInt (len (List.filter Dnp3.suspect
                                      (Dnp3.results (run_report r))))) runs)).
Proof.
  intros Hruns Hstems. rewrite load_reports_spec.
  assert (omap warned (map run_entry runs) = []) as ->.
  { clear. induction runs as [|r runs IH]; [done|]. cbn.
    unfold warned at 1, is_json_file, run_entry. cbn [fst snd].
    by rewrite endswith_append. }
  eexists. split; [reflexivity|].
  assert (∀ r, kept (run_entry r)
               = Some (ProtocolIndex.mk_report (run_stem r ++ ".json")
                         (Str.replace ".json" ".html" (run_stem r ++ ".json"))
                         (Persisted.meta_json (run_generated_at r)
                            (OsPath.join Batch.PCAP_DIR
                               (run_stem r ++ ".pcap")))
                         (JDict
                            (<["total_packets" :=
                                 JInt (Dnp3.total_packets (Dnp3.acc (run_report r)))]>
                             (<["dnp3_packets" :=
                                  JInt (Dnp3.dnp3_packets (Dnp3.acc (run_report r)))]>
                              (<["suspect_functions" :=
                                   JInt (Dnp3.suspect_functions
                                           (Dnp3.acc (run_report r)))]>
                               (<["unique_hosts" :=
                                    Persisted.hosts_json
                                      (Dnp3.unique_hosts
                                         (Dnp3.acc (run_report r)))]> ∅)))))))
    as Hkept.
  { intros r. unfold kept, is_json_file, run_entry. cbn [fst snd].
    rewrite endswith_append. reflexivity. }
  rewrite (proj2 (chart_data_raises_iff "dnp3_packets" _)).
  - f_equal. clear -Hruns Hstems Hkept.
    induction Hruns as [|r runs Hr _ IH]; [done|].
    apply Forall_cons in Hstems as [Hstem Hstems].
    specialize (IH Hstems). cbn [map omap list_omap]. rewrite Hkept.
    injection IH as IH1 IH2 IH3 IH4.
    destruct (run_analysed_counters r Hr) as (Ht & Hd & Hs).
    cbn [map ProtocolIndex.html]. unfold summary_field at 1 3 5.
    cbn [ProtocolIndex.summary].
    rewrite (replace_json_html _ Hstem), IH1, IH2, IH3, IH4.
    f_equal; f_equal; cbn; by rewrite ?Ht, ?Hd, ?Hs.
  - clear -Hkept. induction runs as [|r runs IH]; [constructor|].
    cbn [map omap list_omap]. rewrite Hkept. constructor; [done|exact IH].
Qed.

Lemma batch_reports_protocol_index_witness :
  ∃ reports,
    ProtocolIndex.load_reports (Some (map run_entry [sample_run]))
    = Ok (reports, [])
    ∧ ProtocolIndex.build_index_chart_data "dnp3_packets" reports
      = Ok (ProtocolIndex.mk_chart_data
              (map (λ r, run_stem r ++ ".html") [sample_run])
              (map (λ r, JInt (len (run_frames r))) [sample_run])
              (map (λ r, JInt (len (Dnp3.results (run_report r))))
                   [sample_run])
              (map (λ r, JInt (len (List.filter Dnp3.suspect
                                      (Dnp3.results (run_report r)))))
                   [sample_run])).
Proof.
  apply (batch_reports_protocol_index [sample_run]).
  - constructor; [exact sample_run_analysed|constructor].
  - constructor; [reflexivity|constructor].
Defined.

(* ===================================================================== *)
(** ** Properties of the batch runner *)
(* ===================================================================== *)

Lemma rfind_char_absent c s :
  all_chars (λ x, negb (Ascii.eqb x c)) s = true → OsPath.rfind_char c s = None.
Proof.
  induction s as [|x s IH]; [done|]. cbn.
  intros [Hx Hs]%andb_true_iff. rewrite (IH Hs).
  apply negb_true_iff in Hx. by rewrite Hx.
Qed.

Lemma rfind_char_last c stem ext :
  all_chars (λ x, negb (Ascii.eqb x c)) ext = true →
  OsPath.rfind_char c (stem ++ String c ext) = Some (String.length stem).
Proof.
  intros Hext. induction stem as [|x stem IH].
  - rewrite append_nil_l. cbn. rewrite (rfind_char_absent _ _ Hext).
    by rewrite Ascii.eqb_refl.
  - rewrite append_cons. cbn. by rewrite IH.
Qed.

Lemma substring_prefix (s t : string) :
  substring 0 (String.length s) (s ++ t) = s.
Proof.
  induction s as [|c s IH]; [by destruct t|].
  rewrite append_cons. cbn. by rewrite IH.
Qed.

Lemma all_are_false c s :
  String.eqb s "" = false →
  all_chars (λ x, negb (Ascii.eqb x c)) s = true →
  OsPath.all_are c s = false.
Proof.
  destruct s as [|x s]; [done|]. cbn. intros _ [Hx _]%andb_true_iff.
  apply negb_true_iff in Hx. by rewrite Hx.
Qed.

(** A path without a slash has no directory part. *)
Lemma dirname_plain p :
  Str.contains_char "/" p = false → OsPath.dirname p = "".
Proof.
  intros Hp. unfold OsPath.dirname.
  assert (OsPath.rfind_char "/" p = None) as ->; [|done].
  induction p as [|x p IH]; [done|].
  cbn [Str.contains_char OsPath.rfind_char] in *.
  apply orb_false_iff in Hp as [Hx Hp]. rewrite (IH Hp).
  by rewrite Ascii.eqb_sym, Hx.
Qed.

Lemma plain_stem_parts stem :
  plain_stem stem = true →
  String.eqb stem "" = false
  ∧ all_chars (λ c, negb (Ascii.eqb c ".")) stem = true
  ∧ all_chars (λ c, negb (Ascii.eqb c "/")) stem = true.
Proof.
  unfold plain_stem. intros [Hne Hall]%andb_true_iff.
  split; [by apply negb_true_iff|].
  split; (eapply all_chars_impl; [|exact Hall]); cbn;
    intros c [? ?]%andb_true_iff; done.
Qed.

(** The base name of a capture: the stem, for both extensions. *)
Lemma splitext_base_capture stem ext :
  plain_stem stem = true →
  all_chars (λ c, negb (Ascii.eqb c ".")) ext = true →
  OsPath.splitext_base (stem ++ String "." ext) = stem.
Proof.
  intros (Hne & Hdot & _)%plain_stem_parts Hext. unfold OsPath.splitext_base.
  rewrite (rfind_char_last _ _ _ Hext), substring_prefix.
  by rewrite (all_are_false _ _ Hne Hdot).
Qed.

Lemma startswith_plain stem t :
  plain_stem stem = true → Str.startswith_char "/" (stem ++ t) = false.
Proof.
  intros (Hne & _ & Hslash)%plain_stem_parts.
  destruct stem as [|c stem]; [done|]. rewrite append_cons.
  cbn [Str.startswith_char all_chars] in *.
  apply andb_true_iff in Hslash as [Hc _]. apply negb_true_iff in Hc.
  by rewrite Ascii.eqb_sym.
Qed.

Lemma join_folder dir stem t :
  String.eqb dir "" = false → Str.endswith dir "/" = false →
  plain_stem stem = true →
  OsPath.join dir (stem ++ t) = dir ++ "/" ++ stem ++ t.
Proof.
  intros Hdir Hend Hstem. unfold OsPath.join.
  by rewrite (startswith_plain _ _ Hstem), Hdir, Hend.
Qed.

Section batch.
Import Batch.
Variable w : world.

Lemma run_one_line fname : line_file (run_one w fname).2 = Some fname.
Proof.
  unfold run_one. destruct (analyze_main _ _ _ _) as [written [[j h]|e]]; done.
Qed.

Lemma main_spec names :
  makedirs_error w REPORT_DIR = None →
  main w (Some names)
  = Ok (match List.filter is_capture names with
        | [] => [InfoNoFiles]
        | pcaps => InfoProcessing (len pcaps) :: map (λ f, (run_one w f).2) pcaps
        end,
        concat (map (λ f, (run_one w f).1) (List.filter is_capture names))).
Proof.
  intros Hmk. unfold main. rewrite Hmk.
  destruct (List.filter is_capture names) as [|f pcaps]; [done|].
  by rewrite !map_map.
Qed.

(** A capture that cannot be read leaves no file behind. *)
Lemma run_one_unreadable fname e :
  rdpcap w (OsPath.join PCAP_DIR fname) = Raise e →
  run_one w fname = ([], ErrorLine fname e).
Proof. intros Hrd. unfold run_one, analyze_main. by rewrite Hrd. Qed.

End batch.

(** The runner accounts for every capture: when the report folder can be
    made, it prints one line per file named [.pcap] or [.pcapng], in
    listing order, each an OK or an ERROR line for that file, after one
    line that announces their number; files with other names are passed
    over, and without captures nothing is written. *)
Theorem batch_accounts_for_every_capture
    (w : Batch.world) (names : list string) :
  Batch.makedirs_error w Batch.REPORT_DIR = None →
  ∃ lines written,
    Batch.main w (Some names) = Ok (lines, written)
    ∧ (List.filter Batch.is_capture names = [] →
       lines = [Batch.InfoNoFiles] ∧ written = [])
    ∧ (List.filter Batch.is_capture names ≠ [] →
       ∃ rest,
         lines
         = Batch.InfoProcessing (len (List.filter Batch.is_capture names))
           :: rest
         ∧ map line_file rest
           = map Some (List.filter Batch.is_capture names)).
Proof.
  intros Hmk. rewrite (main_spec w names Hmk). eexists _, _.
  split; [reflexivity|]. split.
  - intros ->. done.
  - intros Hne. destruct (List.filter Batch.is_capture names) as [|f pcaps];
      [done|].
    eexists. split; [reflexivity|]. rewrite map_map.
    apply map_ext. intros g. apply run_one_line.
Qed.

Lemma batch_accounts_for_every_capture_witness :
  ∃ lines written,
    Batch.main sample_world (Some ["notes.txt"; "plant_a.pcap"; "x.pcapng"])
    = Ok (lines, written)
    ∧ (List.filter Batch.is_capture ["notes.txt"; "plant_a.pcap"; "x.pcapng"]
       = [] →
       lines = [Batch.InfoNoFiles] ∧ written = [])
    ∧ (List.filter Batch.is_capture ["notes.txt"; "plant_a.pcap"; "x.pcapng"]
       ≠ [] →
       ∃ rest,
         lines
         = Batch.InfoProcessing
             (len (List.filter Batch.is_capture
                     ["notes.txt"; "plant_a.pcap"; "x.pcapng"]))
           :: rest
         ∧ map line_file rest
           = map Some (List.filter Batch.is_capture
                         ["notes.txt"; "plant_a.pcap"; "x.pcapng"])).
Proof.
  apply (batch_accounts_for_every_capture sample_world
           ["notes.txt"; "plant_a.pcap"; "x.pcapng"]).
  reflexivity.
Defined.

(** A capture that cannot be read does not disturb the batch: the files
    written are those written without it, and an ERROR line names it. *)
Theorem batch_unreadable_capture_isolated
    (w : Batch.world) (before after : list string) (bad : string) (e : exn) :
  Batch.makedirs_error w Batch.REPORT_DIR = None →
  Batch.is_capture bad = true →
  Batch.rdpcap w (OsPath.join Batch.PCAP_DIR bad) = Raise e →
  ∃ lines lines' written,
    Batch.main w (Some (before ++ bad :: after)%list) = Ok (lines, written)
    ∧ Batch.main w (Some (before ++ after)%list) = Ok (lines', written)
    ∧ In (Batch.ErrorLine bad e) lines.
Proof.
  intros Hmk Hcap Hrd. rewrite !(main_spec w _ Hmk).
  eexists _, _, _. split; [reflexivity|].
  rewrite !List.filter_app. cbn [List.filter]. rewrite Hcap.
  rewrite !map_app, !concat_app. cbn [map concat].
  rewrite (run_one_unreadable w bad e Hrd). cbn [fst snd app].
  split; [reflexivity|].
  destruct (List.filter Batch.is_capture before) as [|f pcaps]; cbn.
  - right. left. by rewrite (run_one_unreadable w bad e Hrd).
  - right. right. rewrite map_app. apply in_or_app. right. left.
    by rewrite (run_one_unreadable w bad e Hrd).
Qed.

Lemma batch_unreadable_capture_isolated_witness :
  ∃ lines lines' written,
    Batch.main sample_world (Some (["plant_a.pcap"] ++ "x.pcapng" :: [])%list)
    = Ok (lines, written)
    ∧ Batch.main sample_world (Some (["plant_a.pcap"] ++ [])%list)
      = Ok (lines', written)
    ∧ In (Batch.ErrorLine "x.pcapng" OSError) lines.
Proof.
  apply (batch_unreadable_capture_isolated sample_world
           ["plant_a.pcap"] [] "x.pcapng" OSError); reflexivity.
Defined.

(* --------------------------------------------------------------------- *)

Lemma append_nonempty_l (s t : string) :
  String.eqb s "" = false → String.eqb (s ++ t) "" = false.
Proof. destruct s; [done|]. by rewrite append_cons. Qed.

Lemma capture_name_is_capture stem ext :
  ext = "pcap" ∨ ext = "pcapng" →
  Batch.is_capture (stem ++ "." ++ ext) = true.
Proof.
  unfold Batch.is_capture. intros [-> | ->].
  - change ("." ++ "pcap") with ".pcap". by rewrite endswith_append.
  - change ("." ++ "pcapng") with ".pcapng".
    by rewrite (endswith_append stem ".pcapng"), orb_true_r.
Qed.

(** What the runner leaves behind for one capture that can be read and
    whose reports can be written: a JSON report and an HTML report named
    after the stem of the capture, for either extension; the JSON
    document is the report of the analysis of the frames, and the
    cross-protocol index reads from it the number of frames, of records
    and of suspect records. *)
Theorem batch_report_of_capture
    (w : Batch.world) (stem ext : string) (frames : list packet) :
  plain_stem stem = true →
  ext = "pcap" ∨ ext = "pcapng" →
  Batch.rdpcap w ("pcaps/dnp3/" ++ stem ++ "." ++ ext) = Ok frames →
  Batch.write_failure w ("reports/dnp3_batch/" ++ stem ++ ".json") = None →
  Batch.write_failure w ("reports/dnp3_batch/" ++ stem ++ ".html") = None →
  ∃ rep doc,
    Dnp3.analyze_pcap frames = Ok rep
    ∧ doc = Persisted.dnp3_report_json
              (Batch.stamp_report w ("pcaps/dnp3/" ++ stem ++ "." ++ ext))
              ("pcaps/dnp3/" ++ stem ++ "." ++ ext) rep
    ∧ Batch.run_one w (stem ++ "." ++ ext)
      = ([("reports/dnp3_batch/" ++ stem ++ ".json", Batch.JsonText doc);
          ("reports/dnp3_batch/" ++ stem ++ ".html", Batch.HtmlText)],
         Batch.OkLine (stem ++ "." ++ ext)
           ("reports/dnp3_batch/" ++ stem ++ ".json")
           ("reports/dnp3_batch/" ++ stem ++ ".html"))
    ∧ summarised (stem ++ ".json", Ok doc)
        (len frames, len (Dnp3.results rep),
         len (List.filter Dnp3.suspect (Dnp3.results rep))).
Proof.
  intros Hstem Hext Hrd Hjson Hhtml.
  destruct (analyze_pcap_absorbed frames)
    as (rep & Hrep & Ht & Hd & Hs & _ & Hres).
  exists rep. eexists. split; [done|]. split; [reflexivity|].
  assert (OsPath.splitext_base (stem ++ "." ++ ext) = stem) as Hbase.
  { change ("." ++ ext) with (String "." ext).
    apply splitext_base_capture; [done|]. by destruct Hext as [-> | ->]. }
  assert (∀ t, OsPath.join Batch.REPORT_DIR (stem ++ t)
               = "reports/dnp3_batch/" ++ stem ++ t) as Hrep_dir.
  { intros t. by rewrite join_folder. }
  assert (OsPath.join Batch.PCAP_DIR (stem ++ "." ++ ext)
          = "pcaps/dnp3/" ++ stem ++ "." ++ ext) as Hpcap_dir.
  { by rewrite join_folder. }
  split.
  - unfold Batch.run_one, Batch.analyze_main.
    rewrite Hbase, !Hrep_dir, Hpcap_dir, Hrd. cbn [mbind result_bind].
    rewrite Hrep.
    assert (∀ t, String.eqb ("reports/dnp3_batch/" ++ stem ++ t) "" = false)
      as Hne by done.
    rewrite !Hne, Hjson, Hhtml. reflexivity.
  - rewrite <- Ht, Hres.
    replace (len (omap contributed frames))
      with (Dnp3.dnp3_packets (Dnp3.acc rep)) by done.
    replace (len (List.filter Dnp3.suspect (omap contributed frames)))
      with (Dnp3.suspect_functions (Dnp3.acc rep)) by done.
    eapply (summarised_intro _ "dnp3_packets");
      [apply endswith_append|reflexivity|reflexivity|by left
      |reflexivity|reflexivity].
Qed.

Lemma batch_report_of_capture_witness :
  ∃ rep doc,
    Dnp3.analyze_pcap [frame_A; frame_B; frame_C] = Ok rep
    ∧ doc = Persisted.dnp3_report_json
              (Batch.stamp_report sample_world
                 ("pcaps/dnp3/" ++ "plant_a" ++ "." ++ "pcap"))
              ("pcaps/dnp3/" ++ "plant_a" ++ "." ++ "pcap") rep
    ∧ Batch.run_one sample_world ("plant_a" ++ "." ++ "pcap")
      = ([("reports/dnp3_batch/" ++ "plant_a" ++ ".json", Batch.JsonText doc);
          ("reports/dnp3_batch/" ++ "plant_a" ++ ".html", Batch.HtmlText)],
         Batch.OkLine ("plant_a" ++ "." ++ "pcap")
           ("reports/dnp3_batch/" ++ "plant_a" ++ ".json")
           ("reports/dnp3_batch/" ++ "plant_a" ++ ".html"))
    ∧ summarised ("plant_a" ++ ".json", Ok doc)
        (len [frame_A; frame_B; frame_C], len (Dnp3.results rep),
         len (List.filter Dnp3.suspect (Dnp3.results rep))).
Proof.
  apply (batch_report_of_capture sample_world "plant_a" "pcap"
           [frame_A; frame_B; frame_C]); try reflexivity.
  by left.
Defined.

(** [dnp3_analyze.main] cannot write to a report path that has no
    directory part: the capture is read and analysed, then [save_json]
    raises on the empty directory name and nothing is written. *)
Theorem report_path_without_directory_raises
    (w : Batch.world) (pcap_file json_out html_out : string)
    (frames : list packet) :
  Batch.rdpcap w pcap_file = Ok frames →
  String.eqb json_out "" = false →
  Str.contains_char "/" json_out = false →
  Batch.analyze_main w pcap_file json_out html_out = ([], Raise OSError).
Proof.
  intros Hrd Hne Hplain. unfold Batch.analyze_main. rewrite Hrd.
  cbn [mbind result_bind].
  destruct (analyze_pcap_absorbed frames) as (rep & -> & _).
  rewrite Hne. unfold Batch.write_failure at 1.
  by rewrite (dirname_plain _ Hplain).
Qed.

Lemma report_path_without_directory_raises_witness :
  Batch.analyze_main sample_world "pcaps/dnp3/plant_a.pcap" "report.json"
    "out/report.html"
  = ([], Raise OSError).
Proof.
  apply (report_path_without_directory_raises sample_world
           "pcaps/dnp3/plant_a.pcap" "report.json" "out/report.html"
           [frame_A; frame_B; frame_C]); reflexivity.
Defined.

(** When the JSON report can be written and the HTML report cannot,
    [dnp3_analyze.main] raises after the JSON report is on disk: the
    failed call leaves that file behind. *)
Theorem html_failure_leaves_json_behind
    (w : Batch.world) (pcap_file json_out html_out : string)
    (frames : list packet) (e : exn) :
  Batch.rdpcap w pcap_file = Ok frames →
  String.eqb json_out "" = false →
  String.eqb html_out "" = false →
  Batch.write_failure w json_out = None →
  Batch.write_failure w html_out = Some e →
  ∃ rep,
    Dnp3.analyze_pcap frames = Ok rep
    ∧ Batch.analyze_main w pcap_file json_out html_out
      = ([(json_out,
           Batch.JsonText
             (Persisted.dnp3_report_json (Batch.stamp_report w pcap_file)
                pcap_file rep))],
         Raise e).
Proof.
  intros Hrd Hj Hh Hwj Hwh. unfold Batch.analyze_main. rewrite Hrd.
  cbn [mbind result_bind].
  destruct (analyze_pcap_absorbed frames) as (rep & -> & _).
  exists rep. split; [done|]. by rewrite Hj, Hh, Hwj, Hwh.
Qed.

Lemma html_failure_leaves_json_behind_witness :
  ∃ rep,
    Dnp3.analyze_pcap [frame_A; frame_B; frame_C] = Ok rep
    ∧ Batch.analyze_main sample_world "pcaps/dnp3/plant_a.pcap"
        "out/report.json" "report.html"
      = ([("out/report.json",
           Batch.JsonText
             (Persisted.dnp3_report_json
                (Batch.stamp_report sample_world "pcaps/dnp3/plant_a.pcap")
                "pcaps/dnp3/plant_a.pcap" rep))],
         Raise OSError).
Proof.
  apply (html_failure_leaves_json_behind sample_world
           "pcaps/dnp3/plant_a.pcap" "out/report.json" "report.html"
           [frame_A; frame_B; frame_C] OSError); reflexivity.
Defined.
